(** * REVS-index: the scraping core, embedded and checked against its specification

    The development follows the Python sources module by module:
    - [PyStr]: the [str] operations the code relies on ([lower], [upper],
      [strip], [split], [find], slicing, [replace], [int()], [float()]);
    - [Re]: the fragment of Python's [re] that the patterns written in the
      sources use (literals, [\d], character classes, [+], [{n}], [^], [$],
      the [re.I] flag), with Python's meaning for [$];
    - the extractors, the data model, the delay strategy, the listing
      loader, the variant derivation, the storage and the scraping
      pipeline, each in a module named after its source;
    - the vocabulary of the statements, and then the statements.

    Characters are 8-bit codes: the text the statements talk about is
    ASCII. Finite floats are exact rationals: no statement below depends
    on rounding. Random draws, the page, the live browser and the
    regular-expression search over configured patterns are inputs of the
    functions that use them. *)

From Stdlib Require Import ZArith QArith Qround Bool List Ascii String Lia.
From stdpp Require Import base gmap strings.

Local Open Scope string_scope.
Local Open Scope Z_scope.

(** ** Exceptions and results *)

Inductive exn : Set := ValueError | OverflowError | TypeError | KeyError.

Inductive res (A : Type) : Type :=
| Ok (a : A)
| Raise (e : exn).
Arguments Ok {A} a.
Arguments Raise {A} e.

Definition res_bind {A B} (k : A -> res B) (r : res A) : res B :=
  match r with
  | Ok a => k a
  | Raise e => Raise e
  end.

#[global] Instance res_mret : MRet res := @Ok.
#[global] Instance res_mbind : MBind res := @res_bind.

(** ** Python strings *)

Module PyStr.

Definition code (c : ascii) : nat := nat_of_ascii c.

Definition in_range (lo hi : nat) (c : ascii) : bool :=
  Nat.leb lo (code c) && Nat.leb (code c) hi.

Definition is_upper (c : ascii) : bool := in_range 65 90 c.
Definition is_lower (c : ascii) : bool := in_range 97 122 c.
Definition is_digit (c : ascii) : bool := in_range 48 57 c.

(** [str.isspace] on one character: TAB, LF, VT, FF, CR, FS, GS, RS, US, SPACE. *)
Definition isspace (c : ascii) : bool := in_range 9 13 c || in_range 28 32 c.

Definition lower_char (c : ascii) : ascii :=
  if is_upper c then ascii_of_nat (code c + 32) else c.

Definition upper_char (c : ascii) : ascii :=
  if is_lower c then ascii_of_nat (code c - 32) else c.

Fixpoint map_str (f : ascii -> ascii) (s : string) : string :=
  match s with
  | EmptyString => EmptyString
  | String c s' => String (f c) (map_str f s')
  end.

Definition lower : string -> string := map_str lower_char.
Definition upper : string -> string := map_str upper_char.

Definition len (s : string) : Z := Z.of_nat (String.length s).

Fixpoint drop (n : nat) (s : string) : string :=
  match n, s with
  | O, _ => s
  | S n', String _ s' => drop n' s'
  | S _, EmptyString => EmptyString
  end.

Fixpoint take (n : nat) (s : string) : string :=
  match n, s with
  | S n', String c s' => String c (take n' s')
  | _, _ => EmptyString
  end.

(** The index a slice bound denotes: negative bounds count from the end,
    and every bound is clamped to [0, len]. *)
Definition slice_index (k : Z) (s : string) : nat :=
  Z.to_nat (if k <? 0 then Z.max 0 (len s + k) else k).

(** [s[k:]] and [s[:k]]. *)
Definition slice_from (k : Z) (s : string) : string := drop (slice_index k s) s.
Definition slice_to (k : Z) (s : string) : string := take (slice_index k s) s.

Fixpoint lstrip (s : string) : string :=
  match s with
  | EmptyString => EmptyString
  | String c s' => if isspace c then lstrip s' else s
  end.

Fixpoint rstrip (s : string) : string :=
  match s with
  | EmptyString => EmptyString
  | String c s' =>
      match rstrip s' with
      | EmptyString => if isspace c then EmptyString else String c EmptyString
      | r => String c r
      end
  end.

(** [s.strip()] *)
Definition strip (s : string) : string := rstrip (lstrip s).

(** [s.split()]: the maximal runs of non-whitespace characters. *)
Fixpoint split_aux (cur : option string) (s : string) : list string :=
  match s with
  | EmptyString => match cur with Some w => [w] | None => [] end
  | String c s' =>
      if isspace c then
        match cur with
        | Some w => w :: split_aux None s'
        | None => split_aux None s'
        end
      else
        split_aux (Some (match cur with
                         | Some w => w +:+ String c EmptyString
                         | None => String c EmptyString
                         end)) s'
  end.

Definition split (s : string) : list string := split_aux None s.

Fixpoint startswith (s p : string) {struct p} : bool :=
  match p, s with
  | EmptyString, _ => true
  | String a p', String b s' => Ascii.eqb a b && startswith s' p'
  | String _ _, EmptyString => false
  end.

Fixpoint find_from (i : Z) (s sub : string) : Z :=
  if startswith s sub then i
  else match s with
       | EmptyString => -1
       | String _ s' => find_from (i + 1) s' sub
       end.

(** [s.find(sub)]: the lowest index of an occurrence, or -1. *)
Definition find (s sub : string) : Z := find_from 0 s sub.

(** [sub in s] *)
Definition contains (sub s : string) : bool := negb (find s sub =? -1).

(** [s.replace(c, '')] for a one-character [c]. *)
Fixpoint remove_char (c : ascii) (s : string) : string :=
  match s with
  | EmptyString => EmptyString
  | String a s' => if Ascii.eqb a c then remove_char c s' else String a (remove_char c s')
  end.

(** The truth value of a string: empty strings are false. *)
Definition truthy (s : string) : bool :=
  match s with EmptyString => false | _ => true end.

Definition digit_val (c : ascii) : Z := Z.of_nat (code c - 48).

(** A run of decimal digits in which single underscores may separate
    digits, read to the end of the string; [prev] tells whether the
    previous character was a digit. Returns the value and the number of
    digits. *)
Fixpoint digits_acc (acc : Z) (n : nat) (prev : bool) (s : string) : option (Z * nat) :=
  match s with
  | EmptyString => if prev then Some (acc, n) else None
  | String c s' =>
      if is_digit c then digits_acc (10 * acc + digit_val c) (S n) true s'
      else if Ascii.eqb c "_" && prev then digits_acc acc n false s'
      else None
  end.

Definition digits (s : string) : option (Z * nat) := digits_acc 0 O false s.

(** An optional sign in front of [s]. *)
Definition sign_split (s : string) : Z * string :=
  match s with
  | String "-" s' => (-1, s')
  | String "+" s' => (1, s')
  | _ => (1, s)
  end.

(** The white space that [int()] and [float()] skip around an ASCII
    literal: TAB, LF, VT, FF, CR and SPACE. The separators FS, GS, RS and
    US are white space for [str.strip] and [str.split], not here. *)
Definition is_literal_space (c : ascii) : bool := in_range 9 13 c || in_range 32 32 c.

Fixpoint skip_leading (s : string) : string :=
  match s with
  | EmptyString => EmptyString
  | String c s' => if is_literal_space c then skip_leading s' else s
  end.

Fixpoint skip_trailing (s : string) : string :=
  match s with
  | EmptyString => EmptyString
  | String c s' =>
      match skip_trailing s' with
      | EmptyString => if is_literal_space c then EmptyString else String c EmptyString
      | r => String c r
      end
  end.

(** The literal that [int()] and [float()] read in [s]. *)
Definition literal (s : string) : string := skip_trailing (skip_leading s).

(** The default of [sys.get_int_max_str_digits()]: since CPython 3.11
    [int()] refuses a decimal literal of more digits, underscores not
    counted. *)
Definition max_str_digits : Z := 4300.

(** [int(s)] for a string argument, base 10. *)
Definition py_int (s : string) : res Z :=
  let '(sg, body) := sign_split (literal s) in
  match digits body with
  | Some (v, n) => if max_str_digits <? Z.of_nat n then Raise ValueError else Ok (sg * v)
  | None => Raise ValueError
  end.

(** Python floats, with rationals for the finite ones: the arithmetic of
    the embedding is exact. *)
Inductive pyfloat : Set :=
| Finite (q : Q)
| Infinite (negative : bool)
| NaN.

(** Splits [s] at the first character satisfying [p]. *)
Fixpoint break_at (p : ascii -> bool) (s : string) : string * option string :=
  match s with
  | EmptyString => (EmptyString, None)
  | String c s' =>
      if p c then (EmptyString, Some s')
      else let '(a, b) := break_at p s' in (String c a, b)
  end.

Definition is_exp_mark (c : ascii) : bool := Ascii.eqb c "e" || Ascii.eqb c "E".
Definition is_point (c : ascii) : bool := Ascii.eqb c ".".

Definition pow10 (e : Z) : Q :=
  if e <? 0 then 1 # (Pos.pow 10 (Z.to_pos (- e)))
  else inject_Z (10 ^ e).

(** The mantissa [digits? . digits?] with at least one digit. *)
Definition mantissa (s : string) : option Q :=
  let '(ip, rest) := break_at is_point s in
  match rest with
  | None =>
      match digits ip with
      | Some (v, _) => Some (inject_Z v)
      | None => None
      end
  | Some fp =>
      match ip, fp with
      | EmptyString, EmptyString => None
      | EmptyString, _ =>
          match digits fp with
          | Some (f, k) => Some (Qmult (inject_Z f) (pow10 (- Z.of_nat k)))
          | None => None
          end
      | _, EmptyString =>
          match digits ip with
          | Some (v, _) => Some (inject_Z v)
          | None => None
          end
      | _, _ =>
          match digits ip, digits fp with
          | Some (v, _), Some (f, k) =>
              Some (Qplus (inject_Z v) (Qmult (inject_Z f) (pow10 (- Z.of_nat k))))
          | _, _ => None
          end
      end
  end.

Definition decimal (s : string) : option Q :=
  let '(m, rest) := break_at is_exp_mark s in
  match mantissa m, rest with
  | Some q, None => Some q
  | Some q, Some ex =>
      let '(sg, body) := sign_split ex in
      match digits body with
      | Some (e, _) => Some (Qmult q (pow10 (sg * e)))
      | None => None
      end
  | None, _ => None
  end.

(** [float(s)] for a string argument. *)
Definition py_float (s : string) : res pyfloat :=
  let '(sg, body) := sign_split (literal s) in
  let low := lower body in
  if String.eqb low "inf" || String.eqb low "infinity" then Ok (Infinite (sg <? 0))
  else if String.eqb low "nan" then Ok NaN
  else match decimal body with
       | Some q => Ok (Finite (Qmult (inject_Z sg) q))
       | None => Raise ValueError
       end.

Definition float_mul (x : pyfloat) (k : Z) : pyfloat :=
  match x with
  | Finite q => Finite (Qmult q (inject_Z k))
  | other => other
  end.

(** [int(x)] for a float argument: truncation towards zero. *)
Definition int_of_float (x : pyfloat) : res Z :=
  match x with
  | Finite q => Ok (if Qle_bool 0 q then Qfloor q else Qceiling q)
  | Infinite _ => Raise OverflowError
  | NaN => Raise ValueError
  end.

End PyStr.

(** ** The fragment of Python's [re] used by the sources *)

Module Re.
Import PyStr.

Inductive atom : Set :=
| Lit (c : ascii)
| Digit
| Class (ranges : list (ascii * ascii)).

Inductive quant : Set := Once | Plus | Times (n : nat).

Inductive item : Set :=
| Bol
| Eol
| At (a : atom) (q : quant).

Definition regex : Set := list item.

Definition in_ranges (ranges : list (ascii * ascii)) (c : ascii) : bool :=
  existsb (fun r => in_range (code (fst r)) (code (snd r)) c) ranges.

(** One character against one atom; [ic] is the [re.I] flag. *)
Definition atom_match (ic : bool) (a : atom) (c : ascii) : bool :=
  match a with
  | Lit l => if ic then Ascii.eqb (lower_char l) (lower_char c) else Ascii.eqb l c
  | Digit => is_digit c
  | Class ranges =>
      in_ranges ranges c
      || (ic && (in_ranges ranges (lower_char c) || in_ranges ranges (upper_char c)))
  end.

(** Exactly [n] characters satisfying [m]; the rest of the string. *)
Fixpoint times (m : ascii -> bool) (n : nat) (s : string) : option string :=
  match n with
  | O => Some s
  | S n' =>
      match s with
      | String c s' => if m c then times m n' s' else None
      | EmptyString => None
      end
  end.

(** Without [re.M], [$] matches at the end of the string and just before
    a newline that ends the string. *)
Definition at_end (s : string) : bool :=
  match s with
  | EmptyString => true
  | String c EmptyString => Ascii.eqb c "010"
  | _ => false
  end.

(** A match of [r] starting exactly at the head of [s]: the number of
    characters it spans. [bol] tells whether the head of [s] is the start
    of the subject; [+] is greedy and gives characters back. *)
Fixpoint match_here (ic : bool) (r : regex) (bol : bool) (s : string) : option nat :=
  match r with
  | [] => Some O
  | Bol :: r' => if bol then match_here ic r' bol s else None
  | Eol :: r' => if at_end s then match_here ic r' bol s else None
  | At a Once :: r' =>
      match s with
      | String c s' => if atom_match ic a c then S <$> match_here ic r' false s' else None
      | EmptyString => None
      end
  | At a (Times n) :: r' =>
      match times (atom_match ic a) n s with
      | Some rest =>
          Nat.add n <$> match_here ic r' (bol && Nat.eqb n 0) rest
      | None => None
      end
  | At a Plus :: r' =>
      (fix more (s : string) : option nat :=
         match s with
         | String c s' =>
             if atom_match ic a c then
               match more s' with
               | Some k => Some (S k)
               | None => S <$> match_here ic r' false s'
               end
             else None
         | EmptyString => None
         end) s
  end.

(** The leftmost match: its start and its length. *)
Fixpoint search_from (ic : bool) (r : regex) (i : nat) (bol : bool) (s : string)
  : option (nat * nat) :=
  match match_here ic r bol s with
  | Some k => Some (i, k)
  | None =>
      match s with
      | EmptyString => None
      | String _ s' => search_from ic r (S i) false s'
      end
  end.

(** *** Pattern syntax *)

Fixpoint parse_class (s : string) : option (list (ascii * ascii) * string) :=
  match s with
  | EmptyString => None
  | String "]" rest => Some ([], rest)
  | String "^" _ => None
  | String "\" _ => None
  | String lo (String "-" (String hi rest)) =>
      if Ascii.eqb hi "]" then None
      else match parse_class rest with
           | Some (rs, rest') => Some ((lo, hi) :: rs, rest')
           | None => None
           end
  | String c rest =>
      match parse_class rest with
      | Some (rs, rest') => Some ((c, c) :: rs, rest')
      | None => None
      end
  end.

Fixpoint nat_of_digits (acc : nat) (s : string) : option nat :=
  match s with
  | EmptyString => Some acc
  | String c s' =>
      if is_digit c then nat_of_digits (10 * acc + (code c - 48)) s' else None
  end.

Definition parse_quant (s : string) : quant * string :=
  match s with
  | String "+" rest => (Plus, rest)
  | String "{" rest =>
      match break_at (Ascii.eqb "}") rest with
      | (String d ds, Some rest') =>
          match nat_of_digits O (String d ds) with
          | Some n => (Times n, rest')
          | None => (Once, s)
          end
      | _ => (Once, s)
      end
  | _ => (Once, s)
  end.

Definition is_special (c : ascii) : bool :=
  existsb (Ascii.eqb c) (list_ascii_of_string ".*?+()[|\{").

Definition parse_atom (s : string) : option (atom * string) :=
  match s with
  | String "\" (String "d" rest) => Some (Digit, rest)
  | String "[" rest =>
      match parse_class rest with
      | Some (rs, rest') => Some (Class rs, rest')
      | None => None
      end
  | String c rest => if is_special c then None else Some (Lit c, rest)
  | EmptyString => None
  end.

Fixpoint parse_items (fuel : nat) (s : string) : option regex :=
  match fuel with
  | O => match s with EmptyString => Some [] | _ => None end
  | S fuel' =>
      match s with
      | EmptyString => Some []
      | String "^" rest => cons Bol <$> parse_items fuel' rest
      | String "$" rest => cons Eol <$> parse_items fuel' rest
      | _ =>
          match parse_atom s with
          | Some (a, rest) =>
              let '(q, rest') := parse_quant rest in
              cons (At a q) <$> parse_items fuel' rest'
          | None => None
          end
      end
  end.

(** A pattern outside the fragment has no parse. *)
Definition parse (pat : string) : option regex := parse_items (String.length pat) pat.

(** [re.search(pat, s)]: start and length of the leftmost match. *)
Definition search (ic : bool) (pat : string) (s : string) : option (nat * nat) :=
  match parse pat with
  | Some r => search_from ic r O true s
  | None => None
  end.

(** [re.match(pat, s)]: the length of the match at the start of [s]. *)
Definition match_ (ic : bool) (pat : string) (s : string) : option nat :=
  match parse pat with
  | Some r => match_here ic r true s
  | None => None
  end.

(** [re.search(pat, s, re.I).group(1)] for a pattern of the shape [(body)],
    whose only group spans the whole match. *)
Definition search_group1 (pat : string) (s : string) : option string :=
  match pat with
  | String "(" rest =>
      match break_at (Ascii.eqb ")") rest with
      | (body, Some EmptyString) =>
          match search true body s with
          | Some (i, k) => Some (take k (drop i s))
          | None => None
          end
      | _ => None
      end
  | _ => None
  end.

End Re.

Import PyStr.

(** ** Patterns with groups, alternatives and word boundaries *)

(** The patterns that the site adapter writes use more of [re] than the
    fragment above: an optional part, alternatives, one capture group,
    [\b]. They are given here as syntax trees and matched by
    backtracking, in the order in which [re] tries things. *)

Module Rx.

Inductive rx : Set :=
| Eps
| Chr (a : Re.atom)
| Seq (r1 r2 : rx)
| Alt (r1 r2 : rx)
| Opt (r : rx)
| Plus (a : Re.atom)
| Group (r : rx)
| WordB.

(** Where a match stands: how many characters of the subject are behind,
    the last of them, what is ahead, and the span of group 1 once it is
    closed. *)
Record state : Set := {
  pos : nat;
  prev : option ascii;
  rest : string;
  grp : option (nat * nat)
}.

(** [\w] on one character. *)
Definition is_word (c : ascii) : bool :=
  is_upper c || is_lower c || is_digit c || Ascii.eqb c "_".

Definition word_before (st : state) : bool :=
  match prev st with Some c => is_word c | None => false end.

Definition word_ahead (st : state) : bool :=
  match rest st with String c _ => is_word c | EmptyString => false end.

(** [\b]: a word character on exactly one side. *)
Definition at_boundary (st : state) : bool := xorb (word_before st) (word_ahead st).

(** [a+], greedy: one character at least, then as many as match, giving
    them back one by one when what follows fails. *)
Fixpoint plus_loop {A : Type} (m : ascii -> bool) (k : state -> option A)
    (g : option (nat * nat)) (n : nat) (s : string) : option A :=
  match s with
  | String c s' =>
      if m c then
        match plus_loop m k g (S n) s' with
        | Some x => Some x
        | None => k {| pos := S n; prev := Some c; rest := s'; grp := g |}
        end
      else None
  | EmptyString => None
  end.

(** A match of [r] from [st] on, followed by whatever [k] asks for. *)
Fixpoint run {A : Type} (ic : bool) (r : rx) (st : state) (k : state -> option A)
  : option A :=
  match r with
  | Eps => k st
  | Chr a =>
      match rest st with
      | String c s' =>
          if Re.atom_match ic a c then
            k {| pos := S (pos st); prev := Some c; rest := s'; grp := grp st |}
          else None
      | EmptyString => None
      end
  | Seq r1 r2 => run ic r1 st (fun st' => run ic r2 st' k)
  | Alt r1 r2 =>
      match run ic r1 st k with
      | Some x => Some x
      | None => run ic r2 st k
      end
  | Opt r' =>
      match run ic r' st k with
      | Some x => Some x
      | None => k st
      end
  | Plus a => plus_loop (Re.atom_match ic a) k (grp st) (pos st) (rest st)
  | Group r' =>
      run ic r' st
        (fun st' => k {| pos := pos st'; prev := prev st'; rest := rest st';
                         grp := Some (pos st, pos st') |})
  | WordB => if at_boundary st then k st else None
  end.

(** A match found: where it starts, where it ends, the span of group 1. *)
Record found : Set := {
  m_start : nat;
  m_end : nat;
  m_group : option (nat * nat)
}.

Definition match_at (ic : bool) (r : rx) (i : nat) (p : option ascii) (s : string)
  : option found :=
  run ic r {| pos := i; prev := p; rest := s; grp := None |}
    (fun st => Some {| m_start := i; m_end := pos st; m_group := grp st |}).

(** The leftmost match in what is left of the subject. *)
Fixpoint search_from (ic : bool) (r : rx) (i : nat) (p : option ascii) (s : string)
  : option found :=
  match match_at ic r i p s with
  | Some f => Some f
  | None =>
      match s with
      | EmptyString => None
      | String c s' => search_from ic r (S i) (Some c) s'
      end
  end.

(** [re.search(r, s)] *)
Definition search (ic : bool) (r : rx) (s : string) : option found :=
  search_from ic r O None s.

(** [s[i:j]] for spans inside [s]. *)
Definition span (s : string) (i j : nat) : string := take (j - i) (drop i s).

(** [match.group()] and [match.group(1)]; a group that took no part in
    the match gives [None]. *)
Definition group0 (s : string) (f : found) : string := span s (m_start f) (m_end f).

Definition group1 (s : string) (f : found) : option string :=
  match m_group f with
  | Some (i, j) => Some (span s i j)
  | None => None
  end.

(** A literal text, character by character. *)
Fixpoint lit (s : string) : rx :=
  match s with
  | EmptyString => Eps
  | String c s' => Seq (Chr (Re.Lit c)) (lit s')
  end.

End Rx.

(** ** The page and the live browser, as the extractors see them *)

(** A parsed page: [select sel] lists the stripped texts of the elements
    that [soup.select(sel)] returns, in document order. *)
Record soup : Type := { select : string -> list string }.

(** The live driver handle: each lookup returns texts or raises. *)
Record driver : Type := {
  find_elements_by_css_selector : string -> res (list string);
  find_element_by_id : string -> res string
}.

(** The context map handed to every extractor. *)
Record context : Type := {
  ctx_listing_details : list string;
  ctx_title : string
}.

(** One entry of an extractor's rule list. ['type'] is always present;
    the other keys may be missing from the dictionary. *)
Record rule : Type := {
  r_type : string;
  r_selector : option string;
  r_regex : option string;
  r_patterns : option (list string);
  r_transform : option string
}.

(** What an extractor hands back: an integer or a string. *)
Inductive pyval : Set :=
| PInt (n : Z)
| PStr (s : string).

(** What one run of an extractor did: the rules it evaluated, in order,
    and what it returned or raised. *)
Record run (A : Type) : Type := {
  consulted : list rule;
  outcome : res (option A)
}.
Arguments consulted {A} r.
Arguments outcome {A} r.

(** The first element of [l] on which [f] answers. *)
Fixpoint first_some {A B : Type} (f : A -> option B) (l : list A) : option B :=
  match l with
  | [] => None
  | x :: l' =>
      match f x with
      | Some b => Some b
      | None => first_some f l'
      end
  end.

(** ** extractors/base_extractor.py *)

Module BaseExtractor.

(** [value.replace(',', '')] *)
Definition strip_commas (value : string) : string := remove_char "," value.

Definition _apply_transform (value transform : string) : res pyval :=
  if String.eqb transform "multiply_1000" then
    x ← py_float value;
    n ← int_of_float (float_mul x 1000);
    mret (PInt n)
  else if String.eqb transform "handle_k_miles" then
    if contains "k" (lower value) then
      x ← py_float (strip_commas value);
      n ← int_of_float (float_mul x 1000);
      mret (PInt n)
    else
      n ← py_int (strip_commas value);
      mret (PInt n)
  else if String.eqb transform "remove_commas" then
    n ← py_int (strip_commas value);
    mret (PInt n)
  else mret (PStr value).

End BaseExtractor.

(** ** extractors/field_extractors/vin_extractor.py *)

Module VINExtractor.
Section WithRe.

(** [re.search(pattern, text, re.I)] followed by [.group(1)]; [None]
    when the pattern does not match. *)
Variable re_search_i : string -> string -> option string.

Definition VIN_PATTERN : string := "[A-HJ-NPR-Z0-9]{17}".

Definition _validate_vin (vin : string) : bool :=
  bool_decide (is_Some (Re.match_ false ("^" +:+ VIN_PATTERN +:+ "$") vin)).

Definition _extract_from_selector (sp : soup) (r : rule) : res (option string) :=
  match r_selector r with
  | None => Raise KeyError
  | Some sel =>
      Ok (match r_regex r with
          | Some re => first_some (re_search_i re) (select sp sel)
          | None => None
          end)
  end.

(** Everything raised inside is swallowed. *)
Definition _extract_from_comments (d : driver) (r : rule) : option string :=
  match r_selector r with
  | None => None
  | Some sel =>
      match find_elements_by_css_selector d sel with
      | Raise _ => None
      | Ok texts =>
          match r_patterns r with
          | None => None
          | Some pats =>
              first_some (fun text => first_some (fun p => re_search_i p text) pats) texts
          end
      end
  end.

(** The candidate of one rule. *)
Definition candidate (sp : soup) (d : option driver) (r : rule) : res (option string) :=
  if String.eqb (r_type r) "selector" then _extract_from_selector sp r
  else if String.eqb (r_type r) "comment_search" then
    match d with
    | Some dr => Ok (_extract_from_comments dr r)
    | None => Ok None
    end
  else Ok None.

(** [if vin and self._validate_vin(vin)] *)
Definition accepted (vin : option string) : bool :=
  match vin with
  | Some v => truthy v && _validate_vin v
  | None => false
  end.

Fixpoint extract_run (rules : list rule) (sp : soup) (d : option driver) : run string :=
  match rules with
  | [] => {| consulted := []; outcome := Ok None |}
  | r :: rules' =>
      match candidate sp d r with
      | Raise e => {| consulted := [r]; outcome := Raise e |}
      | Ok vin =>
          if accepted vin then {| consulted := [r]; outcome := Ok vin |}
          else
            let rest := extract_run rules' sp d in
            {| consulted := r :: consulted rest; outcome := outcome rest |}
      end
  end.

Definition extract (rules : list rule) (sp : soup) (d : option driver) : res (option string) :=
  outcome (extract_run rules sp d).

End WithRe.
End VINExtractor.

(** ** extractors/field_extractors/mileage_extractor.py *)

Module MileageExtractor.
Section WithRe.

Variable re_search_i : string -> string -> option string.

(** The value of the first pattern of the list that matches [text]. *)
Definition first_pattern (pats : list string) (text : string) : option string :=
  first_some (fun p => re_search_i p text) pats.

Definition plain_int (value : string) : res pyval :=
  n ← py_int (BaseExtractor.strip_commas value); mret (PInt n).

Definition times_1000 (value : string) : res pyval :=
  x ← py_float value; n ← int_of_float (float_mul x 1000); mret (PInt n).

Definition _extract_from_details (details : list string) (r : rule) : res (option pyval) :=
  match details with
  | [] => Ok None
  | _ =>
      match r_patterns r with
      | None => Raise KeyError
      | Some pats =>
          match first_some (first_pattern pats) details with
          | Some value =>
              v ← match r_transform r with
                  | Some t => BaseExtractor._apply_transform value t
                  | None => plain_int value
                  end;
              mret (Some v)
          | None => Ok None
          end
      end
  end.

Definition _extract_from_title (title : string) (r : rule) : res (option pyval) :=
  match r_patterns r with
  | None => Raise KeyError
  | Some pats =>
      match first_pattern pats title with
      | Some value =>
          v ← match r_transform r with
              | Some t => BaseExtractor._apply_transform value t
              | None => times_1000 value
              end;
          mret (Some v)
      | None => Ok None
      end
  end.

(** Everything raised inside is swallowed. *)
Definition _extract_from_comments (d : driver) (r : rule) : option pyval :=
  match find_element_by_id d "comments" with
  | Raise _ => None
  | Ok text =>
      match r_patterns r with
      | None => None
      | Some pats =>
          match first_pattern pats text with
          | Some value =>
              match plain_int value with
              | Ok v => Some v
              | Raise _ => None
              end
          | None => None
          end
      end
  end.

Definition candidate (ctx : option context) (d : option driver) (r : rule)
  : res (option pyval) :=
  let listing_details := match ctx with Some c => ctx_listing_details c | None => [] end in
  let title := match ctx with Some c => ctx_title c | None => "" end in
  if String.eqb (r_type r) "listing_detail" then _extract_from_details listing_details r
  else if String.eqb (r_type r) "title" then _extract_from_title title r
  else if String.eqb (r_type r) "comment_search" then
    match d with
    | Some dr => Ok (_extract_from_comments dr r)
    | None => Ok None
    end
  else Ok None.

Fixpoint extract_run (rules : list rule) (d : option driver) (ctx : option context)
  : run pyval :=
  match rules with
  | [] => {| consulted := []; outcome := Ok None |}
  | r :: rules' =>
      match candidate ctx d r with
      | Raise e => {| consulted := [r]; outcome := Raise e |}
      | Ok (Some mileage) => {| consulted := [r]; outcome := Ok (Some mileage) |}
      | Ok None =>
          let rest := extract_run rules' d ctx in
          {| consulted := r :: consulted rest; outcome := outcome rest |}
      end
  end.

Definition extract (rules : list rule) (d : option driver) (ctx : option context)
  : res (option pyval) :=
  outcome (extract_run rules d ctx).

End WithRe.
End MileageExtractor.

(** ** core/models/listing.py *)

(** The values a serialized record holds. *)
Inductive jval : Set :=
| JNull
| JStr (s : string)
| JInt (n : Z)
| JBool (b : bool)
| JArr (items : list string).

Module listing.

Record Listing : Set := {
  url : string;
  source : string;
  title : string;
  lot_number : option string;
  seller : option string;
  seller_type : option string;
  result : option string;
  high_bidder : option string;
  price : option Z;
  sale_date : option string;
  number_of_bids : option Z;
  vin : option string;
  year : option Z;
  make : option string;
  model : option string;
  variant : option string;
  convertible : bool;
  engine : option string;
  transmission : option string;
  exterior_color : option string;
  interior_color : option string;
  mileage : option Z;
  location : option string;
  country : option string;
  listing_details : list string;
  excerpt : list string
}.

(** [x or 'N/A'] for an optional string. *)
Definition or_na (x : option string) : jval :=
  match x with
  | Some s => if truthy s then JStr s else JStr "N/A"
  | None => JStr "N/A"
  end.

(** A numeric attribute, written as it is. *)
Definition num (x : option Z) : jval :=
  match x with
  | Some n => JInt n
  | None => JNull
  end.

(** The key/value pairs of the dictionary literal, in the order written. *)
Definition to_dict_items (self : Listing) : list (string * jval) :=
  [ ("url", JStr (url self));
    ("source", JStr (source self));
    ("lot_number", or_na (lot_number self));
    ("seller", or_na (seller self));
    ("seller_type", or_na (seller_type self));
    ("result", or_na (result self));
    ("high_bidder", or_na (high_bidder self));
    ("price", num (price self));
    ("sale_date", or_na (sale_date self));
    ("number_of_bids", num (number_of_bids self));
    ("title", or_na (Some (title self)));
    ("vin", or_na (vin self));
    ("year", num (year self));
    ("make", or_na (make self));
    ("model", or_na (model self));
    ("variant", or_na (variant self));
    ("convertible", JBool (convertible self));
    ("engine", or_na (engine self));
    ("transmission", or_na (transmission self));
    ("exterior_color", or_na (exterior_color self));
    ("interior_color", or_na (interior_color self));
    ("mileage", num (mileage self));
    ("location", or_na (location self));
    ("listing_details", JArr (listing_details self));
    ("excerpt", JArr (excerpt self)) ].

Definition to_dict (self : Listing) : gmap string jval :=
  list_to_map (to_dict_items self).

(** [data.get(key)] read back at the attribute's type; a value of
    another type reads as absent. *)
Definition get_str (data : gmap string jval) (key : string) : option string :=
  match data !! key with
  | Some (JStr s) => Some s
  | _ => None
  end.

Definition get_int (data : gmap string jval) (key : string) : option Z :=
  match data !! key with
  | Some (JInt n) => Some n
  | _ => None
  end.

Definition get_list (data : gmap string jval) (key : string) : list string :=
  match data !! key with
  | Some (JArr l) => l
  | _ => []
  end.

Definition from_dict (data : gmap string jval) : Listing :=
  {| url := default "" (get_str data "url");
     source := default "unknown" (get_str data "source");
     title := default "" (get_str data "title");
     lot_number := get_str data "lot_number";
     seller := get_str data "seller";
     seller_type := get_str data "seller_type";
     result := get_str data "result";
     high_bidder := get_str data "high_bidder";
     price := get_int data "price";
     sale_date := get_str data "sale_date";
     number_of_bids := get_int data "number_of_bids";
     vin := get_str data "vin";
     year := get_int data "year";
     make := get_str data "make";
     model := get_str data "model";
     variant := get_str data "variant";
     convertible :=
       match data !! "convertible" with Some (JBool b) => b | _ => false end;
     engine := get_str data "engine";
     transmission := get_str data "transmission";
     exterior_color := get_str data "exterior_color";
     interior_color := get_str data "interior_color";
     mileage := get_int data "mileage";
     location := get_str data "location";
     country := get_str data "country";
     listing_details := get_list data "listing_details";
     excerpt := get_list data "excerpt" |}.

End listing.

(** ** core/models/scrape_config.py *)

Module scrape_config.

Record ScrapeConfig : Set := {
  slugs : list string;
  make : string;
  model_full : string;
  model_short : string;
  min_year : option Z;
  max_year : option Z;
  max_listings : Z;
  max_clicks : Z;
  headless : bool;
  sort_oldest : bool;
  append_file : option string;
  fields : option (list string)
}.

(** The truth value of an optional integer: [None] and [0] are false. *)
Definition truthy_int (x : option Z) : bool :=
  match x with
  | Some n => negb (n =? 0)
  | None => false
  end.

(** [year < bound] and [year > bound]; comparing [None] with an integer
    raises [TypeError]. *)
Definition year_lt (year : option Z) (bound : Z) : res bool :=
  match year with
  | Some y => Ok (y <? bound)
  | None => Raise TypeError
  end.

Definition year_gt (year : option Z) (bound : Z) : res bool :=
  match year with
  | Some y => Ok (bound <? y)
  | None => Raise TypeError
  end.

(** [self.b and cmp]: the comparison is evaluated only for a true bound. *)
Definition bound_and (b : option Z) (cmp : Z -> res bool) : res bool :=
  match b with
  | Some n => if truthy_int b then cmp n else Ok false
  | None => Ok false
  end.

Definition should_skip_year (self : ScrapeConfig) (year : option Z) : res bool :=
  below ← bound_and (min_year self) (year_lt year);
  if below : bool then Ok true
  else
    above ← bound_and (max_year self) (year_gt year);
    if above : bool then Ok true else Ok false.

End scrape_config.

(** ** strategies/anti_detection/delays.py *)

Module DelayStrategy.

(** The instance: the configured minimum and the action counter. *)
Record t : Set := {
  min_delay : Q;
  action_count : Z
}.

Definition init (min_delay : Q) : t :=
  {| min_delay := min_delay; action_count := 0 |}.

(** The values the random source hands to one call of [get_delay]:
    [uniform(1.5, 3.0)], [randint(10, 15)], [uniform(8, 15)], [random()]
    and [uniform(0.5, 1.0)]. A call uses the ones on its path. *)
Record draws : Set := {
  base_delay : Q;
  period : Z;
  long_pause : Q;
  coin : Q;
  quick : Q
}.

(** The ranges the random source keeps to. *)
Definition in_ranges (d : draws) : Prop :=
  (15 # 10 <= base_delay d /\ base_delay d <= 3)%Q
  /\ (10 <= period d <= 15)%Z
  /\ (8 <= long_pause d /\ long_pause d <= 15)%Q
  /\ (0 <= coin d /\ coin d < 1)%Q
  /\ (5 # 10 <= quick d /\ quick d <= 1)%Q.

(** [max(a, b)] *)
Definition py_max (a b : Q) : Q := if Qle_bool b a then a else b.

Definition get_delay (self : t) (d : draws) : Q * t :=
  let n := action_count self + 1 in
  let self' := {| min_delay := min_delay self; action_count := n |} in
  if n mod period d =? 0 then (long_pause d, self')
  else
    let fatigue_factor := (1 + inject_Z n * (5 # 1000))%Q in
    let delay :=
      if Qle_bool (15 # 100) (coin d) then (base_delay d * fatigue_factor)%Q
      else quick d in
    (py_max delay (min_delay self), self').

(** Successive calls on one instance. *)
Fixpoint get_delays (self : t) (ds : list draws) : list Q :=
  match ds with
  | [] => []
  | d :: ds' => let '(x, self') := get_delay self d in x :: get_delays self' ds'
  end.

(** [get_page_load_delay]; [u] is the value of [random.uniform(2, 3.5)]. *)
Definition get_page_load_delay (self : t) (u : Q) (d : draws) : Q * t :=
  let '(x, self') := get_delay self d in ((u + x * (3 # 10))%Q, self').

Definition get_navigation_delay (self : t) (d : draws) : Q * t := get_delay self d.

(** The instance after successive calls of [get_delay]. *)
Fixpoint after_delays (self : t) (ds : list draws) : t :=
  match ds with
  | [] => self
  | d :: ds' => after_delays (snd (get_delay self d)) ds'
  end.

End DelayStrategy.

(** ** sites/bringatrailer/site.py *)

Module BringATrailerSite.
Import scrape_config.

(** *** The listing loader *)

(** What the reveal-more script returned: which keys the result carries. *)
Record script_result : Set := {
  has_done : bool;
  has_reason : bool;
  has_error : bool;
  has_success : bool
}.

(** What the browser shows during one pass of the loop: whether one of
    the scroll scripts raises, the card count before the reveal action,
    what the action returns (or that it raises), and the card count seen
    by each of the polls that follow. *)
Record round : Set := {
  scroll_raises : bool;
  listings_before : nat;
  load_more : res script_result;
  listings_after : nat -> nat
}.

Record counters : Set := {
  clicks : Z;
  consecutive_failures : Z
}.

Inductive flow : Set := Continue | Break.

(** [consecutive_failures += 1; if consecutive_failures >= 2: break] *)
Definition fail (c : counters) : counters * flow :=
  let f := consecutive_failures c + 1 in
  ({| clicks := clicks c; consecutive_failures := f |},
   if 2 <=? f then Break else Continue).

(** [for wait_attempt in range(15)]: does one of the polls see growth? *)
Definition growth_seen (r : round) : bool :=
  existsb (fun k => Nat.ltb (listings_before r) (listings_after r k)) (seq 0 15).

(** One pass of the body of the [while] loop. *)
Definition body (c : counters) (r : round) : counters * flow :=
  if scroll_raises r then fail c
  else
    match load_more r with
    | Raise _ => fail c
    | Ok result =>
        if has_done result then
          if has_reason result then (c, Break) else fail c
        else if has_error result then fail c
        else if has_success result then
          let c1 := {| clicks := clicks c + 1;
                       consecutive_failures := consecutive_failures c |} in
          if growth_seen r then
            ({| clicks := clicks c1; consecutive_failures := 0 |}, Continue)
          else fail c1
        else (c, Continue)
    end.

(** The loop from pass [i] on, given the passes the browser will show.
    It returns the counters after each pass it ran, in order; [None]
    when [fuel] passes were not enough to leave the loop. *)
Fixpoint loop (fuel : nat) (max_clicks : Z) (rounds : nat -> round) (i : nat) (c : counters)
  : option (list counters) :=
  if clicks c <? max_clicks then
    match fuel with
    | O => None
    | S fuel' =>
        let '(c', fl) := body c (rounds i) in
        match fl with
        | Break => Some [c']
        | Continue => cons c' <$> loop fuel' max_clicks rounds (S i) c'
        end
    end
  else Some [].

Definition _load_all_listings (fuel : nat) (max_clicks : Z) (rounds : nat -> round)
  : option (list counters) :=
  loop fuel max_clicks rounds O {| clicks := 0; consecutive_failures := 0 |}.

(** *** Variant derivation *)

Definition common_words : list string :=
  ["for"; "with"; "in"; "at"; "by"; "from"; "on"; "and"; "the"].

Definition _extract_variant (title : string) (config : ScrapeConfig) : string :=
  let title_upper := upper title in
  let make_upper := upper (make config) in
  let model_short_upper := upper (model_short config) in
  let make_index := find title_upper make_upper in
  if make_index =? -1 then "Standard"
  else
    let after_make := strip (slice_from (make_index + len (make config)) title) in
    let model_index := find (upper after_make) model_short_upper in
    if model_index =? -1 then "Standard"
    else
      let after_model :=
        strip (slice_from (model_index + len (model_short config)) after_make) in
      if negb (truthy after_model) then "Standard"
      else
        let variant :=
          match Re.search true "\d+-Speed" after_model with
          | Some (variant_end, _) => strip (slice_to (Z.of_nat variant_end) after_model)
          | None => strip after_model
          end in
        if negb (truthy variant) then "Standard"
        else
          match split variant with
          | first_word :: _ =>
              if existsb (String.eqb (lower first_word)) common_words then "Standard"
              else variant
          | [] => variant
          end.

(** *** The candidate URLs *)

(** [l[:k]] *)
Definition list_slice_to {A : Type} (k : Z) (l : list A) : list A :=
  firstn (Z.to_nat (if k <? 0 then Z.max 0 (Z.of_nat (length l) + k) else k)) l.

(** What one card adds to the list: its [href], made absolute with the
    base URL unless it starts with ["http"]; nothing when the card has
    no [href] or an empty one. *)
Definition card_url (base_url : string) (href : option string) : option string :=
  match href with
  | Some url =>
      if truthy url then
        Some (if startswith url "http" then url else base_url +:+ url)
      else None
  | None => None
  end.

(** [get_listing_urls], once the loader has returned: [hrefs] are the
    [href] attributes of the cards of the loaded page, in order. *)
Definition get_listing_urls (base_url : string) (hrefs : list (option string))
    (config : ScrapeConfig) : list string :=
  list_slice_to (max_listings config) (omap (card_url base_url) hrefs).

(** *** The fields read off the page *)

(** [\b(19|20)\d{2}\b] *)
Definition year_pattern : Rx.rx :=
  Rx.Seq Rx.WordB
    (Rx.Seq (Rx.Group (Rx.Alt (Rx.lit "19") (Rx.lit "20")))
       (Rx.Seq (Rx.Chr Re.Digit) (Rx.Seq (Rx.Chr Re.Digit) Rx.WordB))).

Definition _extract_year (title : string) : res (option Z) :=
  match Rx.search false year_pattern title with
  | Some year_match => y ← py_int (Rx.group0 title year_match); mret (Some y)
  | None => Ok None
  end.

(** [#?(\d+)] *)
Definition lot_pattern : Rx.rx :=
  Rx.Seq (Rx.Opt (Rx.Chr (Re.Lit "#"))) (Rx.Group (Rx.Plus Re.Digit)).

(** One [strong] element of the essentials block: its stripped text,
    the stripped text of its parent, and the stripped texts of the first
    map link and of the first member link inside the parent. *)
Record strong : Set := {
  label : string;
  parent_text : string;
  map_link : option string;
  member_link : option string
}.

(** [parent_text.split(':', 1)[1]], for a text that holds a colon. *)
Fixpoint after_colon (s : string) : option string :=
  match s with
  | EmptyString => None
  | String c s' => if Ascii.eqb c ":" then Some s' else after_colon s'
  end.

Record essentials : Set := {
  e_location : option string;
  e_seller : option string;
  e_seller_type : option string;
  e_lot_number : option string
}.

(** The body of the loop over the [strong] elements. *)
Definition essentials_step (acc : essentials) (st : strong) : essentials :=
  if String.eqb (label st) "Location" then
    match map_link st with
    | Some text =>
        {| e_location := Some text; e_seller := e_seller acc;
           e_seller_type := e_seller_type acc; e_lot_number := e_lot_number acc |}
    | None => acc
    end
  else if String.eqb (label st) "Seller" then
    match member_link st with
    | Some text =>
        {| e_location := e_location acc; e_seller := Some text;
           e_seller_type := e_seller_type acc; e_lot_number := e_lot_number acc |}
    | None => acc
    end
  else if String.eqb (label st) "Private Party or Dealer" then
    match after_colon (parent_text st) with
    | Some tail =>
        let value := strip tail in
        if String.eqb value "Private Party" || String.eqb value "Dealer" then
          {| e_location := e_location acc; e_seller := e_seller acc;
             e_seller_type := Some value; e_lot_number := e_lot_number acc |}
        else acc
    | None => acc
    end
  else if String.eqb (label st) "Lot" then
    match Rx.search false lot_pattern (parent_text st) with
    | Some lot_match =>
        {| e_location := e_location acc; e_seller := e_seller acc;
           e_seller_type := e_seller_type acc;
           e_lot_number := Rx.group1 (parent_text st) lot_match |}
    | None => acc
    end
  else acc.

(** [_extract_essentials]; [block] is [None] when the page has no
    essentials block, and lists its [strong] elements otherwise. *)
Definition _extract_essentials (block : option (list strong)) : essentials :=
  let nothing := {| e_location := None; e_seller := None;
                    e_seller_type := None; e_lot_number := None |} in
  match block with
  | None => nothing
  | Some strongs => foldl essentials_step nothing strongs
  end.

(** [_extract_listing_details] and [_extract_excerpt]: the stripped
    texts of the items, the empty ones left out; [None] when the
    container is not on the page. *)
Definition non_empty_texts (items : option (list string)) : list string :=
  match items with
  | None => []
  | Some texts => List.filter truthy texts
  end.

Definition _extract_listing_details (li_texts : option (list string)) : list string :=
  non_empty_texts li_texts.

Definition _extract_excerpt (paragraphs : option (list string)) : list string :=
  non_empty_texts paragraphs.

(** One row of the listing statistics: the text of its label, when it
    has one, and the stripped text of its value, when it has one. *)
Record stat_row : Set := {
  stat_label : option string;
  stat_value : option string
}.

(** [(\d+)] *)
Definition bids_pattern : Rx.rx := Rx.Group (Rx.Plus Re.Digit).

(** What [_extract_bids] does: it returns a count or [None], or it
    raises, [AttributeError] when a row labelled with bids has no value
    element. *)
Inductive bids : Set :=
| Bids (n : option Z)
| BidsAttributeError
| BidsRaise (e : exn).

Fixpoint bids_in_rows (rows : list stat_row) : bids :=
  match rows with
  | [] => Bids None
  | row :: rows' =>
      match stat_label row with
      | Some text =>
          if contains "bids" (lower text) then
            match stat_value row with
            | None => BidsAttributeError
            | Some bids_text =>
                match Rx.search false bids_pattern bids_text with
                | Some bids_match =>
                    match Rx.group1 bids_text bids_match with
                    | Some digits =>
                        match py_int digits with
                        | Ok n => Bids (Some n)
                        | Raise e => BidsRaise e
                        end
                    | None => BidsRaise TypeError
                    end
                | None => bids_in_rows rows'
                end
            end
          else bids_in_rows rows'
      | None => bids_in_rows rows'
      end
  end.

(** [_extract_bids]; [stats] is [None] when the page has no statistics
    block. *)
Definition _extract_bids (stats : option (list stat_row)) : bids :=
  match stats with
  | None => Bids None
  | Some rows => bids_in_rows rows
  end.

(** [_is_convertible], on the texts of the category buttons. *)
Definition _is_convertible (buttons : list string) : bool :=
  existsb (contains "Convertible") buttons.

(** *** The high bidder *)

(** [USD\s+\$([0-9,]+)], matched with [re.I]. *)
Definition bid_pattern : Rx.rx :=
  Rx.Seq (Rx.lit "USD")
    (Rx.Seq (Rx.Plus (Re.Class [("009", "013"); ("028", " ")]%char))
       (Rx.Seq (Rx.Chr (Re.Lit "$"))
          (Rx.Group (Rx.Plus (Re.Class [("0", "9"); (",", ",")]%char))))).

(** One bid notification: the text of its link, and the text of the
    comment around it or the exception that reading it raises. *)
Record bid_link : Set := {
  bid_text : string;
  bid_comment : res string
}.

(** What the page shows when it is looked at: the bid notifications,
    oldest first, and whether a load-more button is there and shown. *)
Record comments_view : Set := {
  bid_links : list bid_link;
  more_comments : bool
}.

(** The amount a comment states, when it states one that [int] reads. *)
Definition stated_amount (comment_text : string) : option Z :=
  match Rx.search true bid_pattern comment_text with
  | Some bid_match =>
      match Rx.group1 comment_text bid_match with
      | Some digits =>
          match py_int (BaseExtractor.strip_commas digits) with
          | Ok n => Some n
          | Raise _ => None
          end
      | None => None
      end
  | None => None
  end.

(** The loop over the links, in the order given: the first whose
    comment states the sale price. *)
Fixpoint matching_bidder (links : list bid_link) (sale_price : Z) : option string :=
  match links with
  | [] => None
  | link :: links' =>
      match bid_comment link with
      | Ok comment_text =>
          match stated_amount comment_text with
          | Some bid_amount =>
              if bid_amount =? sale_price then Some (strip (bid_text link))
              else matching_bidder links' sale_price
          | None => matching_bidder links' sale_price
          end
      | Raise _ => matching_bidder links' sale_price
      end
  end.

(** The [while] loop with [left] clicks of its budget of 10 remaining;
    [views i] is what the page shows after [i] clicks on the load-more
    button. *)
Fixpoint bidder_loop (left : nat) (clicks : nat) (views : nat -> comments_view)
    (sale_price : option Z) : option string :=
  match left with
  | O => None
  | S left' =>
      let view := views clicks in
      let go_on :=
        if more_comments view then bidder_loop left' (S clicks) views sale_price
        else None in
      match bid_links view, sale_price with
      | [], _ => go_on
      | _ :: _, Some price =>
          if truthy_int sale_price then
            match matching_bidder (rev (bid_links view)) price with
            | Some bidder => Some bidder
            | None => go_on
            end
          else option_map (fun link => strip (bid_text link)) (last (bid_links view))
      | _ :: _, None =>
          option_map (fun link => strip (bid_text link)) (last (bid_links view))
      end
  end.

Definition _extract_high_bidder (views : nat -> comments_view) (sale_price : option Z)
  : option string :=
  bidder_loop 10 O views sale_price.

End BringATrailerSite.

(** ** storage/json_storage.py *)

Module JSONStorage.

Record t : Type := {
  filepath : string;
  existing_lot_numbers : gset string
}.

(** [_load_existing_lot_numbers] over the records of the file, each given
    by its ['lot_number'] entry when it has one. *)
Fixpoint _load_existing_lot_numbers (data : list (option string)) (acc : gset string)
  : gset string :=
  match data with
  | [] => acc
  | Some lot :: data' =>
      if String.eqb lot "N/A" then _load_existing_lot_numbers data' acc
      else _load_existing_lot_numbers data' ({[ lot ]} ∪ acc)
  | None :: data' => _load_existing_lot_numbers data' acc
  end.

(** The constructor; [file] is [None] when the path does not exist or
    the file cannot be read as JSON. *)
Definition init (path : string) (file : option (list (option string))) : t :=
  {| filepath := path;
     existing_lot_numbers :=
       match file with
       | Some data => _load_existing_lot_numbers data ∅
       | None => ∅
       end |}.

Definition exists_ (self : t) (lot_number : string) : bool :=
  bool_decide (lot_number ∈ existing_lot_numbers self).

(** What is at a path: nothing, something that [json.load] cannot read
    as an array of records, or an array of records. *)
Inductive file : Type :=
| Missing
| Unreadable
| Content (data : list (gmap string jval)).

(** The index after the last ["/"] of [p], counting from [i]. *)
Fixpoint after_last_sep (i : nat) (p : string) : nat :=
  match p with
  | EmptyString => O
  | String c p' =>
      match after_last_sep (S i) p' with
      | O => if Ascii.eqb c "/" then S i else O
      | n => n
      end
  end.

Fixpoint rstrip_sep (s : string) : string :=
  match s with
  | EmptyString => EmptyString
  | String c s' =>
      match rstrip_sep s' with
      | EmptyString => if Ascii.eqb c "/" then EmptyString else String c EmptyString
      | r => String c r
      end
  end.

(** [os.path.dirname(p)] on a POSIX path: what comes before the last
    ["/"], without trailing separators unless it is separators only. *)
Definition dirname (p : string) : string :=
  let head := PyStr.take (after_last_sep O p) p in
  match rstrip_sep head with
  | EmptyString => head
  | stripped => stripped
  end.

(** The array that [save] writes. *)
Definition written (listings : list listing.Listing) : file :=
  Content (map listing.to_dict listings).

(** [save]: what lies at [self.filepath] afterwards, or [None] when
    [os.makedirs] raises because the path has no directory part. *)
Definition save (self : t) (listings : list listing.Listing) : option file :=
  if PyStr.truthy (dirname (filepath self)) then Some (written listings) else None.

(** [load] on what is at [self.filepath]. *)
Definition load (f : file) : res (list listing.Listing) :=
  match f with
  | Missing => Ok []
  | Unreadable => Raise ValueError
  | Content data => Ok (map listing.from_dict data)
  end.

(** The ['lot_number'] entries that the constructor goes through; an
    entry that is not a string, which [save] never writes, reads as
    absent. *)
Definition lot_entries (f : file) : option (list (option string)) :=
  match f with
  | Content data => Some (map (fun item => listing.get_str item "lot_number") data)
  | _ => None
  end.

(** [JSONStorage(path)] with [f] at the path. *)
Definition open (path : string) (f : file) : t := init path (lot_entries f).

Definition get_existing_lot_numbers (self : t) : gset string :=
  existing_lot_numbers self.

End JSONStorage.

(** ** pipelines/scraping_pipeline.py *)

Module ScrapingPipeline.
Import listing scrape_config.

(** What happens at one detail URL: what [site.extract_listing] returns
    or raises there, and whether the [browser.back()] that follows in the
    [try] block raises. *)
Record visit : Set := {
  visit_url : string;
  extracted : res Listing;
  back_raises : bool
}.

(** Why a listing is passed over. *)
Inductive reason : Set := NonUSA | Modified | YearRange | NoVIN.

Inductive verdict : Set :=
| Duplicate
| Skipped (why : reason)
| Accepted (l : Listing)
| Failed (e : exn).

Definition _filter_fields (l : Listing) (fields : list string) : Listing :=
  let listing_dict := to_dict l in
  from_dict
    (foldl (fun filtered field =>
              match listing_dict !! field with
              | Some v => <[ field := v ]> filtered
              | None => filtered
              end) ∅ fields).

(** [self.append_storage and listing.lot_number and
    listing.lot_number != 'N/A'], then [exists]. *)
Definition is_duplicate (append_storage : option JSONStorage.t) (l : Listing) : bool :=
  match append_storage, lot_number l with
  | Some st, Some lot =>
      truthy lot && negb (String.eqb lot "N/A") && JSONStorage.exists_ st lot
  | _, _ => false
  end.

(** [listing.country and listing.country != 'USA'] *)
Definition non_usa (l : Listing) : bool :=
  match country l with
  | Some c => truthy c && negb (String.eqb c "USA")
  | None => false
  end.

(** [not listing.vin or listing.vin == 'N/A'] *)
Definition no_vin (l : Listing) : bool :=
  match vin l with
  | Some v => negb (truthy v) || String.eqb v "N/A"
  | None => true
  end.

(** The acceptance chain applied to one extracted listing. *)
Definition judge (append_storage : option JSONStorage.t) (config : ScrapeConfig)
    (l : Listing) : verdict :=
  if is_duplicate append_storage l then Duplicate
  else if non_usa l then Skipped NonUSA
  else if contains "modified" (lower (title l)) then Skipped Modified
  else
    match should_skip_year config (year l) with
    | Raise e => Failed e
    | Ok true => Skipped YearRange
    | Ok false =>
        if no_vin l then Skipped NoVIN
        else
          match fields config with
          | Some (f :: fs) => Accepted (_filter_fields l (f :: fs))
          | _ => Accepted l
          end
    end.

(** The locals of [_scrape_listings], and the URLs visited so far. *)
Record progress : Set := {
  listings : list Listing;
  skipped : nat;
  visited : list string
}.

Definition start : progress := {| listings := []; skipped := O; visited := [] |}.

Fixpoint scrape (append_storage : option JSONStorage.t) (config : ScrapeConfig)
    (visits : list visit) (p : progress) : progress :=
  match visits with
  | [] => p
  | v :: rest =>
      let p := {| listings := listings p; skipped := skipped p;
                  visited := visited p ++ [visit_url v] |} in
      match extracted v with
      | Raise _ => scrape append_storage config rest p
      | Ok l =>
          match judge append_storage config l with
          | Duplicate =>
              if back_raises v then scrape append_storage config rest p else p
          | Skipped _ =>
              scrape append_storage config rest
                {| listings := listings p; skipped := S (skipped p); visited := visited p |}
          | Accepted l' =>
              scrape append_storage config rest
                {| listings := listings p ++ [l']; skipped := skipped p;
                   visited := visited p |}
          | Failed _ => scrape append_storage config rest p
          end
      end
  end.

Definition _scrape_listings (append_storage : option JSONStorage.t) (config : ScrapeConfig)
    (visits : list visit) : progress :=
  scrape append_storage config visits start.

(** [_deduplicate]: the loop over the listings, with its two locals. *)
Fixpoint dedup_loop (todo : list Listing) (seen_urls : gset string)
    (unique : list Listing) : list Listing :=
  match todo with
  | [] => unique
  | l :: rest =>
      if bool_decide (url l ∈ seen_urls) then dedup_loop rest seen_urls unique
      else dedup_loop rest ({[ url l ]} ∪ seen_urls) (unique ++ [l])%list
  end.

Definition _deduplicate (all_listings : list Listing) : list Listing :=
  dedup_loop all_listings ∅ [].

(** [run]: [pages] gives, for each slug of the configuration in order,
    the visits at the URLs the site lists for it, or the exception that
    navigating to the category or listing its URLs raises. *)
Fixpoint run_loop (append_storage : option JSONStorage.t) (config : ScrapeConfig)
    (pages : list (res (list visit))) (all_listings : list Listing)
  : res (list Listing) :=
  match pages with
  | [] => Ok all_listings
  | Raise e :: _ => Raise e
  | Ok visits :: rest =>
      let kept := listings (_scrape_listings append_storage config visits) in
      let all_listings := (all_listings ++ kept)%list in
      match append_storage, kept with
      | Some _, _ :: _ => Ok all_listings
      | _, _ => run_loop append_storage config rest all_listings
      end
  end.

Definition run (append_storage : option JSONStorage.t) (config : ScrapeConfig)
    (pages : list (res (list visit))) : res (list Listing) :=
  all_listings ← run_loop append_storage config pages [];
  mret (_deduplicate all_listings).

End ScrapingPipeline.

(** ** extractors/field_extractors/color_extractor.py *)

Module ColorExtractor.
Section WithRe.

Variable re_search_i : string -> string -> option string.

(** The two halves of the colour rules, a missing entry read as its
    default: no pattern, no keyword, no flag. *)
Record exterior_config : Set := {
  patterns : list string;
  next_is_interior : bool
}.

Record interior_config : Set := {
  keywords : list string;
  skip_keywords : list string
}.

Record color_rules : Set := {
  exterior : exterior_config;
  interior : interior_config
}.

(** The truth value of an optional string. *)
Definition set (x : option string) : bool :=
  match x with
  | Some s => truthy s
  | None => false
  end.

(** The first loop, from one detail line on, with the two locals. *)
Fixpoint scan_exterior (cfg : exterior_config) (details : list string)
    (ext int : option string) : option string * option string :=
  match details with
  | [] => (ext, int)
  | detail :: rest =>
      if set ext then scan_exterior cfg rest ext int
      else
        match first_some (fun p => re_search_i p detail) (patterns cfg) with
        | Some g =>
            let int' :=
              if next_is_interior cfg then
                match rest with
                | next :: _ => Some (strip next)
                | [] => int
                end
              else int in
            scan_exterior cfg rest (Some (strip g)) int'
        | None => scan_exterior cfg rest ext int
        end
  end.

Definition mentions (words : list string) (detail_lower : string) : bool :=
  existsb (fun keyword => contains keyword detail_lower) words.

(** The second loop: the first detail line that names an interior. *)
Fixpoint scan_interior (cfg : interior_config) (details : list string) : option string :=
  match details with
  | [] => None
  | detail :: rest =>
      let detail_lower := lower detail in
      if mentions (skip_keywords cfg) detail_lower then scan_interior cfg rest
      else if negb (truthy (strip detail)) || Nat.ltb 8 (length (split detail)) then
        scan_interior cfg rest
      else if mentions (keywords cfg) detail_lower then Some (strip detail)
      else scan_interior cfg rest
  end.

Definition extract (rules : list color_rules) (ctx : option context)
  : option string * option string :=
  let listing_details := match ctx with Some c => ctx_listing_details c | None => [] end in
  match rules with
  | [] => (None, None)
  | color_rules :: _ =>
      let '(ext, int) := scan_exterior (exterior color_rules) listing_details None None in
      if set int then (ext, int)
      else
        match scan_interior (interior color_rules) listing_details with
        | Some found => (ext, Some found)
        | None => (ext, int)
        end
  end.

End WithRe.
End ColorExtractor.

(** * The vocabulary of the statements *)

Fixpoint all_chars (m : ascii -> bool) (s : string) : bool :=
  match s with
  | EmptyString => true
  | String c s' => m c && all_chars m s'
  end.

(** The alphabet of the claim: A-H, J-N, P, R-Z, 0-9. *)
Definition vin_char (c : ascii) : bool :=
  in_range 65 72 c || in_range 74 78 c || in_range 80 80 c
  || in_range 82 90 c || in_range 48 57 c.

Definition newline : string := String "010" EmptyString.

Definition vin_class : Re.atom :=
  Re.Class [("A", "H"); ("J", "N"); ("P", "P"); ("R", "Z"); ("0", "9")]%char.

(** The characters [k] and [K]. *)
Definition is_k (c : ascii) : bool := Ascii.eqb (lower_char c) "k".

Fixpoint has_k (s : string) : bool :=
  match s with
  | EmptyString => false
  | String c s' => is_k c || has_k s'
  end.

Section SerializationTerms.
Import listing.

(** A listing of which only the three mandatory attributes are known. *)
Definition bare (u src t : string) : Listing :=
  {| url := u; source := src; title := t;
     lot_number := None; seller := None; seller_type := None; result := None;
     high_bidder := None; price := None; sale_date := None; number_of_bids := None;
     vin := None; year := None; make := None; model := None; variant := None;
     convertible := false; engine := None; transmission := None;
     exterior_color := None; interior_color := None; mileage := None;
     location := None; country := None; listing_details := []; excerpt := [] |}.

Definition with_country (l : Listing) (c : option string) : Listing :=
  {| url := url l; source := source l; title := title l;
     lot_number := lot_number l; seller := seller l; seller_type := seller_type l;
     result := result l; high_bidder := high_bidder l; price := price l;
     sale_date := sale_date l; number_of_bids := number_of_bids l;
     vin := vin l; year := year l; make := make l; model := model l;
     variant := variant l; convertible := convertible l; engine := engine l;
     transmission := transmission l; exterior_color := exterior_color l;
     interior_color := interior_color l; mileage := mileage l;
     location := location l; country := c;
     listing_details := listing_details l; excerpt := excerpt l |}.

End SerializationTerms.

Section DelaysTerms.
Import DelayStrategy.

(** Nine ordinary draws and then a long pause of ten seconds. *)
Definition ordinary : draws :=
  {| base_delay := 2; period := 12; long_pause := 9; coin := 1 # 2; quick := 3 # 4 |}.

Definition pausing : draws :=
  {| base_delay := 2; period := 10; long_pause := 10; coin := 1 # 2; quick := 3 # 4 |}.

End DelaysTerms.

Section YearFilterTerms.
Import listing scrape_config ScrapingPipeline.

(** A configuration with the given year bounds and the defaults of the
    data class elsewhere. *)
Definition config_years (lo hi : option Z) : ScrapeConfig :=
  {| slugs := ["bmw-m3"]; make := "BMW"; model_full := "BMW M3"; model_short := "M3";
     min_year := lo; max_year := hi; max_listings := 100; max_clicks := 48;
     headless := false; sort_oldest := false; append_file := None; fields := None |}.

End YearFilterTerms.

Section AcceptanceTerms.
Import listing scrape_config ScrapingPipeline.

(** The run of the specification: lot 1234 is already stored and the
    URLs give lots 999, 1234 and 555. *)
Definition sold (u lot : string) : Listing :=
  {| url := u; source := "bringatrailer"; title := "2003 BMW M3";
     lot_number := Some lot; seller := None; seller_type := None;
     result := Some "Reserve Not Met"; high_bidder := None; price := None;
     sale_date := None; number_of_bids := None;
     vin := Some "WBSBL93498CY13754"; year := Some 2003; listing.make := Some "BMW";
     model := Some "BMW M3"; variant := Some "Standard"; convertible := false;
     engine := None; transmission := None; exterior_color := None;
     interior_color := None; mileage := None; location := None;
     country := Some "USA"; listing_details := []; excerpt := [] |}.

Definition seen (u lot : string) : visit :=
  {| visit_url := u; extracted := Ok (sold u lot); back_raises := false |}.

Definition prior : JSONStorage.t := JSONStorage.init "out.json" (Some [Some "1234"]).

(** The same page, under a browser whose [back()] raises on it. *)
Definition seen_stuck (u lot : string) : visit :=
  {| visit_url := u; extracted := Ok (sold u lot); back_raises := true |}.

End AcceptanceTerms.

Section LoaderTerms.
Import BringATrailerSite.











End LoaderTerms.

(** [sub] occurs in [s]. *)
Definition occurs (sub s : string) : Prop := exists a b, s = a +:+ sub +:+ b.

Section VariantTerms.
Import scrape_config BringATrailerSite.

(** The derivation in the words of the specification: [variant_spec]
    below, from the three functions that precede it. *)




(** The characters of [s] up to its first white space. *)
Fixpoint word_at_start (s : string) : string :=
  match s with
  | EmptyString => EmptyString
  | String c s' => if isspace c then EmptyString else String c (word_at_start s')
  end.

(** The first word of a text; the empty string when it holds no word. *)
Definition first_word (s : string) : string := word_at_start (lstrip s).




End VariantTerms.

(** A page on which two selector rules both find a candidate: the first
    finds the VIN written in lower case, the second finds it in upper
    case. The rules carry the pattern of the unit test. *)
Definition vin_rule (selector : string) : rule :=
  {| r_type := "selector"; r_selector := Some selector;
     r_regex := Some "([A-HJ-NPR-Z0-9]{17})"; r_patterns := None;
     r_transform := None |}.

Definition two_tags : soup :=
  {| select := fun sel =>
       if String.eqb sel ".essentials a" then ["Chassis: wbsbl93498cy13754"]
       else if String.eqb sel ".vin-tag" then ["WBSBL93498CY13754"]
       else [] |}.

(** Two mileage rules that both find a figure: one reads the detail
    lines, the other the title. *)
Definition detail_rule : rule :=
  {| r_type := "listing_detail"; r_selector := None; r_regex := None;
     r_patterns := Some ["(\d+)"]; r_transform := Some "remove_commas" |}.

Definition title_rule : rule :=
  {| r_type := "title"; r_selector := None; r_regex := None;
     r_patterns := Some ["(\d+)"]; r_transform := None |}.

Definition bmw_page : context :=
  {| ctx_listing_details := ["45200 Miles Shown"; "6-Speed Manual Transmission"];
     ctx_title := "12k-Mile 2003 BMW M3" |}.

(** Three passes that reveal more cards, then a reveal action that
    reports errors. *)
Definition revealing : BringATrailerSite.round :=
  {| BringATrailerSite.scroll_raises := false;
     BringATrailerSite.listings_before := 24;
     BringATrailerSite.load_more :=
       Ok {| BringATrailerSite.has_done := false; BringATrailerSite.has_reason := false;
             BringATrailerSite.has_error := false; BringATrailerSite.has_success := true |};
     BringATrailerSite.listings_after := fun _ => 48%nat |}.

Definition erring : BringATrailerSite.round :=
  {| BringATrailerSite.scroll_raises := false;
     BringATrailerSite.listings_before := 96;
     BringATrailerSite.load_more :=
       Ok {| BringATrailerSite.has_done := false; BringATrailerSite.has_reason := false;
             BringATrailerSite.has_error := true; BringATrailerSite.has_success := false |};
     BringATrailerSite.listings_after := fun _ => 96%nat |}.

Definition stalling (i : nat) : BringATrailerSite.round :=
  if Nat.ltb i 3 then revealing else erring.


Section RoundTripTerms.
Import listing.

(** The text written for an optional string: the string itself, or
    ["N/A"] when it is absent or empty. *)
Definition text (x : option string) : string :=
  match x with
  | Some (String c s) => String c s
  | _ => "N/A"
  end.

(** A listing as it comes back from its serialized record. *)
Definition reread (l : Listing) : Listing :=
  {| url := url l; source := source l; title := text (Some (title l));
     lot_number := Some (text (lot_number l)); seller := Some (text (seller l));
     seller_type := Some (text (seller_type l)); result := Some (text (result l));
     high_bidder := Some (text (high_bidder l)); price := price l;
     sale_date := Some (text (sale_date l)); number_of_bids := number_of_bids l;
     vin := Some (text (vin l)); year := year l; make := Some (text (make l));
     model := Some (text (model l)); variant := Some (text (variant l));
     convertible := convertible l; engine := Some (text (engine l));
     transmission := Some (text (transmission l));
     exterior_color := Some (text (exterior_color l));
     interior_color := Some (text (interior_color l)); mileage := mileage l;
     location := Some (text (location l)); country := None;
     listing_details := listing_details l; excerpt := excerpt l |}.

(** The listings of [todo] whose URL is neither in [seen] nor carried by
    an earlier listing of [todo]. *)
Fixpoint firsts (seen : gset string) (todo : list Listing) : list Listing :=
  match todo with
  | [] => []
  | l :: rest =>
      if bool_decide (url l ∈ seen) then firsts seen rest
      else l :: firsts ({[ url l ]} ∪ seen) rest
  end.

End RoundTripTerms.

Section ChainTerms.
Import listing scrape_config ScrapingPipeline.

(** A listing that every filter of the chain lets through. *)
Definition acceptable (config : ScrapeConfig) (l : Listing) : Prop :=
  non_usa l = false
  /\ contains "modified" (lower (title l)) = false
  /\ should_skip_year config (year l) = Ok false
  /\ no_vin l = false.

(** What is appended for an accepted listing. *)
Definition as_kept (config : ScrapeConfig) (l : Listing) : Listing :=
  match fields config with
  | Some (f :: fs) => _filter_fields l (f :: fs)
  | _ => l
  end.

End ChainTerms.

(** The listing carries the URL [u]. *)
Definition has_url (u : string) (l : listing.Listing) : bool :=
  String.eqb u (listing.url l).

(** The keys of a serialized record. *)
Definition record_keys : list string :=
  ["url"; "source"; "lot_number"; "seller"; "seller_type"; "result"; "high_bidder";
   "price"; "sale_date"; "number_of_bids"; "title"; "vin"; "year"; "make"; "model";
   "variant"; "convertible"; "engine"; "transmission"; "exterior_color";
   "interior_color"; "mileage"; "location"; "listing_details"; "excerpt"].

(** The rule is of the type [selector]. *)
Definition is_selector (r : rule) : bool := String.eqb (r_type r) "selector".

(** The pattern has no anchor in it. *)
Definition unanchored (r : Re.regex) : Prop :=
  Forall (fun it => match it with Re.At _ _ => True | _ => False end) r.

(** A mileage rule whose pattern finds letters, and a page on which the
    mileage is given as unknown. *)
Definition letters_rule : rule :=
  {| r_type := "listing_detail"; r_selector := None; r_regex := None;
     r_patterns := Some ["([A-Z]+)"]; r_transform := None |}.

Definition tmu_page : context :=
  {| ctx_listing_details := ["TMU Miles"]; ctx_title := "BMW Roadster" |}.

(** The lot line of an essentials block, and a statistics row whose
    value cell is missing. *)
Definition lot_line : BringATrailerSite.strong :=
  {| BringATrailerSite.label := "Lot"; BringATrailerSite.parent_text := "Lot #1234";
     BringATrailerSite.map_link := None; BringATrailerSite.member_link := None |}.

Definition bids_row : BringATrailerSite.stat_row :=
  {| BringATrailerSite.stat_label := Some "Bids"; BringATrailerSite.stat_value := None |}.

(** A comment thread that shows its two bid notifications after one
    click on the load-more button. *)
Definition bid_by (name comment_text : string) : BringATrailerSite.bid_link :=
  {| BringATrailerSite.bid_text := name; BringATrailerSite.bid_comment := Ok comment_text |}.

Definition after_one_click (j : nat) : BringATrailerSite.comments_view :=
  match j with
  | O => {| BringATrailerSite.bid_links := []; BringATrailerSite.more_comments := true |}
  | _ =>
      {| BringATrailerSite.bid_links :=
           [bid_by " early " "USD $20,000 bid placed by early";
            bid_by " late " "USD $21,500 bid placed by late"];
         BringATrailerSite.more_comments := false |}
  end.

(** Colour rules that read the paint from a capitalised word and the
    interior from the upholstery line. *)
Definition paint_rules : ColorExtractor.color_rules :=
  {| ColorExtractor.exterior :=
       {| ColorExtractor.patterns := ["([A-Z]+)"];
          ColorExtractor.next_is_interior := false |};
     ColorExtractor.interior :=
       {| ColorExtractor.keywords := ["leather"; "upholstery"];
          ColorExtractor.skip_keywords := ["paint"] |} |}.

Definition paint_page : context :=
  {| ctx_listing_details := ["Alpine White Paint"; "Black Leather Upholstery"];
     ctx_title := "2003 BMW M3" |}.

(** * Properties *)

(** ** Strings *)

Section StringFacts.

Lemma append_cons (c : ascii) (a b : string) : String c a +:+ b = String c (a +:+ b).
Proof. reflexivity. Qed.

Lemma append_nil (b : string) : EmptyString +:+ b = b.
Proof. reflexivity. Qed.

Lemma append_empty (s : string) : s +:+ EmptyString = s.
Proof. induction s as [|c s IH]; [reflexivity | now rewrite append_cons, IH]. Qed.

Lemma append_cancel (a a' b b' : string) :
  String.length a = String.length a' -> a +:+ b = a' +:+ b' -> b = b'.
Proof.
  revert a'. induction a as [|c a IH]; intros [|c' a'] Hl Heq;
    rewrite ?append_cons, ?append_nil in Heq; simpl in Hl; try discriminate;
    [assumption|].
  injection Heq as _ Heq. injection Hl as Hl. eauto.
Qed.

Lemma times_spec (m : ascii -> bool) (n : nat) (s rest : string) :
  Re.times m n s = Some rest <->
  exists pre, s = pre +:+ rest /\ String.length pre = n /\ all_chars m pre = true.
Proof.
  revert s. induction n as [|n IH]; intros s; simpl.
  - split.
    + intros [= ->]. exists EmptyString. auto.
    + intros (pre & -> & Hlen & _). destruct pre; [reflexivity | discriminate].
  - destruct s as [|c s].
    + split; [discriminate|].
      intros (pre & Hs & Hlen & _). destruct pre; discriminate.
    + destruct (m c) eqn:Hc.
      * rewrite IH. split.
        -- intros (pre & -> & Hlen & Hall). exists (String c pre).
           simpl. rewrite Hc, Hall, Hlen. auto.
        -- intros (pre & Hs & Hlen & Hall). destruct pre as [|c' pre]; [discriminate|].
           rewrite append_cons in Hs. simpl in Hlen, Hall.
           injection Hs as -> ->. injection Hlen as Hlen.
           apply andb_true_iff in Hall as [_ Hall]. eauto.
      * split; [discriminate|].
        intros (pre & Hs & Hlen & Hall). destruct pre as [|c' pre]; [discriminate|].
        rewrite append_cons in Hs. simpl in Hall.
        injection Hs as -> ->. rewrite Hc in Hall. discriminate.
Qed.

Lemma at_end_spec (s : string) :
  Re.at_end s = true <-> s = EmptyString \/ s = String "010" EmptyString.
Proof.
  destruct s as [|c [|c' s]]; simpl.
  - tauto.
  - rewrite Ascii.eqb_eq. split.
    + intros ->. now right.
    + intros [H|H]; [discriminate | now injection H].
  - split; [discriminate | intros [H|H]; discriminate].
Qed.

End StringFacts.

(** ** VIN validation *)

Lemma vin_class_char (c : ascii) : Re.atom_match false vin_class c = vin_char c.
Proof.
  destruct c as [[] [] [] [] [] [] [] []]; vm_compute; reflexivity.
Qed.

Lemma all_chars_ext (m m' : ascii -> bool) (s : string) :
  (forall c, m c = m' c) -> all_chars m s = all_chars m' s.
Proof.
  intros H. induction s as [|c s IH]; simpl; [reflexivity|]. now rewrite H, IH.
Qed.

(** What the validation accepts, exactly: seventeen characters of the
    alphabet, alone or followed by one newline. *)
Lemma validate_vin_spec (vin : string) :
  VINExtractor._validate_vin vin = true <->
  exists body,
    String.length body = 17%nat /\ all_chars vin_char body = true
    /\ (vin = body \/ vin = body +:+ newline).
Proof.
  unfold VINExtractor._validate_vin. rewrite bool_decide_eq_true.
  unfold Re.match_.
  replace (Re.parse ("^" +:+ VINExtractor.VIN_PATTERN +:+ "$"))
    with (Some [Re.Bol; Re.At vin_class (Re.Times 17); Re.Eol])
    by (vm_compute; reflexivity).
  cbn [Re.match_here].
  destruct (Re.times (Re.atom_match false vin_class) 17 vin) as [rest|] eqn:Ht.
  - apply times_spec in Ht as (body & -> & Hlen & Hall).
    rewrite (all_chars_ext _ _ _ vin_class_char) in Hall.
    destruct (Re.at_end rest) eqn:He.
    + split; [intros _ | intros _; cbn; eauto].
      apply at_end_spec in He as [-> | ->]; exists body; repeat split; auto.
      left. apply append_empty.
    + split; [intros [x Hx]; discriminate|].
      intros (body' & Hlen' & _ & Hv). exfalso.
      assert (Hrest : rest = EmptyString \/ rest = newline).
      { destruct Hv as [Hv | Hv].
        - left. apply (append_cancel body body' rest EmptyString); [congruence|].
          now rewrite append_empty.
        - right. apply (append_cancel body body' rest newline); [congruence | assumption]. }
      apply at_end_spec in Hrest. congruence.
  - split; [intros [x Hx]; discriminate|].
    intros (body & Hlen & Hall & Hv). exfalso.
    assert (Hsome : exists rest, Re.times (Re.atom_match false vin_class) 17 vin = Some rest).
    { destruct Hv as [-> | ->].
      - exists EmptyString. apply times_spec. exists body. repeat split; auto.
        + now rewrite append_empty.
        + now rewrite (all_chars_ext _ _ _ vin_class_char).
      - exists newline. apply times_spec. exists body. repeat split; auto.
        now rewrite (all_chars_ext _ _ _ vin_class_char). }
    destruct Hsome as [rest Hrest]. congruence.
Qed.

(** C2. VIN validation is to accept a string if and only if it has
    exactly 17 characters, each from A-H, J-N, P, R-Z, 0-9. The code
    anchors the pattern with [$], which also matches just before a final
    newline: the 18-character string made of a well-formed VIN and a
    newline is accepted. *)
Theorem validate_vin_accepts_trailing_newline :
  VINExtractor._validate_vin ("WBSBL93498CY13754" +:+ newline) = true
  /\ String.length ("WBSBL93498CY13754" +:+ newline) = 18%nat.
Proof. split; vm_compute; reflexivity. Qed.

(** The cases of the unit test, and the excluded letters. *)
Example validate_vin_examples :
  VINExtractor._validate_vin "WBSBL93498CY13754" = true
  /\ VINExtractor._validate_vin "WBSBL93498" = false
  /\ VINExtractor._validate_vin "" = false
  /\ VINExtractor._validate_vin "WBSBL93498CY1375I" = false
  /\ VINExtractor._validate_vin "WBSBL93498CY1375O" = false
  /\ VINExtractor._validate_vin "WBSBL93498CY1375Q" = false
  /\ VINExtractor._validate_vin "wbsbl93498cy13754" = false
  /\ VINExtractor._validate_vin "WBSBL93498CY137541" = false.
Proof. repeat split; vm_compute; reflexivity. Qed.

(** ** Value transforms *)

Lemma is_k_facts (c : ascii) :
  is_k c = true ->
  is_digit c = false /\ isspace c = false /\ Ascii.eqb c "_" = false
  /\ Ascii.eqb c "." = false /\ is_exp_mark c = false
  /\ c <> "-"%char /\ c <> "+"%char /\ Ascii.eqb c "," = false
  /\ is_k (lower_char c) = true.
Proof.
  destruct c as [[] [] [] [] [] [] [] []]; vm_compute; intros H;
    try discriminate H; repeat split; discriminate.
Qed.

Lemma digits_acc_has_k (s : string) (acc : Z) (n : nat) (prev : bool) :
  has_k s = true -> digits_acc acc n prev s = None.
Proof.
  revert acc n prev. induction s as [|c s IH]; intros acc n prev H; simpl in *.
  - discriminate.
  - destruct (is_k c) eqn:Hk.
    + destruct (is_k_facts c Hk) as (-> & _ & -> & _). reflexivity.
    + simpl in H. destruct (is_digit c); [auto|].
      destruct (Ascii.eqb c "_" && prev); auto.
Qed.

Lemma has_k_lstrip (s : string) : has_k s = true -> has_k (lstrip s) = true.
Proof.
  induction s as [|c s IH]; simpl; [auto|]. intros H.
  destruct (is_k c) eqn:Hk.
  - destruct (is_k_facts c Hk) as (_ & -> & _). simpl. now rewrite Hk.
  - simpl in H. destruct (isspace c); auto. simpl. now rewrite Hk.
Qed.

Lemma has_k_rstrip (s : string) : has_k s = true -> has_k (rstrip s) = true.
Proof.
  induction s as [|c s IH]; simpl; [auto|]. intros H.
  destruct (is_k c) eqn:Hk.
  - destruct (is_k_facts c Hk) as (_ & -> & _).
    destruct (rstrip s); simpl; now rewrite Hk.
  - simpl in H. specialize (IH H). destruct (rstrip s); [discriminate|].
    simpl in *. now rewrite Hk.
Qed.

Lemma has_k_skip_leading (s : string) : has_k s = true -> has_k (skip_leading s) = true.
Proof.
  induction s as [|c s IH]; simpl; [auto|]. intros H.
  destruct (is_k c) eqn:Hk.
  - destruct (is_k_facts c Hk) as (_ & Hsp & _).
    assert (Hl : is_literal_space c = false).
    { unfold is_k in Hk. destruct c as [[] [] [] [] [] [] [] []]; try discriminate Hk;
        reflexivity. }
    rewrite Hl. simpl. now rewrite Hk.
  - simpl in H. destruct (is_literal_space c); auto. simpl. now rewrite Hk.
Qed.

Lemma has_k_skip_trailing (s : string) : has_k s = true -> has_k (skip_trailing s) = true.
Proof.
  induction s as [|c s IH]; simpl; [auto|]. intros H.
  destruct (is_k c) eqn:Hk.
  - assert (Hl : is_literal_space c = false).
    { unfold is_k in Hk. destruct c as [[] [] [] [] [] [] [] []]; try discriminate Hk;
        reflexivity. }
    rewrite Hl. destruct (skip_trailing s); simpl; now rewrite Hk.
  - simpl in H. specialize (IH H). destruct (skip_trailing s); [discriminate|].
    simpl in *. now rewrite Hk.
Qed.

Lemma has_k_sign_split (s : string) :
  has_k s = true -> has_k (snd (sign_split s)) = true.
Proof.
  destruct s as [|c s]; [auto|]. intros H.
  assert (Hc : is_k c = true \/ (is_k c = false /\ has_k s = true)).
  { simpl in H. destruct (is_k c); [now left | now right]. }
  destruct c as [[] [] [] [] [] [] [] []];
    try exact H; destruct Hc as [Hk | [_ Hs]];
    solve [ discriminate Hk | exact Hs ].
Qed.

Lemma has_k_lower (s : string) : has_k (lower s) = has_k s.
Proof.
  unfold lower. induction s as [|c s IH]; simpl; [reflexivity|]. rewrite IH. f_equal.
  destruct c as [[] [] [] [] [] [] [] []]; vm_compute; reflexivity.
Qed.

Lemma has_k_break_at (p : ascii -> bool) (s : string) :
  (forall c, is_k c = true -> p c = false) ->
  has_k s = true ->
  has_k (fst (break_at p s)) = true
  \/ exists b, snd (break_at p s) = Some b /\ has_k b = true.
Proof.
  intros Hp. induction s as [|c s IH]; simpl; [discriminate|]. intros H.
  destruct (is_k c) eqn:Hk.
  - rewrite (Hp c Hk). destruct (break_at p s). simpl. rewrite Hk. now left.
  - simpl in H. destruct (p c); simpl; [right; eauto|].
    destruct (IH H) as [Ha | Hb]; destruct (break_at p s); simpl in *.
    + left. now rewrite Hk.
    + now right.
Qed.

Lemma mantissa_has_k (s : string) : has_k s = true -> mantissa s = None.
Proof.
  intros H. unfold mantissa.
  destruct (has_k_break_at is_point s) as [Ha | (b & Hb & Hk)]; [|exact H| |].
  - intros c Hc. unfold is_point. now destruct (is_k_facts c Hc) as (_ & _ & _ & -> & _).
  - destruct (break_at is_point s) as [ip rest]. simpl in Ha.
    unfold digits. destruct rest as [fp|].
    + destruct ip as [|c ip]; [discriminate|].
      rewrite (digits_acc_has_k _ 0 O false Ha). now destruct fp.
    + now rewrite (digits_acc_has_k _ 0 O false Ha).
  - destruct (break_at is_point s) as [ip rest]. simpl in Hb. subst rest.
    unfold digits. rewrite (digits_acc_has_k _ 0 O false Hk).
    destruct b as [|c b]; [discriminate|].
    destruct ip; [reflexivity|]. now destruct (digits_acc 0 0 false (String _ _)) as [[]|].
Qed.

Lemma decimal_has_k (s : string) : has_k s = true -> decimal s = None.
Proof.
  intros H. unfold decimal.
  destruct (has_k_break_at is_exp_mark s) as [Ha | (b & Hb & Hk)]; [|exact H| |].
  - intros c Hc. now destruct (is_k_facts c Hc) as (_ & _ & _ & _ & -> & _).
  - destruct (break_at is_exp_mark s) as [m rest]. simpl in Ha.
    now rewrite (mantissa_has_k _ Ha).
  - destruct (break_at is_exp_mark s) as [m rest]. simpl in Hb. subst rest.
    destruct (mantissa m); [|reflexivity].
    pose proof (has_k_sign_split _ Hk) as Hs.
    destruct (sign_split b) as [sg body]. simpl in Hs.
    unfold digits. now rewrite (digits_acc_has_k _ 0 O false Hs).
Qed.

(** No string holding a [k] or a [K] is read by [float()]. *)
Lemma py_float_has_k (s : string) : has_k s = true -> py_float s = Raise ValueError.
Proof.
  intros H. unfold py_float, literal.
  pose proof (has_k_sign_split _ (has_k_skip_trailing _ (has_k_skip_leading _ H))) as Hb.
  destruct (sign_split (skip_trailing (skip_leading s))) as [sg body]. simpl in Hb.
  assert (Hne : forall w, has_k w = false -> String.eqb (lower body) w = false).
  { intros w Hw. destruct (String.eqb_spec (lower body) w) as [E|]; [|reflexivity].
    rewrite <- E, has_k_lower, Hb in Hw. discriminate. }
  rewrite !Hne by reflexivity. simpl.
  now rewrite (decimal_has_k _ Hb).
Qed.

Lemma find_from_k_cons (i : Z) (a : ascii) (s : string) :
  find_from i (String a s) "k" = if Ascii.eqb "k" a then i else find_from (i + 1) s "k".
Proof. cbn [find_from startswith]. now rewrite andb_true_r. Qed.

Lemma contains_k_has_k (s : string) : contains "k" (lower s) = true -> has_k s = true.
Proof.
  unfold contains, find, lower. generalize 0.
  induction s as [|c s IH]; intros i; cbn [map_str has_k].
  - intros H. discriminate.
  - rewrite find_from_k_cons. unfold is_k. rewrite (Ascii.eqb_sym (lower_char c)).
    destruct (Ascii.eqb "k" (lower_char c)); [reflexivity|]. apply IH.
Qed.

Lemma has_k_strip_commas (s : string) :
  has_k s = true -> has_k (BaseExtractor.strip_commas s) = true.
Proof.
  unfold BaseExtractor.strip_commas.
  induction s as [|c s IH]; simpl; [auto|]. intros H.
  destruct (is_k c) eqn:Hk.
  - destruct (is_k_facts c Hk) as (_ & _ & _ & _ & _ & _ & _ & -> & _).
    simpl. now rewrite Hk.
  - simpl in H. destruct (Ascii.eqb c ","); simpl; rewrite ?Hk; auto.
Qed.

(** The branch of [handle_k_miles] taken for a value holding a [k] never
    returns: the [k] is still in the string handed to [float()]. *)
Lemma handle_k_miles_k_branch_raises (value : string) :
  contains "k" (lower value) = true ->
  BaseExtractor._apply_transform value "handle_k_miles" = Raise ValueError.
Proof.
  intros H. unfold BaseExtractor._apply_transform. simpl. rewrite H.
  now rewrite (py_float_has_k _ (has_k_strip_commas _ (contains_k_has_k _ H))).
Qed.

(** C5. [handle_k_miles] is to map "45.5k" to 45500 and "12,345" to
    12345. The code leaves the [k] in the string it hands to [float()],
    so "45.5k" raises [ValueError]; "12,345" gives 12345. *)
Theorem handle_k_miles_examples :
  BaseExtractor._apply_transform "45.5k" "handle_k_miles" = Raise ValueError
  /\ BaseExtractor._apply_transform "12,345" "handle_k_miles" = Ok (PInt 12345).
Proof. split; vm_compute; reflexivity. Qed.

(** ** The serialized record *)

Section Serialization.
Import listing.

Lemma to_dict_lookup (l : Listing) (key : string) :
  to_dict l !! key = snd <$> List.find (fun kv => String.eqb key (fst kv)) (to_dict_items l).
Proof.
  unfold to_dict. generalize (to_dict_items l). intros items.
  induction items as [|[k v] items IH]; [reflexivity|].
  cbn [list_to_map foldr List.find fst]. destruct (String.eqb_spec key k) as [->|Hne].
  - now rewrite lookup_insert_eq.
  - rewrite lookup_insert_ne by congruence. exact IH.
Qed.

(** The missing attributes of the other groups are written with their
    sentinels: ["N/A"] for strings, null for numbers, [[]] for lists. *)
Lemma to_dict_sentinels (u src t : string) :
  let d := to_dict (bare u src t) in
  Forall (fun key => d !! key = Some (JStr "N/A"))
    ["lot_number"; "seller"; "seller_type"; "result"; "high_bidder"; "sale_date";
     "vin"; "make"; "model"; "variant"; "engine"; "transmission";
     "exterior_color"; "interior_color"; "location"]
  /\ Forall (fun key => d !! key = Some JNull)
       ["price"; "number_of_bids"; "year"; "mileage"]
  /\ Forall (fun key => d !! key = Some (JArr []))
       ["listing_details"; "excerpt"]
  /\ d !! "url" = Some (JStr u) /\ d !! "source" = Some (JStr src)
  /\ d !! "convertible" = Some (JBool false).
Proof.
  cbv zeta. repeat split; repeat constructor; rewrite to_dict_lookup; reflexivity.
Qed.

(** C7. The serialized record is to carry every attribute of the data
    model, the country among them. The dictionary written by [to_dict]
    has no ["country"] entry, whatever the listing: a listing known to
    be from the USA is written without its country, and reading the
    record back with [from_dict] gives a listing whose country is
    absent. *)
Theorem to_dict_omits_country :
  forall l : Listing,
    to_dict l !! "country" = None
    /\ country (from_dict (to_dict l)) = None
    /\ country (with_country (bare "u" "s" "t") (Some "USA")) = Some "USA".
Proof.
  intros l. assert (H : to_dict l !! "country" = None).
  { rewrite to_dict_lookup. reflexivity. }
  split; [exact H|]. split; [|reflexivity].
  unfold from_dict, get_str. cbn [country]. now rewrite H.
Qed.

End Serialization.

(** ** The delay strategy *)

Section Delays.
Import DelayStrategy.

Lemma py_max_floor (a b : Q) : (b <= py_max a b)%Q.
Proof.
  unfold py_max. destruct (Qle_bool b a) eqn:H.
  - now apply Qle_bool_iff.
  - apply Qle_refl.
Qed.

(** Off the long-pause branch the result is floored. *)
Lemma get_delay_floored (self : t) (d : draws) :
  (action_count self + 1) mod period d <> 0 ->
  (min_delay self <= fst (get_delay self d))%Q.
Proof.
  intros H. unfold get_delay. apply Z.eqb_neq in H. rewrite H. cbn [fst].
  apply py_max_floor.
Qed.

(** With a minimum of at most 8 seconds every branch is above it. *)
Lemma get_delay_floored_small (self : t) (d : draws) :
  in_ranges d -> (min_delay self <= 8)%Q ->
  (min_delay self <= fst (get_delay self d))%Q.
Proof.
  intros (_ & _ & [Hl _] & _) Hmin. unfold get_delay.
  destruct (_ =? 0); cbn [fst].
  - eapply Qle_trans; eassumption.
  - apply py_max_floor.
Qed.

Lemma failing_draws_in_ranges : in_ranges ordinary /\ in_ranges pausing.
Proof. unfold in_ranges, ordinary, pausing; cbn. repeat split; try lia; try easy. Qed.

(** C8. Every delay handed out is to be at least the configured
    minimum, the long pause included. The long-pause branch returns
    before the floor is applied: with a minimum of 20 seconds, the tenth
    call of a session can return a 10-second pause. *)
Theorem get_delay_long_pause_below_minimum :
  get_delays (init 20) (repeat ordinary 9 ++ [pausing])%list
  = (repeat 20%Q 9 ++ [10%Q])%list
  /\ (10 < min_delay (init 20))%Q.
Proof. split; vm_compute; reflexivity. Qed.

End Delays.

(** ** The year filter *)

Section YearFilter.
Import listing scrape_config ScrapingPipeline.

Lemma truthy_int_spec (b : option Z) :
  truthy_int b = true <-> exists n, b = Some n /\ n <> 0.
Proof.
  destruct b as [n|]; simpl.
  - rewrite negb_true_iff, Z.eqb_neq. split; [eauto | now intros (m & [= ->] & H)].
  - split; [discriminate | now intros (m & H & _)].
Qed.

Lemma should_skip_year_none (cfg : ScrapeConfig) :
  truthy_int (min_year cfg) || truthy_int (max_year cfg) = true ->
  should_skip_year cfg None = Raise TypeError.
Proof.
  unfold should_skip_year, bound_and.
  destruct (min_year cfg) as [lo|]; cbn [truthy_int].
  - destruct (lo =? 0); cbn; [|reflexivity].
    destruct (max_year cfg) as [hi|]; cbn; [|discriminate].
    destruct (hi =? 0); cbn; [discriminate | reflexivity].
  - cbn. destruct (max_year cfg) as [hi|]; cbn; [|discriminate].
    destruct (hi =? 0); cbn; [discriminate | reflexivity].
Qed.

Lemma should_skip_year_some (cfg : ScrapeConfig) (y : Z) :
  exists b, should_skip_year cfg (Some y) = Ok b
    /\ (b = true <->
        (exists lo, min_year cfg = Some lo /\ lo <> 0 /\ y < lo)
        \/ (exists hi, max_year cfg = Some hi /\ hi <> 0 /\ hi < y)).
Proof.
  unfold should_skip_year, bound_and, year_lt, year_gt.
  destruct (min_year cfg) as [lo|], (max_year cfg) as [hi|]; cbn [truthy_int];
    repeat match goal with
           | |- context [?a =? 0] => destruct (Z.eqb_spec a 0); cbn
           | |- context [?a <? ?b] => destruct (Z.ltb_spec a b); cbn
           end;
    eexists; (split; [reflexivity|]);
    (split; [intros Hb; try discriminate Hb | intros [(x & [= <-] & ? & ?) | (x & [= <-] & ? & ?)]]);
    try lia; try reflexivity; eauto 6.
Qed.

(** C10, as stated, fails for a bound of zero: with [min_year = 0] the
    bound reads as false, nothing is compared, and an absent year gives
    [False] instead of a type error. *)
Lemma should_skip_year_zero_bound :
  ~ (forall cfg : ScrapeConfig,
       is_Some (min_year cfg) \/ is_Some (max_year cfg) ->
       should_skip_year cfg None = Raise TypeError).
Proof.
  intros H. specialize (H (config_years (Some 0) None)).
  assert (Hc : should_skip_year (config_years (Some 0) None) None = Ok false)
    by reflexivity.
  rewrite H in Hc; [discriminate | left; eexists; reflexivity].
Qed.

(** C10, amended. A bound counts when it is set and is not zero. With
    such a bound an absent year makes [should_skip_year] raise
    [TypeError]; in the orchestrator the listing that reaches the year
    filter then leaves through the exception handler, neither kept nor
    counted as skipped. For an integer year the answer is [True] exactly
    when the year is strictly below a counting minimum or strictly above
    a counting maximum. *)
Theorem should_skip_year_spec (cfg : ScrapeConfig) :
  (truthy_int (min_year cfg) || truthy_int (max_year cfg) = true ->
   should_skip_year cfg None = Raise TypeError
   /\ forall st v l p,
        extracted v = Ok l -> year l = None ->
        is_duplicate st l = false -> non_usa l = false ->
        contains "modified" (lower (title l)) = false ->
        judge st cfg l = Failed TypeError
        /\ scrape st cfg [v] p
           = {| listings := listings p; skipped := skipped p;
                visited := (visited p ++ [visit_url v])%list |})
  /\ (forall y, exists b,
        should_skip_year cfg (Some y) = Ok b
        /\ (b = true <->
            (exists lo, min_year cfg = Some lo /\ lo <> 0 /\ y < lo)
            \/ (exists hi, max_year cfg = Some hi /\ hi <> 0 /\ hi < y))).
Proof.
  split; [|apply should_skip_year_some].
  intros Hb. pose proof (should_skip_year_none cfg Hb) as Hr.
  split; [exact Hr|]. intros st v l p Hv Hy Hd Hc Ht.
  assert (Hj : judge st cfg l = Failed TypeError).
  { unfold judge. now rewrite Hd, Hc, Ht, Hy, Hr. }
  split; [exact Hj|]. cbn [scrape]. now rewrite Hv, Hj.
Qed.

End YearFilter.

(** ** The acceptance chain *)

Section Acceptance.
Import listing scrape_config ScrapingPipeline.

Lemma non_usa_spec (l : Listing) :
  non_usa l = true <-> exists c, country l = Some c /\ c <> "" /\ c <> "USA".
Proof.
  unfold non_usa. destruct (country l) as [c|].
  - rewrite andb_true_iff, negb_true_iff. split.
    + intros [Ht Hu]. exists c. repeat split.
      * intros ->. discriminate.
      * intros ->. discriminate.
    + intros (c' & [= <-] & Hne & Hu). split.
      * destruct c; [congruence | reflexivity].
      * now apply String.eqb_neq.
  - split; [discriminate | now intros (c & H & _)].
Qed.

Lemma judge_non_usa (st : option JSONStorage.t) (cfg : ScrapeConfig) (l : Listing) :
  judge st cfg l = Skipped NonUSA <-> is_duplicate st l = false /\ non_usa l = true.
Proof.
  unfold judge. destruct (is_duplicate st l); [split; [discriminate | intros [? _]; discriminate]|].
  destruct (non_usa l); [tauto|].
  split; [|intros [_ ?]; discriminate]. intros H. exfalso.
  destruct (contains _ _); [discriminate|].
  destruct (should_skip_year cfg (year l)) as [[]|]; try discriminate.
  destruct (no_vin l); [discriminate|].
  destruct (fields cfg) as [[|? ?]|]; discriminate.
Qed.

(** C9. A listing whose country is absent is never rejected by the
    country filter; the listings the chain skips as non-domestic are
    exactly those, not stopped as duplicates, that carry a non-empty
    country other than ["USA"]. *)
Theorem country_filter_spares_absent (st : option JSONStorage.t) (cfg : ScrapeConfig)
    (l : Listing) :
  (country l = None -> non_usa l = false /\ judge st cfg l <> Skipped NonUSA)
  /\ (judge st cfg l = Skipped NonUSA <->
      is_duplicate st l = false
      /\ exists c, country l = Some c /\ c <> "" /\ c <> "USA").
Proof.
  split.
  - intros Hc. assert (Hn : non_usa l = false) by (unfold non_usa; now rewrite Hc).
    split; [exact Hn|]. intros Hj. apply judge_non_usa in Hj as [_ Hj]. congruence.
  - rewrite judge_non_usa, non_usa_spec. reflexivity.
Qed.

(** *** Append mode *)

Lemma load_keeps_na_out (data : list (option string)) (acc : gset string) :
  "N/A" ∉ acc -> "N/A" ∉ JSONStorage._load_existing_lot_numbers data acc.
Proof.
  revert acc. induction data as [|[lot|] data IH]; intros acc Hacc; cbn; auto.
  destruct (String.eqb_spec lot "N/A") as [->|Hne]; [auto|].
  apply IH. apply not_elem_of_union. split; [|exact Hacc].
  apply not_elem_of_singleton. congruence.
Qed.

Lemma exists_not_na (path : string) (file : option (list (option string))) (lot : string) :
  JSONStorage.exists_ (JSONStorage.init path file) lot = true -> lot <> "N/A".
Proof.
  unfold JSONStorage.exists_. rewrite bool_decide_eq_true. cbn. intros Hin ->.
  destruct file as [data|].
  - revert Hin. apply load_keeps_na_out. apply not_elem_of_empty.
  - revert Hin. apply not_elem_of_empty.
Qed.

Lemma scrape_stops (st : option JSONStorage.t) (cfg : ScrapeConfig)
    (pre post : list visit) (v : visit) (l : Listing) (p : progress) :
  extracted v = Ok l -> back_raises v = false -> is_duplicate st l = true ->
  scrape st cfg (pre ++ v :: post) p = scrape st cfg (pre ++ [v]) p
  /\ listings (scrape st cfg (pre ++ [v]) p) = listings (scrape st cfg pre p)
  /\ skipped (scrape st cfg (pre ++ [v]) p) = skipped (scrape st cfg pre p).
Proof.
  intros Hv Hb Hd.
  assert (Hj : judge st cfg l = Duplicate) by (unfold judge; now rewrite Hd).
  revert p. induction pre as [|a pre IH]; intros p; cbn [app scrape].
  - rewrite Hv, Hj, Hb. auto.
  - destruct (extracted a) as [la|]; [|apply IH].
    destruct (judge st cfg la); try apply IH.
    destruct (back_raises a); [apply IH | auto].
Qed.

(** The URLs visited are an initial part of the URLs handed in. *)
Lemma visited_prefix (st : option JSONStorage.t) (cfg : ScrapeConfig)
    (vs : list visit) (p : progress) :
  exists k, visited (scrape st cfg vs p) = (visited p ++ firstn k (map visit_url vs))%list.
Proof.
  revert p. induction vs as [|a vs IH]; intros p; cbn [scrape].
  - exists O. cbn. now rewrite app_nil_r.
  - assert (Hstep : forall q, visited q = (visited p ++ [visit_url a])%list ->
              exists k, visited (scrape st cfg vs q)
                        = (visited p ++ firstn k (map visit_url (a :: vs)))%list).
    { intros q Hq. destruct (IH q) as [k Hk]. exists (S k).
      rewrite Hk, Hq, <- app_assoc. reflexivity. }
    destruct (extracted a) as [la|]; [|now apply Hstep].
    destruct (judge st cfg la); try now apply Hstep.
    destruct (back_raises a); [now apply Hstep|].
    exists 1%nat. reflexivity.
Qed.

(** X28. In append mode, when the lot number of a scraped listing is
    already in the prior storage and [browser.back()] does not raise on
    its page, detail scraping of the slug stops at once: the result is
    what the URLs before the duplicate gave, and no URL after it is
    visited. With lot 1234 stored and URLs giving lots 999, 1234, 555,
    only the listing of lot 999 is returned and the third URL is not
    visited. *)
Theorem append_mode_stops_at_duplicate
    (path : string) (file : option (list (option string))) (cfg : ScrapeConfig)
    (pre post : list visit) (v : visit) (l : Listing) (lot : string) :
  let st := Some (JSONStorage.init path file) in
  extracted v = Ok l -> back_raises v = false ->
  lot_number l = Some lot -> lot <> "" ->
  JSONStorage.exists_ (JSONStorage.init path file) lot = true ->
  let r := _scrape_listings st cfg (pre ++ v :: post) in
  listings r = listings (_scrape_listings st cfg pre)
  /\ r = _scrape_listings st cfg (pre ++ [v])
  /\ (exists k, visited r = firstn k (map visit_url (pre ++ [v])))
  /\ let run := _scrape_listings (Some prior) (config_years None None)
                  [seen "u1" "999"; seen "u2" "1234"; seen "u3" "555"] in
     listings run = [sold "u1" "999"] /\ visited run = ["u1"; "u2"].
Proof.
  intros st Hv Hb Hl Hne Hex r.
  assert (Hd : is_duplicate st l = true).
  { unfold is_duplicate, st. rewrite Hl, Hex.
    apply exists_not_na in Hex. apply String.eqb_neq in Hex. rewrite Hex.
    destruct lot; [congruence | reflexivity]. }
  destruct (scrape_stops st cfg pre post v l start Hv Hb Hd) as (H1 & H2 & _).
  unfold r, _scrape_listings.
  split; [now rewrite H1, H2|]. split; [exact H1|]. split.
  - rewrite H1. destruct (visited_prefix st cfg (pre ++ [v]) start) as [k Hk].
    exists k. exact Hk.
  - split; vm_compute; reflexivity.
Qed.

(** The listings kept do not depend on the URLs recorded as visited. *)
Lemma scrape_listings_of (st : option JSONStorage.t) (cfg : ScrapeConfig)
    (vs : list visit) (p q : progress) :
  listings p = listings q -> listings (scrape st cfg vs p) = listings (scrape st cfg vs q).
Proof.
  revert p q. induction vs as [|a vs IH]; intros p q H; cbn [scrape]; [exact H|].
  destruct (extracted a) as [la|]; [|now apply IH].
  destruct (judge st cfg la); try (apply IH; cbn; now rewrite ?H).
  destruct (back_raises a); [now apply IH | exact H].
Qed.

(** A duplicate on whose page [browser.back()] raises is passed over
    like a page that could not be read. *)
Lemma scrape_past_duplicate (st : option JSONStorage.t) (cfg : ScrapeConfig)
    (pre post : list visit) (v : visit) (l : Listing) (p : progress) :
  extracted v = Ok l -> is_duplicate st l = true -> back_raises v = true ->
  listings (scrape st cfg (pre ++ v :: post) p) = listings (scrape st cfg (pre ++ post) p).
Proof.
  intros Hv Hd Hb.
  assert (Hj : judge st cfg l = Duplicate) by (unfold judge; now rewrite Hd).
  revert p. induction pre as [|a pre IH]; intros p; cbn [app scrape].
  - rewrite Hv, Hj, Hb. now apply scrape_listings_of.
  - destruct (extracted a) as [la|]; [|apply IH].
    destruct (judge st cfg la); try apply IH.
    destruct (back_raises a); [apply IH | reflexivity].
Qed.

(** C4. The stop at a duplicate does not survive a [browser.back()]
    that raises: the [return] that follows it in the [try] block is not
    reached, the handler swallows the exception, and the loop goes on
    with the next URL as if the duplicate had not been there. With lot
    1234 stored and URLs giving lots 999, 1234, 555, and [back()]
    raising on the page of lot 1234, all three URLs are visited and the
    listings of lots 999 and 555 are returned; when [back()] does not
    raise, only the listing of lot 999 is. *)
Theorem append_mode_back_raises_goes_on (st : option JSONStorage.t) (cfg : ScrapeConfig)
    (pre post : list visit) (v : visit) (l : Listing) :
  extracted v = Ok l -> is_duplicate st l = true -> back_raises v = true ->
  listings (_scrape_listings st cfg (pre ++ v :: post))
  = listings (_scrape_listings st cfg (pre ++ post))
  /\ is_duplicate (Some prior) (sold "u2" "1234") = true
  /\ listings (_scrape_listings (Some prior) (config_years None None)
                 [seen "u1" "999"; seen_stuck "u2" "1234"; seen "u3" "555"])
     = [sold "u1" "999"; sold "u3" "555"]
  /\ visited (_scrape_listings (Some prior) (config_years None None)
                [seen "u1" "999"; seen_stuck "u2" "1234"; seen "u3" "555"])
     = ["u1"; "u2"; "u3"]
  /\ listings (_scrape_listings (Some prior) (config_years None None)
                 [seen "u1" "999"; seen "u2" "1234"; seen "u3" "555"])
     = [sold "u1" "999"].
Proof.
  intros Hv Hd Hb. split.
  - unfold _scrape_listings. now apply (scrape_past_duplicate st cfg pre post v l).
  - repeat split; vm_compute; reflexivity.
Qed.

End Acceptance.

(** ** The listing loader *)

Section Loader.
Import BringATrailerSite.









(** Three clicks that load more cards, then two errors in a row: the
    loop stops on the second, with 45 clicks of the budget unused. *)
Example load_all_listings_stalling :
  _load_all_listings 96 48 stalling
  = Some [ {| clicks := 1; consecutive_failures := 0 |};
           {| clicks := 2; consecutive_failures := 0 |};
           {| clicks := 3; consecutive_failures := 0 |};
           {| clicks := 3; consecutive_failures := 1 |};
           {| clicks := 3; consecutive_failures := 2 |} ].
Proof. vm_compute. reflexivity. Qed.



End Loader.

(** ** Substrings *)

Section Substrings.

Lemma append_assoc3 (a b c : string) : (a +:+ b) +:+ c = a +:+ b +:+ c.
Proof.
  induction a as [|x a IH]; [reflexivity|]. now rewrite !append_cons, IH.
Qed.

Lemma occurs_inside (sub t a b : string) : occurs sub t -> occurs sub (a +:+ t +:+ b).
Proof.
  intros (x & y & ->). exists (a +:+ x), (y +:+ b).
  now rewrite !append_assoc3.
Qed.

Lemma startswith_spec (s p : string) : startswith s p = true <-> exists b, s = p +:+ b.
Proof.
  revert s. induction p as [|c p IH]; intros s; cbn [startswith].
  - split; [intros _; now exists s | reflexivity].
  - destruct s as [|d s].
    + split; [discriminate | intros [b Hb]; discriminate].
    + rewrite andb_true_iff, Ascii.eqb_eq, IH. split.
      * intros [-> [b ->]]. now exists b.
      * intros [b Hb]. rewrite append_cons in Hb. injection Hb as -> ->. eauto.
Qed.




Lemma drop_part (n : nat) (s : string) : exists a, s = a +:+ drop n s.
Proof.
  revert s. induction n as [|n IH]; intros s.
  - now exists EmptyString.
  - destruct s as [|c s]; [now exists EmptyString|].
    destruct (IH s) as [a Ha]. exists (String c a). cbn [drop].
    now rewrite append_cons, <- Ha.
Qed.

Lemma lstrip_part (s : string) : exists a, s = a +:+ lstrip s.
Proof.
  induction s as [|c s [a Ha]]; [now exists EmptyString|]. cbn [lstrip].
  destruct (isspace c); [|now exists EmptyString].
  exists (String c a). now rewrite append_cons, <- Ha.
Qed.

Lemma rstrip_part (s : string) : exists b, s = rstrip s +:+ b.
Proof.
  induction s as [|c s [b Hb]]; [now exists EmptyString|]. cbn [rstrip].
  destruct (rstrip s) as [|d r] eqn:Hr.
  - rewrite append_nil in Hb. subst b.
    destruct (isspace c); [now exists (String c s) | now exists s].
  - exists b. now rewrite append_cons, <- Hb.
Qed.

Lemma strip_part (s : string) : exists a b, s = a +:+ strip s +:+ b.
Proof.
  unfold strip. destruct (lstrip_part s) as [a Ha].
  destruct (rstrip_part (lstrip s)) as [b Hb].
  exists a, b. now rewrite <- Hb.
Qed.



End Substrings.

(** ** Variant derivation *)

Section Variant.
Import scrape_config BringATrailerSite.






End Variant.

(** ** Rule order *)

Section RuleOrder.

Variable re_search_i : string -> string -> option string.

Lemma mileage_first_value (pre rest : list rule) (r : rule) (d : option driver)
    (ctx : option context) (a : pyval) :
  Forall (fun x => MileageExtractor.candidate re_search_i ctx d x = Ok None) pre ->
  MileageExtractor.candidate re_search_i ctx d r = Ok (Some a) ->
  MileageExtractor.extract_run re_search_i (pre ++ r :: rest) d ctx
  = {| consulted := pre ++ [r]; outcome := Ok (Some a) |}.
Proof.
  intros Hpre Hr. induction Hpre as [|x pre Hx _ IH]; cbn [app MileageExtractor.extract_run].
  - now rewrite Hr.
  - now rewrite Hx, IH.
Qed.

Lemma vin_first_accepted (pre rest : list rule) (r : rule) (sp : soup)
    (d : option driver) (a : string) :
  Forall (fun x => exists c, VINExtractor.candidate re_search_i sp d x = Ok c
                             /\ VINExtractor.accepted c = false) pre ->
  VINExtractor.candidate re_search_i sp d r = Ok (Some a) ->
  VINExtractor.accepted (Some a) = true ->
  VINExtractor.extract_run re_search_i (pre ++ r :: rest) sp d
  = {| consulted := pre ++ [r]; outcome := Ok (Some a) |}.
Proof.
  intros Hpre Hr Ha. induction Hpre as [|x pre (c & Hx & Hc) _ IH];
    cbn [app VINExtractor.extract_run].
  - now rewrite Hr, Ha.
  - now rewrite Hx, Hc, IH.
Qed.

End RuleOrder.

(** C1, as stated, fails for the VIN extractor: both rules produce a
    value, and the value extracted is the one of the second rule,
    because the candidate of the first does not pass validation. *)
Lemma vin_second_rule_can_win :
  ~ (forall (re : string -> string -> option string) (sp : soup) (d : option driver)
            (ruleA ruleB : rule) (a b : string),
       VINExtractor.candidate re sp d ruleA = Ok (Some a) ->
       VINExtractor.candidate re sp d ruleB = Ok (Some b) ->
       VINExtractor.extract re [ruleA; ruleB] sp d = Ok (Some a)).
Proof.
  intros H.
  specialize (H Re.search_group1 two_tags None
                (vin_rule ".essentials a") (vin_rule ".vin-tag")
                "wbsbl93498cy13754" "WBSBL93498CY13754" eq_refl eq_refl).
  vm_compute in H. discriminate H.
Qed.

(** C1, amended. The rules of an extractor are evaluated in the order
    they are declared and the first one whose value the extractor
    accepts decides the field; the rules after it are not evaluated.
    The mileage extractor accepts any value. The VIN extractor accepts a
    candidate that is not empty and passes VIN validation, and moves on
    to the next rule past a candidate that does not. *)
Theorem first_accepted_rule_wins (re : string -> string -> option string) :
  (forall (pre rest : list rule) (r : rule) (d : option driver) (ctx : option context)
          (a : pyval),
     Forall (fun x => MileageExtractor.candidate re ctx d x = Ok None) pre ->
     MileageExtractor.candidate re ctx d r = Ok (Some a) ->
     MileageExtractor.extract_run re (pre ++ r :: rest) d ctx
     = {| consulted := pre ++ [r]; outcome := Ok (Some a) |})
  /\ (forall (pre rest : list rule) (r : rule) (sp : soup) (d : option driver)
             (a : string),
        Forall (fun x => exists c, VINExtractor.candidate re sp d x = Ok c
                                   /\ VINExtractor.accepted c = false) pre ->
        VINExtractor.candidate re sp d r = Ok (Some a) ->
        a <> "" -> VINExtractor._validate_vin a = true ->
        VINExtractor.extract_run re (pre ++ r :: rest) sp d
        = {| consulted := pre ++ [r]; outcome := Ok (Some a) |}).
Proof.
  split.
  - intros. now apply mileage_first_value.
  - intros pre rest r sp d a Hpre Hr Hne Hv. apply vin_first_accepted; auto.
    unfold VINExtractor.accepted. rewrite Hv. destruct a; [congruence | reflexivity].
Qed.

(** ** Instances *)

Lemma first_accepted_rule_wins_witness :
  (MileageExtractor.candidate Re.search_group1 (Some bmw_page) None detail_rule
   = Ok (Some (PInt 45200))
   /\ MileageExtractor.candidate Re.search_group1 (Some bmw_page) None title_rule
      = Ok (Some (PInt 12000))
   /\ MileageExtractor.extract_run Re.search_group1 ([] ++ detail_rule :: [title_rule])
        None (Some bmw_page)
      = {| consulted := [] ++ [detail_rule]; outcome := Ok (Some (PInt 45200)) |})
  /\ (VINExtractor.candidate Re.search_group1 two_tags None (vin_rule ".essentials a")
      = Ok (Some "wbsbl93498cy13754")
      /\ VINExtractor.accepted (Some "wbsbl93498cy13754") = false
      /\ VINExtractor.extract_run Re.search_group1
           ([vin_rule ".essentials a"] ++ vin_rule ".vin-tag" :: [vin_rule ".other"])
           two_tags None
         = {| consulted := [vin_rule ".essentials a"] ++ [vin_rule ".vin-tag"];
              outcome := Ok (Some "WBSBL93498CY13754") |}).
Proof.
  split.
  - split; [reflexivity|]. split; [reflexivity|].
    apply (proj1 (first_accepted_rule_wins Re.search_group1)).
    + constructor.
    + reflexivity.
  - split; [reflexivity|]. split; [reflexivity|].
    apply (proj2 (first_accepted_rule_wins Re.search_group1)).
    + constructor; [|constructor].
      exists (Some "wbsbl93498cy13754"). split; reflexivity.
    + reflexivity.
    + discriminate.
    + reflexivity.
Defined.


Lemma append_mode_stops_at_duplicate_witness :
  ScrapingPipeline.extracted (seen "u2" "1234") = Ok (sold "u2" "1234")
  /\ JSONStorage.exists_ (JSONStorage.init "out.json" (Some [Some "1234"])) "1234" = true
  /\ ScrapingPipeline.listings
       (ScrapingPipeline._scrape_listings
          (Some (JSONStorage.init "out.json" (Some [Some "1234"])))
          (config_years None None)
          ([seen "u1" "999"] ++ seen "u2" "1234" :: [seen "u3" "555"]))
     = ScrapingPipeline.listings
         (ScrapingPipeline._scrape_listings
            (Some (JSONStorage.init "out.json" (Some [Some "1234"])))
            (config_years None None) [seen "u1" "999"]).
Proof.
  split; [reflexivity|]. split; [vm_compute; reflexivity|].
  apply (append_mode_stops_at_duplicate "out.json" (Some [Some "1234"])
           (config_years None None) [seen "u1" "999"] [seen "u3" "555"]
           (seen "u2" "1234") (sold "u2" "1234") "1234").
  - reflexivity.
  - reflexivity.
  - reflexivity.
  - discriminate.
  - vm_compute. reflexivity.
Defined.

Lemma append_mode_back_raises_goes_on_witness :
  ScrapingPipeline.extracted (seen_stuck "u2" "1234") = Ok (sold "u2" "1234")
  /\ ScrapingPipeline.is_duplicate (Some prior) (sold "u2" "1234") = true
  /\ ScrapingPipeline.back_raises (seen_stuck "u2" "1234") = true
  /\ ScrapingPipeline.listings
       (ScrapingPipeline._scrape_listings (Some prior) (config_years None None)
          ([seen "u1" "999"] ++ seen_stuck "u2" "1234" :: [seen "u3" "555"]))
     = ScrapingPipeline.listings
         (ScrapingPipeline._scrape_listings (Some prior) (config_years None None)
            ([seen "u1" "999"] ++ [seen "u3" "555"])).
Proof.
  assert (Hd : ScrapingPipeline.is_duplicate (Some prior) (sold "u2" "1234") = true).
  { vm_compute. reflexivity. }
  split; [reflexivity|]. split; [exact Hd|]. split; [reflexivity|].
  apply (proj1 (append_mode_back_raises_goes_on (Some prior) (config_years None None)
                  [seen "u1" "999"] [seen "u3" "555"] (seen_stuck "u2" "1234")
                  (sold "u2" "1234") eq_refl Hd eq_refl)).
Defined.


Lemma country_filter_spares_absent_witness :
  listing.country (bare "u" "bringatrailer" "2003 BMW M3") = None
  /\ ScrapingPipeline.non_usa (bare "u" "bringatrailer" "2003 BMW M3") = false
  /\ ScrapingPipeline.judge (Some prior) (config_years None None)
       (bare "u" "bringatrailer" "2003 BMW M3")
     <> ScrapingPipeline.Skipped ScrapingPipeline.NonUSA.
Proof.
  split; [reflexivity|].
  apply (proj1 (country_filter_spares_absent (Some prior) (config_years None None)
                  (bare "u" "bringatrailer" "2003 BMW M3"))).
  reflexivity.
Defined.

Lemma should_skip_year_spec_witness :
  scrape_config.truthy_int (scrape_config.min_year (config_years (Some 1990) None))
  || scrape_config.truthy_int (scrape_config.max_year (config_years (Some 1990) None))
  = true
  /\ scrape_config.should_skip_year (config_years (Some 1990) None) None = Raise TypeError.
Proof.
  split; [reflexivity|].
  apply (proj1 (should_skip_year_spec (config_years (Some 1990) None))).
  reflexivity.
Defined.

(** * More of the code *)

(** ** The serialized record, there and back *)

Section RoundTrip.
Import listing.

Lemma or_na_text (x : option string) : or_na x = JStr (text x).
Proof. destruct x as [[|c s]|]; reflexivity. Qed.

Lemma text_text (x : option string) : text (Some (text x)) = text x.
Proof. destruct x as [[|c s]|]; reflexivity. Qed.

Lemma to_dict_absent (l : Listing) (key : string) :
  key ∉ (to_dict_items l).*1 -> to_dict l !! key = None.
Proof. intros H. unfold to_dict. now apply not_elem_of_list_to_map. Qed.

(** The entries of the dictionary, key by key. *)
Lemma to_dict_entries (l : Listing) :
  let d := to_dict l in
  (d !! "url" = Some (JStr (url l)) /\ d !! "source" = Some (JStr (source l))
   /\ d !! "title" = Some (or_na (Some (title l))))
  /\ (d !! "lot_number" = Some (or_na (lot_number l))
      /\ d !! "seller" = Some (or_na (seller l))
      /\ d !! "seller_type" = Some (or_na (seller_type l))
      /\ d !! "result" = Some (or_na (result l))
      /\ d !! "high_bidder" = Some (or_na (high_bidder l))
      /\ d !! "sale_date" = Some (or_na (sale_date l)))
  /\ (d !! "vin" = Some (or_na (vin l)) /\ d !! "make" = Some (or_na (make l))
      /\ d !! "model" = Some (or_na (model l))
      /\ d !! "variant" = Some (or_na (variant l))
      /\ d !! "engine" = Some (or_na (engine l))
      /\ d !! "transmission" = Some (or_na (transmission l)))
  /\ (d !! "exterior_color" = Some (or_na (exterior_color l))
      /\ d !! "interior_color" = Some (or_na (interior_color l))
      /\ d !! "location" = Some (or_na (location l)))
  /\ (d !! "price" = Some (num (price l))
      /\ d !! "number_of_bids" = Some (num (number_of_bids l))
      /\ d !! "year" = Some (num (year l)) /\ d !! "mileage" = Some (num (mileage l)))
  /\ (d !! "convertible" = Some (JBool (convertible l))
      /\ d !! "listing_details" = Some (JArr (listing_details l))
      /\ d !! "excerpt" = Some (JArr (excerpt l))
      /\ d !! "country" = None).
Proof.
  cbv zeta. repeat split; rewrite to_dict_lookup; reflexivity.
Qed.

(** Reading a record whose entries are those of [to_dict l], whatever
    else the record holds. *)
Lemma from_dict_reread (l : Listing) (d : gmap string jval) :
  (forall key, key ∈ (to_dict_items l).*1 -> d !! key = to_dict l !! key) ->
  d !! "country" = None ->
  from_dict d = reread l.
Proof.
  intros Hd Hc.
  destruct (to_dict_entries l)
    as ((E1 & E2 & E3) & (E4 & E5 & E6 & E7 & E8 & E9)
        & (E10 & E11 & E12 & E13 & E14 & E15) & (E16 & E17 & E18)
        & (E19 & E20 & E21 & E22) & (E23 & E24 & E25 & _)).
  assert (Hin : forall key, bool_decide (key ∈ (to_dict_items l).*1) = true ->
                  d !! key = to_dict l !! key).
  { intros key Hk. apply Hd. now apply bool_decide_eq_true in Hk. }
  unfold from_dict, reread, get_str, get_int, get_list.
  rewrite Hc.
  rewrite !Hin by reflexivity.
  rewrite E1, E2, E3, E4, E5, E6, E7, E8, E9, E10, E11, E12, E13, E14, E15, E16, E17,
    E18, E19, E20, E21, E22, E23, E24, E25.
  rewrite !or_na_text. cbn [default].
  destruct (price l), (number_of_bids l), (year l), (mileage l); reflexivity.
Qed.

Lemma reread_round_trip (l : Listing) :
  from_dict (to_dict l) = reread l /\ to_dict (reread l) = to_dict l.
Proof.
  split.
  - apply from_dict_reread; [auto|]. rewrite to_dict_lookup. reflexivity.
  - unfold to_dict. f_equal. unfold to_dict_items, reread. cbn -[text or_na num].
    rewrite !or_na_text, !text_text. reflexivity.
Qed.

(** X1. Reading back a serialized listing gives the listing with every
    absent or empty string replaced by ["N/A"] and with no country;
    URL, source, numbers, flags and lists come back unchanged, and
    serializing the result gives the same record again. *)
Theorem from_dict_to_dict (l : Listing) :
  from_dict (to_dict l) = reread l
  /\ to_dict (from_dict (to_dict l)) = to_dict l.
Proof.
  destruct (reread_round_trip l) as [H1 H2]. split; [exact H1 | now rewrite H1].
Qed.

End RoundTrip.

(** ** Deduplication *)

Section Dedup.
Import listing ScrapingPipeline.

Lemma dedup_loop_firsts (todo : list Listing) (seen : gset string) (unique : list Listing) :
  dedup_loop todo seen unique = (unique ++ firsts seen todo)%list.
Proof.
  revert seen unique. induction todo as [|l rest IH]; intros seen unique; cbn.
  - now rewrite app_nil_r.
  - destruct (bool_decide (url l ∈ seen)); rewrite IH; [reflexivity|].
    now rewrite <- app_assoc.
Qed.

Lemma deduplicate_firsts (ls : list Listing) : _deduplicate ls = firsts ∅ ls.
Proof. unfold _deduplicate. now rewrite dedup_loop_firsts. Qed.

Lemma firsts_elem (seen : gset string) (todo : list Listing) (x : Listing) :
  x ∈ firsts seen todo -> (url x ∉ seen) /\ (x ∈ todo).
Proof.
  revert seen. induction todo as [|l rest IH]; intros seen; cbn.
  - intros H. now apply elem_of_nil in H.
  - destruct (bool_decide_reflect (url l ∈ seen)) as [Hin|Hout].
    + intros H. destruct (IH _ H) as [H1 H2]. split; [exact H1 | now right].
    + intros H. apply elem_of_cons in H as [-> | H].
      * split; [exact Hout | now left].
      * destruct (IH _ H) as [H1 H2]. split; [|now right].
        intros Hs. apply H1. apply elem_of_union. now right.
Qed.

Lemma firsts_nodup (seen : gset string) (todo : list Listing) :
  NoDup (map url (firsts seen todo)).
Proof.
  revert seen. induction todo as [|l rest IH]; intros seen; cbn.
  - constructor.
  - destruct (bool_decide (url l ∈ seen)); [apply IH|].
    cbn. constructor; [|apply IH].
    intros Hin. apply list_elem_of_fmap in Hin as (x & Hx & Hin).
    apply firsts_elem in Hin as [Hout _]. apply Hout.
    apply elem_of_union. left. apply elem_of_singleton. congruence.
Qed.

Lemma firsts_sublist (seen : gset string) (todo : list Listing) :
  sublist (firsts seen todo) todo.
Proof.
  revert seen. induction todo as [|l rest IH]; intros seen; cbn.
  - constructor.
  - destruct (bool_decide (url l ∈ seen)); [apply sublist_cons | apply sublist_skip]; apply IH.
Qed.

Lemma firsts_find (seen : gset string) (todo : list Listing) (u : string) :
  List.find (has_url u) (firsts seen todo)
  = if bool_decide (u ∈ seen) then None else List.find (has_url u) todo.
Proof.
  revert seen. induction todo as [|l rest IH]; intros seen; cbn.
  - now destruct (bool_decide (u ∈ seen)).
  - unfold has_url at 2. destruct (String.eqb_spec u (url l)) as [->|Hne].
    + destruct (bool_decide_reflect (url l ∈ seen)) as [Hin|Hout].
      * rewrite IH. now rewrite bool_decide_eq_true_2.
      * cbn. unfold has_url at 1. now rewrite String.eqb_refl.
    + destruct (bool_decide_reflect (url l ∈ seen)) as [Hin|Hout].
      * apply IH.
      * cbn. unfold has_url at 1. apply String.eqb_neq in Hne as Hb. rewrite Hb.
        rewrite IH.
        destruct (bool_decide_reflect (u ∈ seen)) as [Hu|Hu].
        -- rewrite bool_decide_eq_true_2; [reflexivity|]. apply elem_of_union. now right.
        -- rewrite bool_decide_eq_false_2; [reflexivity|].
           intros Hs. apply elem_of_union in Hs as [Hs|Hs]; [|contradiction].
           apply elem_of_singleton in Hs. congruence.
Qed.

Lemma firsts_urls (seen : gset string) (todo : list Listing) (u : string) :
  u ∈ map url (firsts seen todo) <-> (u ∈ map url todo) /\ (u ∉ seen).
Proof.
  revert seen. induction todo as [|l rest IH]; intros seen; cbn.
  - split; [intros H; now apply elem_of_nil in H | intros [H _]; now apply elem_of_nil in H].
  - destruct (bool_decide_reflect (url l ∈ seen)) as [Hin|Hout].
    + rewrite IH, elem_of_cons. split; [intros [? ?]; auto|].
      intros [[-> | H] Hs]; [contradiction | auto].
    + cbn. rewrite !elem_of_cons, IH. split.
      * intros [-> | [H Hs]]; [auto|]. split; [auto|].
        intros Hu. apply Hs. apply elem_of_union. now right.
      * intros [[-> | H] Hs]; [auto|].
        destruct (decide (u = url l)) as [->|Hne]; [auto|]. right. split; [auto|].
        intros Hu. apply elem_of_union in Hu as [Hu|Hu]; [|contradiction].
        apply elem_of_singleton in Hu. contradiction.
Qed.

Lemma firsts_distinct (seen : gset string) (todo : list Listing) :
  NoDup (map url todo) -> (forall l, l ∈ todo -> url l ∉ seen) ->
  firsts seen todo = todo.
Proof.
  revert seen. induction todo as [|l rest IH]; intros seen Hnd Hout; cbn; [reflexivity|].
  cbn in Hnd. apply NoDup_cons in Hnd as [Hl Hnd].
  rewrite bool_decide_eq_false_2 by (apply Hout; now left).
  f_equal. apply IH; [exact Hnd|].
  intros x Hx Hs. apply elem_of_union in Hs as [Hs|Hs].
  - apply elem_of_singleton in Hs. apply Hl. rewrite <- Hs.
    apply list_elem_of_fmap. eauto.
  - apply (Hout x); [now right | exact Hs].
Qed.

(** X2. After deduplication no two listings carry the same URL, and
    the number of listings left is the number of distinct URLs that
    went in. *)
Theorem deduplicate_distinct (ls : list Listing) :
  NoDup (map url (_deduplicate ls))
  /\ length (_deduplicate ls) = size (list_to_set (map url ls) : gset string).
Proof.
  rewrite deduplicate_firsts.
  pose proof (firsts_nodup ∅ ls) as Hnd. split; [exact Hnd|].
  rewrite <- (length_map url).
  rewrite <- (size_list_to_set (C := gset string)) by exact Hnd.
  f_equal. apply set_eq. intros u. rewrite !elem_of_list_to_set, firsts_urls.
  split; [now intros [? _] | intros H; split; [exact H | apply not_elem_of_empty]].
Qed.

(** X3. Deduplication keeps the first listing of every URL and the
    order of the listings: what is left is a subsequence of what went
    in, and looking a URL up in it finds the listing that the same
    lookup finds in the input. *)
Theorem deduplicate_keeps_first (ls : list Listing) :
  sublist (_deduplicate ls) ls
  /\ forall u, List.find (has_url u) (_deduplicate ls) = List.find (has_url u) ls.
Proof.
  rewrite deduplicate_firsts. split; [apply firsts_sublist|].
  intros u. rewrite firsts_find. rewrite bool_decide_eq_false_2; [reflexivity|].
  apply not_elem_of_empty.
Qed.

(** X4. Listings whose URLs are already distinct are left as they are;
    deduplicating twice is deduplicating once. *)
Theorem deduplicate_idempotent (ls : list Listing) :
  (NoDup (map url ls) -> _deduplicate ls = ls)
  /\ _deduplicate (_deduplicate ls) = _deduplicate ls.
Proof.
  assert (H : forall l, NoDup (map url l) -> _deduplicate l = l).
  { intros l Hnd. rewrite deduplicate_firsts. apply firsts_distinct; [exact Hnd|].
    intros x _. apply not_elem_of_empty. }
  split; [apply H|]. apply H. rewrite deduplicate_firsts. apply firsts_nodup.
Qed.

End Dedup.

(** ** The field subset *)

Section FieldSubset.
Import listing scrape_config ScrapingPipeline.

Lemma to_dict_keys (l : Listing) : (to_dict_items l).*1 = record_keys.
Proof. reflexivity. Qed.

Lemma filtered_lookup (d acc : gmap string jval) (fields : list string) (k : string) :
  foldl (fun filtered field =>
           match d !! field with
           | Some v => <[ field := v ]> filtered
           | None => filtered
           end) acc fields !! k
  = match (if bool_decide (k ∈ fields) then d !! k else None) with
    | Some v => Some v
    | None => acc !! k
    end.
Proof.
  revert acc. induction fields as [|f fs IH]; intros acc; cbn [foldl].
  - rewrite bool_decide_eq_false_2; [reflexivity | apply not_elem_of_nil].
  - rewrite IH. clear IH.
    destruct (bool_decide_reflect (k ∈ fs)) as [Hin|Hout].
    + rewrite bool_decide_eq_true_2 by (now right).
      destruct (d !! k) as [v|] eqn:Hk; [reflexivity|].
      destruct (d !! f) as [w|] eqn:Hf; [|reflexivity].
      rewrite lookup_insert_ne; [reflexivity | congruence].
    + destruct (decide (k = f)) as [->|Hne].
      * rewrite bool_decide_eq_true_2 by (now left).
        destruct (d !! f) as [w|] eqn:Hf; [now rewrite lookup_insert_eq | reflexivity].
      * rewrite bool_decide_eq_false_2
          by (intros H; apply elem_of_cons in H as [H|H]; contradiction).
        destruct (d !! f) as [w|] eqn:Hf; [|reflexivity].
        now rewrite lookup_insert_ne by congruence.
Qed.

Lemma filter_fields_lookup (l : Listing) (fields : list string) :
  exists m : gmap string jval,
    _filter_fields l fields = from_dict m
    /\ forall k, m !! k = if bool_decide (k ∈ fields) then to_dict l !! k else None.
Proof.
  eexists. split; [reflexivity|]. intros k. rewrite filtered_lookup.
  rewrite lookup_empty. now destruct (bool_decide (k ∈ fields)), (to_dict l !! k).
Qed.

(** X5. The attributes named in the field subset come through the
    filter: the filtered listing serializes to the same value as the
    full listing under every key of the subset. *)
Theorem filter_fields_keeps (l : Listing) (fields : list string) (k : string) :
  k ∈ fields -> to_dict (_filter_fields l fields) !! k = to_dict l !! k.
Proof.
  intros Hk. destruct (filter_fields_lookup l fields) as (m & -> & Hm).
  destruct (decide (k ∈ record_keys)) as [Hkey|Hkey].
  2:{ rewrite !to_dict_absent; [reflexivity | |]; now rewrite to_dict_keys. }
  assert (Hmk : forall key, key = k -> m !! key = to_dict l !! key).
  { intros key ->. rewrite Hm. now rewrite bool_decide_eq_true_2. }
  clear Hm Hk.
  destruct (to_dict_entries l)
    as ((E1 & E2 & E3) & (E4 & E5 & E6 & E7 & E8 & E9)
        & (E10 & E11 & E12 & E13 & E14 & E15) & (E16 & E17 & E18)
        & (E19 & E20 & E21 & E22) & (E23 & E24 & E25 & _)).
  destruct (to_dict_entries (from_dict m))
    as ((F1 & F2 & F3) & (F4 & F5 & F6 & F7 & F8 & F9)
        & (F10 & F11 & F12 & F13 & F14 & F15) & (F16 & F17 & F18)
        & (F19 & F20 & F21 & F22) & (F23 & F24 & F25 & _)).
  unfold record_keys in Hkey.
  repeat (apply elem_of_cons in Hkey as [-> | Hkey]);
    try (now apply elem_of_nil in Hkey);
    match goal with
    | |- to_dict (from_dict m) !! ?key = _ =>
        pose proof (Hmk key eq_refl) as Hv; clear Hmk
    end;
    match goal with
    | H : to_dict (from_dict m) !! ?key = _ |- to_dict (from_dict m) !! ?key = _ =>
        rewrite H
    end;
    match goal with
    | H : to_dict l !! ?key = _, Hv : m !! ?key = to_dict l !! ?key |- _ =>
        rewrite H in Hv |- *
    end;
    cbn -[or_na num text lookup]; unfold get_str, get_int, get_list;
    rewrite Hv; rewrite ?or_na_text; cbn -[text]; rewrite ?text_text;
    try reflexivity.
  all: match goal with |- context [num ?x] => destruct x; reflexivity end.
Qed.

(** X6. What the subset leaves out is gone from the filtered listing:
    without ["url"] its URL is the empty string, without ["source"] its
    source is ["unknown"], without ["vin"] it has no VIN, and it has no
    country whatever the subset. *)
Theorem filter_fields_drops (l : Listing) (fields : list string) :
  ("url" ∉ fields -> url (_filter_fields l fields) = "")
  /\ ("source" ∉ fields -> source (_filter_fields l fields) = "unknown")
  /\ ("vin" ∉ fields -> vin (_filter_fields l fields) = None)
  /\ country (_filter_fields l fields) = None.
Proof.
  destruct (filter_fields_lookup l fields) as (m & -> & Hm).
  unfold from_dict, get_str. cbn.
  repeat split.
  - intros H. rewrite Hm. now rewrite bool_decide_eq_false_2.
  - intros H. rewrite Hm. now rewrite bool_decide_eq_false_2.
  - intros H. rewrite Hm. now rewrite bool_decide_eq_false_2.
  - rewrite Hm. destruct (bool_decide ("country" ∈ fields)); [|reflexivity].
    destruct (to_dict_entries l) as (_ & _ & _ & _ & _ & _ & _ & _ & ->). reflexivity.
Qed.

End FieldSubset.

(** ** What detail scraping keeps *)

Section Kept.
Import listing scrape_config ScrapingPipeline.

Lemma judge_accepted (st : option JSONStorage.t) (cfg : ScrapeConfig) (l k : Listing) :
  judge st cfg l = Accepted k ->
  is_duplicate st l = false /\ acceptable cfg l /\ k = as_kept cfg l.
Proof.
  unfold judge, acceptable, as_kept.
  destruct (is_duplicate st l); [discriminate|].
  destruct (non_usa l); [discriminate|].
  destruct (contains _ _); [discriminate|].
  destruct (should_skip_year cfg (year l)) as [[]|]; try discriminate.
  destruct (no_vin l); [discriminate|].
  destruct (fields cfg) as [[|f fs]|]; intros [= <-]; repeat split; reflexivity.
Qed.

Lemma scrape_invariant (st : option JSONStorage.t) (cfg : ScrapeConfig)
    (P : Listing -> Prop) (vs : list visit) (p : progress) :
  (forall v l k, v ∈ vs -> extracted v = Ok l -> judge st cfg l = Accepted k -> P k) ->
  Forall P (listings p) ->
  (length (listings p) + skipped p <= length (visited p))%nat ->
  let r := scrape st cfg vs p in
  Forall P (listings r)
  /\ (length (listings r) + skipped r <= length (visited r))%nat
  /\ (length (visited r) <= length (visited p) + length vs)%nat.
Proof.
  revert p. induction vs as [|v vs IH]; intros p HP Hp Hn; cbn [scrape].
  - cbn. repeat split; [exact Hp | exact Hn | lia].
  - assert (HP' : forall v' l k, v' ∈ vs -> extracted v' = Ok l ->
                    judge st cfg l = Accepted k -> P k).
    { intros v' l k Hin. apply HP. now right. }
    assert (Hstep : forall q,
              Forall P (listings q) ->
              (length (listings q) + skipped q <= length (visited q))%nat ->
              length (visited q) = S (length (visited p)) ->
              let r := scrape st cfg vs q in
              Forall P (listings r)
              /\ (length (listings r) + skipped r <= length (visited r))%nat
              /\ (length (visited r) <= length (visited p) + length (v :: vs))%nat).
    { intros q Hq Hnq Hvq. destruct (IH q HP' Hq Hnq) as (H1 & H2 & H3).
      cbn. repeat split; [exact H1 | exact H2 | cbn in H3; lia]. }
    destruct (extracted v) as [l|] eqn:Hv.
    2:{ apply Hstep; cbn; rewrite ?length_app; cbn; [exact Hp | lia | lia]. }
    destruct (judge st cfg l) as [|why|k|e] eqn:Hj.
    + destruct (back_raises v).
      * apply Hstep; cbn; rewrite ?length_app; cbn; [exact Hp | lia | lia].
      * cbn. rewrite length_app. cbn. repeat split; [exact Hp | lia | lia].
    + apply Hstep; cbn; rewrite ?length_app; cbn; [exact Hp | lia | lia].
    + apply Hstep; cbn; rewrite ?length_app; cbn; [| lia | lia].
      apply Forall_app. split; [exact Hp|]. constructor; [|constructor].
      apply (HP v l k); [now left | exact Hv | exact Hj].
    + apply Hstep; cbn; rewrite ?length_app; cbn; [exact Hp | lia | lia].
Qed.

Lemma scrape_kept_from (st : option JSONStorage.t) (cfg : ScrapeConfig)
    (vs : list visit) (k : Listing) :
  k ∈ listings (_scrape_listings st cfg vs) ->
  exists v l, v ∈ vs /\ extracted v = Ok l /\ is_duplicate st l = false
              /\ acceptable cfg l /\ k = as_kept cfg l.
Proof.
  intros Hk. unfold _scrape_listings in Hk.
  destruct (scrape_invariant st cfg
              (fun k => exists v l, v ∈ vs /\ extracted v = Ok l
                                    /\ is_duplicate st l = false
                                    /\ acceptable cfg l /\ k = as_kept cfg l)
              vs start) as (H & _).
  - intros v l k' Hin Hv Hj. apply judge_accepted in Hj. exists v, l. tauto.
  - constructor.
  - cbn. lia.
  - rewrite Forall_forall in H. now apply H.
Qed.

(** X7. Every listing that detail scraping returns comes from a page
    whose listing was not a stored duplicate and passed the whole chain:
    country absent or USA, no "modified" in the title, year within the
    bounds, a VIN present. It is that listing, cut down to the field
    subset when one is configured. *)
Theorem scrape_listings_kept (st : option JSONStorage.t) (cfg : ScrapeConfig)
    (vs : list visit) (k : Listing) :
  k ∈ listings (_scrape_listings st cfg vs) ->
  exists v l, v ∈ vs /\ extracted v = Ok l /\ is_duplicate st l = false
              /\ acceptable cfg l /\ k = as_kept cfg l.
Proof. apply scrape_kept_from. Qed.

(** X8. Detail scraping visits at most the URLs it was given, and the
    listings it keeps and the ones it counts as skipped together are at
    most the pages it visited. *)
Theorem scrape_listings_counts (st : option JSONStorage.t) (cfg : ScrapeConfig)
    (vs : list visit) :
  let r := _scrape_listings st cfg vs in
  (length (listings r) + skipped r <= length (visited r))%nat
  /\ (length (visited r) <= length vs)%nat.
Proof.
  destruct (scrape_invariant st cfg (fun _ => True) vs start) as (_ & H1 & H2).
  - auto.
  - constructor.
  - cbn. lia.
  - cbn in *. split; [exact H1 | exact H2].
Qed.

Lemma scrape_never_duplicate (st : option JSONStorage.t) (cfg : ScrapeConfig)
    (vs : list visit) (p : progress) :
  (forall l, is_duplicate st l = false) ->
  scrape st cfg vs p = scrape None cfg vs p
  /\ visited (scrape None cfg vs p) = (visited p ++ map visit_url vs)%list.
Proof.
  intros Hd. revert p. induction vs as [|v vs IH]; intros p; cbn [scrape map].
  - now rewrite app_nil_r.
  - assert (Hj : forall l, judge st cfg l = judge None cfg l).
    { intros l. unfold judge. now rewrite Hd. }
    assert (Hn : forall l, judge None cfg l <> Duplicate).
    { intros l. unfold judge. cbn.
      destruct (non_usa l); [discriminate|]. destruct (contains _ _); [discriminate|].
      destruct (should_skip_year cfg (year l)) as [[]|]; try discriminate.
      destruct (no_vin l); [discriminate|].
      destruct (fields cfg) as [[|f fs]|]; discriminate. }
    destruct (extracted v) as [l|].
    2:{ destruct (IH {| listings := listings p; skipped := skipped p;
                        visited := visited p ++ [visit_url v] |}) as [H1 H2].
        split; [exact H1|]. rewrite H2. cbn. now rewrite <- app_assoc. }
    rewrite Hj. specialize (Hn l).
    destruct (judge None cfg l); try contradiction;
      match goal with
      | |- scrape st cfg vs ?q = _ /\ _ =>
          destruct (IH q) as [H1 H2]; split; [exact H1|];
          rewrite H2; cbn; now rewrite <- app_assoc
      end.
Qed.

(** X9. Without an append storage detail scraping is never cut short:
    every URL is visited, in order. An append storage opened on a path
    where nothing readable lies knows no lot number, and scraping with
    it goes exactly as scraping without one. *)
Theorem scrape_listings_without_prior (cfg : ScrapeConfig) (vs : list visit)
    (path : string) :
  visited (_scrape_listings None cfg vs) = map visit_url vs
  /\ (forall lot, JSONStorage.exists_ (JSONStorage.open path JSONStorage.Missing) lot = false)
  /\ (forall lot,
        JSONStorage.exists_ (JSONStorage.open path JSONStorage.Unreadable) lot = false)
  /\ _scrape_listings (Some (JSONStorage.open path JSONStorage.Missing)) cfg vs
     = _scrape_listings None cfg vs
  /\ _scrape_listings (Some (JSONStorage.open path JSONStorage.Unreadable)) cfg vs
     = _scrape_listings None cfg vs.
Proof.
  assert (He : forall lot, JSONStorage.exists_ (JSONStorage.init path None) lot = false).
  { intros lot. unfold JSONStorage.exists_. cbn. apply bool_decide_eq_false_2.
    apply not_elem_of_empty. }
  assert (Hd : forall l, is_duplicate (Some (JSONStorage.init path None)) l = false).
  { intros l. unfold is_duplicate. destruct (lot_number l) as [lot|]; [|reflexivity].
    rewrite He. now rewrite andb_false_r. }
  unfold _scrape_listings. split.
  - now destruct (scrape_never_duplicate None cfg vs start (fun _ => eq_refl)) as [_ ->].
  - split; [exact He|]. split; [exact He|].
    split; apply (scrape_never_duplicate _ cfg vs start Hd).
Qed.

End Kept.

(** ** The run over the slugs *)

Section Run.
Import listing scrape_config ScrapingPipeline.

(** The listings that detail scraping keeps for each slug, together. *)
Lemma run_loop_all (cfg : ScrapeConfig) (vss : list (list visit)) (acc : list Listing) :
  run_loop None cfg (Ok <$> vss) acc
  = Ok (acc ++ concat ((fun vs => listings (_scrape_listings None cfg vs)) <$> vss))%list.
Proof.
  revert acc. induction vss as [|vs vss IH]; intros acc; cbn [fmap list_fmap run_loop concat].
  - now rewrite app_nil_r.
  - rewrite IH. now rewrite <- app_assoc.
Qed.

Lemma run_loop_raises (cfg : ScrapeConfig) (vss : list (list visit)) (e : exn)
    (post : list (res (list visit))) (acc : list Listing) :
  run_loop None cfg ((Ok <$> vss) ++ Raise e :: post) acc = Raise e.
Proof.
  revert acc. induction vss as [|vs vss IH]; intros acc; cbn; [reflexivity | apply IH].
Qed.

(** X10. Without an append storage the run returns the listings kept
    for every slug, in slug order, deduplicated by URL. An exception
    raised while a slug's category is opened or its URLs are listed
    ends the run with that exception: what the earlier slugs gave is
    not returned. *)
Theorem run_combines_slugs (cfg : ScrapeConfig) (vss : list (list visit)) (e : exn)
    (post : list (res (list visit))) :
  run None cfg (Ok <$> vss)
  = Ok (_deduplicate
          (concat ((fun vs => listings (_scrape_listings None cfg vs)) <$> vss)))
  /\ run None cfg ((Ok <$> vss) ++ Raise e :: post) = Raise e.
Proof.
  unfold run. rewrite run_loop_all, run_loop_raises. split; reflexivity.
Qed.

Lemma run_loop_append (st : JSONStorage.t) (cfg : ScrapeConfig)
    (pre post : list (res (list visit))) (vs : list visit) (acc : list Listing) :
  Forall (fun pg => exists ws, pg = Ok ws
                               /\ listings (_scrape_listings (Some st) cfg ws) = []) pre ->
  listings (_scrape_listings (Some st) cfg vs) <> [] ->
  run_loop (Some st) cfg (pre ++ Ok vs :: post) acc
  = Ok (acc ++ listings (_scrape_listings (Some st) cfg vs))%list.
Proof.
  intros Hpre Hvs. revert acc.
  induction Hpre as [|pg pre (ws & -> & Hws) _ IH]; intros acc; cbn [app run_loop].
  - destruct (listings (_scrape_listings (Some st) cfg vs)); [contradiction | reflexivity].
  - rewrite Hws, app_nil_r. apply IH.
Qed.

(** X11. In append mode the run ends with the first slug for which
    detail scraping keeps a listing: it returns the listings of that
    slug, deduplicated, and does nothing for the slugs after it. *)
Theorem run_append_first_productive (st : JSONStorage.t) (cfg : ScrapeConfig)
    (pre post : list (res (list visit))) (vs : list visit) :
  Forall (fun pg => exists ws, pg = Ok ws
                               /\ listings (_scrape_listings (Some st) cfg ws) = []) pre ->
  listings (_scrape_listings (Some st) cfg vs) <> [] ->
  run (Some st) cfg (pre ++ Ok vs :: post)
  = Ok (_deduplicate (listings (_scrape_listings (Some st) cfg vs))).
Proof.
  intros Hpre Hvs. unfold run. now rewrite (run_loop_append st cfg pre post vs []).
Qed.

Lemma run_loop_forall (st : option JSONStorage.t) (cfg : ScrapeConfig)
    (P : Listing -> Prop) (pages : list (res (list visit))) (acc r : list Listing) :
  (forall vs, Forall P (listings (_scrape_listings st cfg vs))) ->
  Forall P acc -> run_loop st cfg pages acc = Ok r -> Forall P r.
Proof.
  intros HP. revert acc. induction pages as [|[vs|e] pages IH]; intros acc Hacc; cbn.
  - now intros [= <-].
  - assert (Hall : Forall P (acc ++ listings (_scrape_listings st cfg vs))).
    { apply Forall_app. split; [exact Hacc | apply HP]. }
    destruct st as [s|]; [|now apply IH].
    destruct (listings (_scrape_listings (Some s) cfg vs)) eqn:E.
    + now apply IH.
    + now intros [= <-].
  - discriminate.
Qed.

Lemma nodup_constant {A : Type} (c : A) (l : list A) :
  NoDup l -> (forall x, x ∈ l -> x = c) -> (length l <= 1)%nat.
Proof.
  intros Hnd Hc. destruct l as [|a [|b l]]; cbn; try lia.
  exfalso. apply NoDup_cons in Hnd as [Ha _]. apply Ha.
  rewrite (Hc a) by (now left). rewrite <- (Hc b) by (right; now left). now left.
Qed.

(** X12. The listings a run returns carry pairwise distinct URLs. When
    a field subset without ["url"] is configured, every kept listing has
    the empty URL, so the run returns at most one listing, however many
    were scraped. *)
Theorem run_distinct_urls (st : option JSONStorage.t) (cfg : ScrapeConfig)
    (pages : list (res (list visit))) (r : list Listing) :
  run st cfg pages = Ok r ->
  NoDup (map url r)
  /\ (forall f fs, fields cfg = Some (f :: fs) -> "url" ∉ f :: fs ->
        (length r <= 1)%nat).
Proof.
  unfold run. destruct (run_loop st cfg pages []) as [all|e] eqn:Hall; [|discriminate].
  cbn. intros [= <-].
  assert (Hnd : NoDup (map url (_deduplicate all))).
  { rewrite deduplicate_firsts. apply firsts_nodup. }
  split; [exact Hnd|]. intros f fs Hf Hu.
  assert (Hempty : Forall (fun k => url k = "") all).
  { apply (run_loop_forall st cfg _ pages [] all); [|constructor | exact Hall].
    intros vs. apply Forall_forall. intros k Hk.
    apply scrape_kept_from in Hk as (v & l & _ & _ & _ & _ & ->).
    unfold as_kept. rewrite Hf.
    destruct (filter_fields_lookup l (f :: fs)) as (m & -> & Hm).
    unfold from_dict, get_str. cbn. rewrite Hm. now rewrite bool_decide_eq_false_2. }
  rewrite <- (length_map url). apply (nodup_constant ""); [exact Hnd|].
  intros u Hin. apply list_elem_of_fmap in Hin as (k & -> & Hk).
  rewrite deduplicate_firsts in Hk. apply firsts_elem in Hk as [_ Hk].
  rewrite Forall_forall in Hempty. now apply Hempty.
Qed.

End Run.

(** ** The storage *)

Section Storage.
Import listing ScrapingPipeline.

Lemma load_lots_elem (data : list (option string)) (acc : gset string) (lot : string) :
  lot ∈ JSONStorage._load_existing_lot_numbers data acc
  <-> lot ∈ acc \/ (Some lot ∈ data /\ lot <> "N/A").
Proof.
  revert acc. induction data as [|[x|] data IH]; intros acc; cbn.
  - split; [auto | intros [H | [H _]]; [exact H | now apply elem_of_nil in H]].
  - destruct (String.eqb_spec x "N/A") as [->|Hne]; rewrite IH, elem_of_cons.
    + split; [intros [H | [H ?]]; auto|].
      intros [H | [[H | H] Hn]]; auto. congruence.
    + rewrite elem_of_union, elem_of_singleton. split.
      * intros [[-> | H] | [H Hn]]; auto.
      * intros [H | [[[= ->] | H] Hn]]; auto.
  - rewrite IH, elem_of_cons. split; [intros [H | [H ?]]; auto|].
    intros [H | [[H | H] Hn]]; auto. discriminate.
Qed.

Lemma lot_entry_text (l : Listing) :
  get_str (to_dict l) "lot_number" = Some (text (lot_number l)).
Proof.
  unfold get_str. destruct (to_dict_entries l) as (_ & (E & _) & _). cbv zeta in E.
  now rewrite E, or_na_text.
Qed.

Lemma exists_after_save (path : string) (ls : list Listing) (lot : string) :
  JSONStorage.exists_ (JSONStorage.open path (JSONStorage.written ls)) lot = true
  <-> lot <> "N/A" /\ exists l, l ∈ ls /\ text (lot_number l) = lot.
Proof.
  unfold JSONStorage.exists_, JSONStorage.open, JSONStorage.written.
  cbn [JSONStorage.lot_entries JSONStorage.init JSONStorage.existing_lot_numbers].
  rewrite bool_decide_eq_true, load_lots_elem.
  rewrite <- list_fmap_compose.
  rewrite (list_fmap_ext _ (fun l => Some (text (lot_number l))))
    by (intros i l _; apply lot_entry_text).
  split.
  - intros [H | [H Hn]]; [now apply elem_of_empty in H|]. split; [exact Hn|].
    apply list_elem_of_fmap in H as (l & Hl & Hin). exists l. split; [exact Hin|].
    congruence.
  - intros [Hn (l & Hin & Hl)]. right. split; [|exact Hn].
    apply list_elem_of_fmap. exists l. split; [congruence | exact Hin].
Qed.

Lemma save_written (self : JSONStorage.t) (ls : list Listing) (f : JSONStorage.file) :
  JSONStorage.save self ls = Some f -> f = JSONStorage.written ls.
Proof.
  unfold JSONStorage.save. destruct (truthy _); [now intros [= <-] | discriminate].
Qed.

Lemma has_sep_after (p : string) (i : nat) :
  (forall c, In c (list_ascii_of_string p) -> c <> "/"%char) ->
  JSONStorage.after_last_sep i p = O.
Proof.
  revert i. induction p as [|c p IH]; intros i H; cbn; [reflexivity|].
  rewrite IH by (intros d Hd; apply H; now right).
  destruct (Ascii.eqb_spec c "/") as [->|]; [|reflexivity].
  exfalso. apply (H "/"%char); [now left | reflexivity].
Qed.

(** X13. [save] raises, and writes nothing, when the path of the
    storage has no ["/"] in it: the directory it asks [os.makedirs] for
    is then the empty string. Otherwise what it writes, [load] reads
    back as the same listings with ["N/A"] for their absent strings and
    without their country, and saving what was loaded writes the same
    file again. A missing file loads as no listing; an unreadable one
    makes [load] raise. *)
Theorem save_then_load (self self' : JSONStorage.t) (ls : list Listing) :
  ((forall c, In c (list_ascii_of_string (JSONStorage.filepath self)) -> c <> "/"%char) ->
   JSONStorage.save self ls = None)
  /\ (forall f, JSONStorage.save self ls = Some f ->
        JSONStorage.load f = Ok (reread <$> ls)
        /\ (forall f', JSONStorage.save self' (reread <$> ls) = Some f' -> f' = f))
  /\ JSONStorage.load JSONStorage.Missing = Ok []
  /\ JSONStorage.load JSONStorage.Unreadable = Raise ValueError.
Proof.
  split; [|split; [|split; reflexivity]].
  - intros H. unfold JSONStorage.save, JSONStorage.dirname.
    now rewrite has_sep_after by exact H.
  - intros f Hf. apply save_written in Hf as ->. split.
    + unfold JSONStorage.load, JSONStorage.written. f_equal.
      rewrite <- list_fmap_compose. apply list_fmap_ext.
      intros i l _. cbn. apply reread_round_trip.
    + intros f' Hf'. apply save_written in Hf' as ->.
      unfold JSONStorage.written. f_equal.
      rewrite <- list_fmap_compose. apply list_fmap_ext.
      intros i l _. cbn. apply reread_round_trip.
Qed.

(** X14. A storage opened on a saved file knows exactly the lot numbers
    of the listings saved, the listings without a lot number and the
    literal ["N/A"] apart: a saved listing that has a lot number is a
    duplicate when it is scraped again, and a lot number the storage
    knows is the lot number of a saved listing. *)
Theorem saved_lots_are_known (self : JSONStorage.t) (path : string) (ls : list Listing)
    (f : JSONStorage.file) :
  JSONStorage.save self ls = Some f ->
  (forall l lot, l ∈ ls -> lot_number l = Some lot -> lot <> "" -> lot <> "N/A" ->
     is_duplicate (Some (JSONStorage.open path f)) l = true)
  /\ (forall lot,
        JSONStorage.exists_ (JSONStorage.open path f) lot = true ->
        lot <> "N/A" /\ exists l, l ∈ ls /\ lot_number l = Some lot).
Proof.
  intros Hf. apply save_written in Hf as ->. split.
  - intros l lot Hin Hl He Hn. unfold is_duplicate. rewrite Hl.
    assert (Hex : JSONStorage.exists_
                    (JSONStorage.open path (JSONStorage.written ls)) lot = true).
    { apply exists_after_save. split; [exact Hn|]. exists l. split; [exact Hin|].
      rewrite Hl. destruct lot; [congruence | reflexivity]. }
    rewrite Hex. apply String.eqb_neq in Hn. rewrite Hn.
    destruct lot; [congruence | reflexivity].
  - intros lot Hex. apply exists_after_save in Hex as (Hn & l & Hin & Ht).
    split; [exact Hn|]. exists l. split; [exact Hin|].
    destruct (lot_number l) as [[|c s]|]; cbn in Ht; congruence.
Qed.

End Storage.

(** ** The candidate URLs *)

Section ListingUrls.
Import scrape_config BringATrailerSite.

Lemma card_url_shape (base_url : string) (href : option string) (u : string) :
  card_url base_url href = Some u ->
  u <> "" /\ (startswith u "http" = true \/ startswith u base_url = true).
Proof.
  unfold card_url. destruct href as [[|c url]|]; try discriminate. cbn [truthy].
  destruct (startswith (String c url) "http") eqn:Hh; intros [= <-].
  - split; [discriminate | now left].
  - split.
    + destruct base_url; discriminate.
    + right. apply startswith_spec. eauto.
Qed.

(** X15. The URLs handed to detail scraping are never empty and each
    starts with ["http"] or with the base URL. With a non-negative
    [max_listings] they are the first [max_listings] card URLs at most;
    with a negative one, the card URLs without the last [-max_listings]
    of them. *)
Theorem get_listing_urls_bounds (base_url : string) (hrefs : list (option string))
    (config : ScrapeConfig) :
  let all := omap (card_url base_url) hrefs in
  let urls := get_listing_urls base_url hrefs config in
  (forall u, u ∈ urls ->
     u <> "" /\ (startswith u "http" = true \/ startswith u base_url = true))
  /\ (0 <= max_listings config ->
      urls = firstn (Z.to_nat (max_listings config)) all
      /\ Z.of_nat (length urls) <= max_listings config)
  /\ (max_listings config < 0 ->
      urls = firstn (length all - Z.to_nat (- max_listings config)) all).
Proof.
  cbv zeta. unfold get_listing_urls, list_slice_to. split; [|split].
  - intros u Hu. apply elem_of_take in Hu as (i & Hu & _).
    apply list_elem_of_lookup_2, list_elem_of_omap in Hu as (href & _ & Hu).
    exact (card_url_shape _ _ _ Hu).
  - intros H. apply Z.ltb_ge in H as Hb. rewrite Hb. split; [reflexivity|].
    rewrite length_firstn. lia.
  - intros H. apply Z.ltb_lt in H as Hb. rewrite Hb. f_equal. lia.
Qed.

End ListingUrls.

(** ** Delays *)

Section MoreDelays.
Import DelayStrategy.

Lemma Qle_bool_false (a b : Q) : Qle_bool a b = false -> (b < a)%Q.
Proof.
  intros H. apply Qnot_le_lt. intros Hle. apply Qle_bool_iff in Hle. congruence.
Qed.

Lemma py_max_cases (a b : Q) : py_max a b = a \/ py_max a b = b.
Proof. unfold py_max. destruct (Qle_bool b a); auto. Qed.

Lemma py_max_left (a b : Q) : (a <= py_max a b)%Q.
Proof.
  unfold py_max. destruct (Qle_bool b a) eqn:H; [apply Qle_refl|].
  apply Qlt_le_weak. now apply Qle_bool_false.
Qed.

(** X16. Whatever the configured minimum, a delay is at least half a
    second when the random source keeps to its ranges, so [time.sleep]
    is never handed a negative value; and a page-load delay is at least
    2.15 seconds. *)
Theorem delays_positive (self : t) (u : Q) (d : draws) :
  0 <= action_count self -> in_ranges d -> (2 <= u)%Q ->
  (1 # 2 <= fst (get_delay self d))%Q
  /\ (215 # 100 <= fst (get_page_load_delay self u d))%Q.
Proof.
  intros Hn ((Hb1 & Hb2) & Hp & (Hl1 & Hl2) & (Hc1 & Hc2) & (Hq1 & Hq2)) Hu.
  assert (Hd : (1 # 2 <= fst (get_delay self d))%Q).
  { unfold get_delay. destruct (_ =? 0); cbn [fst].
    - eapply Qle_trans; [|exact Hl1]. discriminate.
    - eapply Qle_trans; [|apply py_max_left].
      destruct (Qle_bool (15 # 100) (coin d)).
      2:{ eapply Qle_trans; [|exact Hq1]. discriminate. }
      assert (Hf : (1 <= 1 + inject_Z (action_count self + 1) * (5 # 1000))%Q).
      { rewrite <- (Qplus_0_r 1) at 1. apply Qplus_le_r.
        apply Qmult_le_0_compat; [|discriminate].
        change 0%Q with (inject_Z 0). rewrite <- Zle_Qle. lia. }
      apply Qle_trans with (y := ((15 # 10) * 1)%Q); [discriminate|].
      apply Qmult_le_compat_nonneg; split;
        [discriminate | exact Hb1 | discriminate | exact Hf]. }
  split; [exact Hd|].
  unfold get_page_load_delay. destruct (get_delay self d) as [x self'] eqn:E.
  cbn [fst] in *.
  assert (H3 : (15 # 100 <= x * (3 # 10))%Q).
  { apply Qle_trans with (y := ((1 # 2) * (3 # 10))%Q); [discriminate|].
    apply Qmult_le_compat_r; [exact Hd | discriminate]. }
  apply Qle_trans with (y := (2 + (15 # 100))%Q); [discriminate|].
  now apply Qplus_le_compat.
Qed.

Lemma get_delay_counts (self : t) (d : draws) :
  action_count (snd (get_delay self d)) = action_count self + 1
  /\ min_delay (snd (get_delay self d)) = min_delay self.
Proof. unfold get_delay. destruct (_ =? 0); split; reflexivity. Qed.

Lemma early_delays_floored (self : t) (ds : list draws) :
  0 <= action_count self -> action_count self + Z.of_nat (length ds) <= 9 ->
  Forall in_ranges ds ->
  Forall (fun x => (min_delay self <= x)%Q) (get_delays self ds).
Proof.
  revert self. induction ds as [|d ds IH]; intros self H0 H9 Hr; cbn [get_delays].
  - constructor.
  - apply Forall_cons in Hr as [Hd Hr].
    destruct (get_delay_counts self d) as [Hc Hm].
    pose proof (get_delay_floored self d) as Hfl.
    destruct (get_delay self d) as [x self'] eqn:E. cbn [fst snd] in *.
    constructor.
    + apply Hfl. destruct Hd as (_ & Hp & _). cbn [length] in H9.
      rewrite Z.mod_small by lia. lia.
    + rewrite <- Hm. apply IH; [lia | cbn [length] in H9; lia | exact Hr].
Qed.

(** X17. The action counter counts the calls: after [k] calls on a
    fresh instance it is [k]. Since the long pause needs the counter to
    be a multiple of a number between 10 and 15, the first nine delays
    of a session are all at least the configured minimum. *)
Theorem first_delays_floored (m : Q) (ds : list draws) :
  action_count (after_delays (init m) ds) = Z.of_nat (length ds)
  /\ ((length ds <= 9)%nat -> Forall in_ranges ds ->
      Forall (fun x => (m <= x)%Q) (get_delays (init m) ds)).
Proof.
  split.
  - assert (H : forall self, action_count (after_delays self ds)
                             = action_count self + Z.of_nat (length ds)).
    { induction ds as [|d ds IH]; intros self; cbn [after_delays length]; [lia|].
      rewrite IH. destruct (get_delay_counts self d) as [-> _]. lia. }
    now rewrite H.
  - intros Hlen Hr. apply (early_delays_floored (init m) ds); cbn; [lia | lia | exact Hr].
Qed.

End MoreDelays.

(** ** The extractors *)

Section Extractors.

Variable re_search_i : string -> string -> option string.

Lemma vin_extract_from_rule (rules : list rule) (sp : soup) (d : option driver)
    (v : string) :
  VINExtractor.extract re_search_i rules sp d = Ok (Some v) ->
  VINExtractor.accepted (Some v) = true
  /\ exists r, r ∈ rules /\ VINExtractor.candidate re_search_i sp d r = Ok (Some v).
Proof.
  unfold VINExtractor.extract.
  induction rules as [|r rules IH]; cbn [VINExtractor.extract_run outcome]; [discriminate|].
  destruct (VINExtractor.candidate re_search_i sp d r) as [c|e] eqn:Hc; [|discriminate].
  destruct (VINExtractor.accepted c) eqn:Ha; cbn [outcome].
  - intros [= ->]. split; [exact Ha|]. exists r. split; [now left | exact Hc].
  - intros H. destruct (IH H) as (Hv & r' & Hin & Hr').
    split; [exact Hv|]. exists r'. split; [now right | exact Hr'].
Qed.

(** X18. A VIN that the extractor returns is the candidate of one of
    its rules, is not empty and has passed validation: it is seventeen
    characters of the VIN alphabet, followed by a newline at most. *)
Theorem vin_extract_validated (rules : list rule) (sp : soup) (d : option driver)
    (v : string) :
  VINExtractor.extract re_search_i rules sp d = Ok (Some v) ->
  (exists r, r ∈ rules /\ VINExtractor.candidate re_search_i sp d r = Ok (Some v))
  /\ VINExtractor._validate_vin v = true
  /\ exists body, String.length body = 17%nat /\ all_chars vin_char body = true
                  /\ (v = body \/ v = body +:+ newline).
Proof.
  intros H. apply vin_extract_from_rule in H as (Ha & Hr).
  split; [exact Hr|]. unfold VINExtractor.accepted in Ha.
  apply andb_true_iff in Ha as [_ Hv]. split; [exact Hv|].
  now apply validate_vin_spec.
Qed.

Lemma vin_candidate_no_driver (sp : soup) (r : rule) :
  is_selector r = false -> VINExtractor.candidate re_search_i sp None r = Ok None.
Proof.
  unfold is_selector, VINExtractor.candidate. intros ->.
  now destruct (String.eqb (r_type r) "comment_search").
Qed.

(** X19. Without a live driver only the [selector] rules count: the
    VIN extractor returns what it returns with every other rule taken
    out of its list. *)
Theorem vin_extract_without_driver (rules : list rule) (sp : soup) :
  VINExtractor.extract re_search_i rules sp None
  = VINExtractor.extract re_search_i (List.filter is_selector rules) sp None.
Proof.
  unfold VINExtractor.extract.
  induction rules as [|r rules IH]; cbn [VINExtractor.extract_run List.filter]; [reflexivity|].
  destruct (is_selector r) eqn:Hs.
  - cbn [VINExtractor.extract_run].
    destruct (VINExtractor.candidate re_search_i sp None r) as [c|e]; [|reflexivity].
    destruct (VINExtractor.accepted c); [reflexivity | exact IH].
  - rewrite (vin_candidate_no_driver sp r Hs). cbn. exact IH.
Qed.

Lemma mileage_raise_aborts (pre rest : list rule) (r : rule) (d : option driver)
    (ctx : option context) (e : exn) :
  Forall (fun x => MileageExtractor.candidate re_search_i ctx d x = Ok None) pre ->
  MileageExtractor.candidate re_search_i ctx d r = Raise e ->
  MileageExtractor.extract_run re_search_i (pre ++ r :: rest) d ctx
  = {| consulted := pre ++ [r]; outcome := Raise e |}.
Proof.
  intros Hpre Hr. induction Hpre as [|x pre Hx _ IH]; cbn [app MileageExtractor.extract_run].
  - now rewrite Hr.
  - now rewrite Hx, IH.
Qed.

(** X20. A mileage rule that raises ends the extraction with its
    exception: the rules after it are not tried, even when one of them
    would give a value. A [comment_search] rule never raises, whatever
    the driver and the text do; a [listing_detail] rule without a
    transform raises [ValueError] on a match that is not an integer
    once its commas are taken out. *)
Theorem mileage_rule_raises (pre rest : list rule) (r : rule) (d : option driver)
    (ctx : option context) (e : exn) :
  (Forall (fun x => MileageExtractor.candidate re_search_i ctx d x = Ok None) pre ->
   MileageExtractor.candidate re_search_i ctx d r = Raise e ->
   MileageExtractor.extract_run re_search_i (pre ++ r :: rest) d ctx
   = {| consulted := pre ++ [r]; outcome := Raise e |})
  /\ (r_type r = "comment_search" ->
      exists o, MileageExtractor.candidate re_search_i ctx d r = Ok o)
  /\ (forall details pats value,
        r_patterns r = Some pats -> r_transform r = None ->
        first_some (MileageExtractor.first_pattern re_search_i pats) details = Some value ->
        py_int (BaseExtractor.strip_commas value) = Raise ValueError ->
        MileageExtractor._extract_from_details re_search_i details r = Raise ValueError).
Proof.
  split; [apply mileage_raise_aborts|]. split.
  - intros Ht. unfold MileageExtractor.candidate. rewrite Ht. cbn.
    destruct d; eauto.
  - intros details pats value Hp Ht Hm Hv.
    unfold MileageExtractor._extract_from_details.
    destruct details as [|x xs]; [discriminate|].
    rewrite Hp, Hm, Ht. unfold MileageExtractor.plain_int. now rewrite Hv.
Qed.

End Extractors.

(** ** The variant, again *)

Section VariantShape.
Import scrape_config BringATrailerSite.

Lemma rstrip_rstrip (s : string) : rstrip (rstrip s) = rstrip s.
Proof.
  induction s as [|c s IH]; [reflexivity|]. cbn [rstrip].
  destruct (rstrip s) as [|d r] eqn:Hr.
  - destruct (isspace c) eqn:Hc; [reflexivity|]. cbn [rstrip]. now rewrite Hc.
  - cbn [rstrip]. cbn [rstrip] in IH. now rewrite IH.
Qed.

Lemma lstrip_head (s : string) :
  lstrip s = EmptyString \/ exists c r, lstrip s = String c r /\ isspace c = false.
Proof.
  induction s as [|c s IH]; [now left|]. cbn [lstrip].
  destruct (isspace c) eqn:Hc; [exact IH | right; eauto].
Qed.

Lemma rstrip_head (c : ascii) (r : string) :
  isspace c = false -> exists r', rstrip (String c r) = String c r'.
Proof.
  intros Hc. cbn [rstrip]. destruct (rstrip r); rewrite ?Hc; eauto.
Qed.

Lemma strip_strip (s : string) : strip (strip s) = strip s.
Proof.
  unfold strip. destruct (lstrip_head s) as [-> | (c & r & -> & Hc)]; [reflexivity|].
  destruct (rstrip_head c r Hc) as [r' Hr]. rewrite Hr.
  cbn [lstrip]. rewrite Hc. rewrite <- Hr. apply rstrip_rstrip.
Qed.

Lemma occurs_refl (s : string) : occurs s s.
Proof. exists EmptyString, EmptyString. now rewrite append_empty. Qed.

Lemma occurs_trans (x y z : string) : occurs x y -> occurs y z -> occurs x z.
Proof. intros Hxy (a & b & ->). now apply occurs_inside. Qed.

Lemma occurs_strip (s : string) : occurs (strip s) s.
Proof. destruct (strip_part s) as (a & b & H). now exists a, b. Qed.

Lemma occurs_drop (n : nat) (s : string) : occurs (drop n s) s.
Proof.
  destruct (drop_part n s) as [a H]. exists a, EmptyString. now rewrite append_empty.
Qed.

Lemma occurs_take (n : nat) (s : string) : occurs (take n s) s.
Proof.
  exists EmptyString, (drop n s). rewrite append_nil.
  revert s. induction n as [|n IH]; intros [|c s]; cbn [take drop]; try reflexivity.
  now rewrite append_cons, <- IH.
Qed.

(** X21. The variant is never empty and never starts or ends with
    white space: it is ["Standard"] or a trimmed, non-empty piece of
    the title, in the letter case of the title. *)
Theorem extract_variant_trimmed (title : string) (cfg : ScrapeConfig) :
  _extract_variant title cfg <> ""
  /\ strip (_extract_variant title cfg) = _extract_variant title cfg
  /\ (_extract_variant title cfg = "Standard"
      \/ occurs (_extract_variant title cfg) title).
Proof.
  unfold _extract_variant.
  destruct (find (upper title) (upper (make cfg)) =? -1);
    [repeat split; [discriminate | now left]|].
  set (after_make := strip (slice_from _ title)).
  assert (H1 : occurs after_make title).
  { eapply occurs_trans; [apply occurs_strip | apply occurs_drop]. }
  destruct (find (upper after_make) (upper (model_short cfg)) =? -1);
    [repeat split; [discriminate | now left]|].
  set (after_model := strip (slice_from _ after_make)).
  assert (H2 : occurs after_model title).
  { eapply occurs_trans; [|exact H1].
    eapply occurs_trans; [apply occurs_strip | apply occurs_drop]. }
  destruct (truthy after_model); cbn [negb];
    [|repeat split; [discriminate | now left]].
  set (variant := match Re.search true "\d+-Speed" after_model with
                  | Some (variant_end, _) =>
                      strip (slice_to (Z.of_nat variant_end) after_model)
                  | None => strip after_model
                  end).
  assert (Hv : strip variant = variant).
  { unfold variant. destruct (Re.search _ _ _) as [[i n]|]; apply strip_strip. }
  assert (H3 : occurs variant title).
  { eapply occurs_trans; [|exact H2]. unfold variant.
    destruct (Re.search _ _ _) as [[i n]|]; [|apply occurs_strip].
    eapply occurs_trans; [apply occurs_strip | apply occurs_take]. }
  destruct (truthy variant) eqn:Ht; cbn [negb];
    [|repeat split; [discriminate | now left]].
  assert (Hne : variant <> "") by (intros E; rewrite E in Ht; discriminate).
  destruct (split variant) as [|w ws]; [repeat split; auto|].
  destruct (existsb _ _); [repeat split; [discriminate | now left]|].
  repeat split; auto.
Qed.

Lemma times_append (m : ascii -> bool) (n : nat) (s rest t : string) :
  Re.times m n s = Some rest -> Re.times m n (s +:+ t) = Some (rest +:+ t).
Proof.
  revert s. induction n as [|n IH]; intros s; cbn [Re.times].
  - now intros [= ->].
  - destruct s as [|c s]; [discriminate|]. rewrite append_cons.
    destruct (m c); [apply IH | discriminate].
Qed.

(** A match of an unanchored pattern at the head of [s] is still there
    when [s] is made longer. *)
Lemma match_here_extend (ic : bool) (r : Re.regex) :
  unanchored r ->
  forall (b b' : bool) (s t : string) (k : nat),
    Re.match_here ic r b s = Some k ->
    exists k', Re.match_here ic r b' (s +:+ t) = Some k'.
Proof.
  intros Hr. induction Hr as [|it r Hit _ IH]; intros b b' s t k; cbn [Re.match_here].
  - eauto.
  - destruct it as [| |a q]; try contradiction. destruct q as [| |n].
    + destruct s as [|c s]; [discriminate|]. rewrite append_cons.
      destruct (Re.atom_match ic a c); [|discriminate].
      destruct (Re.match_here ic r false s) as [k0|] eqn:E; [|discriminate].
      intros _. destruct (IH false false s t k0 E) as [k' ->]. cbn. eauto.
    + revert k. induction s as [|c s IHs]; intros k; [discriminate|].
      rewrite append_cons.
      destruct (Re.atom_match ic a c); [|discriminate].
      match goal with
      | |- context [match ?m s with Some _ => _ | None => _ end] =>
          destruct (m s) as [k0|] eqn:E
      end.
      * intros _. destruct (IHs k0 eq_refl) as [k' ->]. eauto.
      * destruct (Re.match_here ic r false s) as [k0|] eqn:E'; [|discriminate].
        intros _. destruct (IH false false s t k0 E') as [k' Hk'].
        match goal with
        | |- context [match ?m (s +:+ t) with Some _ => _ | None => _ end] =>
            destruct (m (s +:+ t))
        end; [eauto|]. rewrite Hk'. cbn. eauto.
    + destruct (Re.times (Re.atom_match ic a) n s) as [rest|] eqn:E; [|discriminate].
      rewrite (times_append _ _ _ _ t E).
      destruct (Re.match_here ic r (b && Nat.eqb n 0) rest) as [k0|] eqn:E'; [|discriminate].
      intros _. destruct (IH _ (b' && Nat.eqb n 0) rest t k0 E') as [k' ->]. cbn. eauto.
Qed.

Lemma search_from_none (ic : bool) (r : Re.regex) (i : nat) (b : bool) (s : string) :
  unanchored r ->
  Re.search_from ic r i b s = None ->
  forall p t, s = p +:+ t -> Re.match_here ic r false t = None.
Proof.
  intros Hr. revert i b. induction s as [|c s IH]; intros i b; cbn [Re.search_from].
  - destruct (Re.match_here ic r b EmptyString) as [k|] eqn:E; [discriminate|].
    intros _ p t Hp. destruct p; [|discriminate]. rewrite append_nil in Hp. subst t.
    destruct (Re.match_here ic r false EmptyString) as [k|] eqn:E2; [|reflexivity].
    destruct (match_here_extend ic r Hr false b EmptyString EmptyString k E2) as [k' Hk'].
    rewrite append_nil in Hk'. congruence.
  - destruct (Re.match_here ic r b (String c s)) as [k|] eqn:E; [discriminate|].
    intros H p t Hp. destruct p as [|d p].
    + rewrite append_nil in Hp. subst t.
      destruct (Re.match_here ic r false (String c s)) as [k|] eqn:E2; [|reflexivity].
      destruct (match_here_extend ic r Hr false b _ EmptyString k E2) as [k' Hk'].
      rewrite append_empty in Hk'. congruence.
    + rewrite append_cons in Hp. injection Hp as _ Hp. exact (IH _ _ H p t Hp).
Qed.

Lemma search_from_found (ic : bool) (r : Re.regex) (i : nat) (b : bool) (s : string)
    (j k : nat) :
  unanchored r ->
  Re.search_from ic r i b s = Some (j, k) ->
  (i <= j)%nat
  /\ forall p t, s = p +:+ t -> (String.length p < j - i)%nat ->
                 Re.match_here ic r false t = None.
Proof.
  intros Hr. revert i b. induction s as [|c s IH]; intros i b; cbn [Re.search_from].
  - destruct (Re.match_here ic r b EmptyString); [|discriminate].
    intros [= <- <-]. split; [lia|]. intros p t _ Hp. lia.
  - destruct (Re.match_here ic r b (String c s)) as [k0|] eqn:E.
    + intros [= <- <-]. split; [lia|]. intros p t _ Hp. lia.
    + intros H. destruct (IH _ _ H) as [Hij Hnone]. split; [lia|].
      intros p t Hp Hlen. destruct p as [|d p].
      * rewrite append_nil in Hp. subst t.
        destruct (Re.match_here ic r false (String c s)) as [k1|] eqn:E2; [|reflexivity].
        destruct (match_here_extend ic r Hr false b _ EmptyString k1 E2) as [k' Hk'].
        rewrite append_empty in Hk'. congruence.
      * rewrite append_cons in Hp. injection Hp as _ Hp.
        apply (Hnone p t Hp). cbn in Hlen. lia.
Qed.

Lemma search_from_complete (ic : bool) (r : Re.regex) (i : nat) (b : bool) (s : string) :
  unanchored r ->
  (forall p t, s = p +:+ t -> Re.match_here ic r false t = None) ->
  Re.search_from ic r i b s = None.
Proof.
  intros Hr. revert i b. induction s as [|c s IH]; intros i b H; cbn [Re.search_from].
  - destruct (Re.match_here ic r b EmptyString) as [k|] eqn:E; [|reflexivity].
    destruct (match_here_extend ic r Hr b false EmptyString EmptyString k E) as [k' Hk'].
    rewrite append_nil in Hk'. rewrite (H EmptyString EmptyString eq_refl) in Hk'.
    discriminate.
  - destruct (Re.match_here ic r b (String c s)) as [k|] eqn:E.
    + destruct (match_here_extend ic r Hr b false _ EmptyString k E) as [k' Hk'].
      rewrite append_empty in Hk'. rewrite (H EmptyString _ eq_refl) in Hk'. discriminate.
    + apply IH. intros p t Hp. apply (H (String c p) t). now rewrite append_cons, Hp.
Qed.

(** No match in a piece of a text in which there is none. *)
Lemma search_none_inside (ic : bool) (r : Re.regex) (a x y : string) :
  unanchored r ->
  Re.search_from ic r O true (a +:+ x +:+ y) = None ->
  Re.search_from ic r O true x = None.
Proof.
  intros Hr H. apply search_from_complete; [exact Hr|]. intros p t ->.
  destruct (Re.match_here ic r false t) as [k|] eqn:E; [|reflexivity].
  destruct (match_here_extend ic r Hr false false t y k E) as [k' Hk'].
  rewrite (search_from_none ic r O true _ Hr H (a +:+ p) (t +:+ y)) in Hk';
    [discriminate|].
  now rewrite !append_assoc3.
Qed.

Lemma take_append (n : nat) (s : string) : s = take n s +:+ drop n s.
Proof.
  revert s. induction n as [|n IH]; intros [|c s]; cbn [take drop]; try reflexivity.
  now rewrite append_cons, <- IH.
Qed.

Lemma take_length (n : nat) (s : string) : (String.length (take n s) <= n)%nat.
Proof.
  revert s. induction n as [|n IH]; intros [|c s]; cbn; try lia.
  specialize (IH s). lia.
Qed.

Lemma append_length (a b : string) :
  String.length (a +:+ b) = (String.length a + String.length b)%nat.
Proof. induction a as [|c a IH]; [reflexivity|]. rewrite append_cons. cbn. now rewrite IH. Qed.

(** No match before the leftmost match. *)
Lemma search_none_before (ic : bool) (r : Re.regex) (s : string) (j k : nat) :
  unanchored r -> Re.match_here ic r false EmptyString = None ->
  Re.search_from ic r O true s = Some (j, k) ->
  Re.search_from ic r O true (take j s) = None.
Proof.
  intros Hr He H. apply search_from_found in H as [_ Hnone]; [|exact Hr].
  apply search_from_complete; [exact Hr|]. intros p t Hp.
  destruct t as [|c t]; [exact He|].
  destruct (Re.match_here ic r false (String c t)) as [k0|] eqn:E; [|reflexivity].
  destruct (match_here_extend ic r Hr false false _ (drop j s) k0 E) as [k' Hk'].
  rewrite (Hnone p (String c t +:+ drop j s)) in Hk'; [discriminate | |].
  - rewrite <- append_assoc3, <- Hp. apply take_append.
  - pose proof (take_length j s) as Hl. rewrite Hp, append_length in Hl. cbn in Hl. lia.
Qed.

(** X22. The variant holds no transmission token: nothing in it matches
    ["<N>-Speed"], in any letter case. *)
Theorem extract_variant_no_speed (title : string) (cfg : ScrapeConfig) :
  Re.search true "\d+-Speed" (_extract_variant title cfg) = None.
Proof.
  assert (Hs : forall s, Re.search true "\d+-Speed" s
                         = Re.search_from true
                             [Re.At Re.Digit Re.Plus; Re.At (Re.Lit "-") Re.Once;
                              Re.At (Re.Lit "S") Re.Once; Re.At (Re.Lit "p") Re.Once;
                              Re.At (Re.Lit "e") Re.Once; Re.At (Re.Lit "e") Re.Once;
                              Re.At (Re.Lit "d") Re.Once] O true s).
  { intros s. reflexivity. }
  set (r := [Re.At Re.Digit Re.Plus; Re.At (Re.Lit "-") Re.Once;
             Re.At (Re.Lit "S") Re.Once; Re.At (Re.Lit "p") Re.Once;
             Re.At (Re.Lit "e") Re.Once; Re.At (Re.Lit "e") Re.Once;
             Re.At (Re.Lit "d") Re.Once]) in Hs.
  assert (Hr : unanchored r) by (repeat constructor).
  assert (Hstd : Re.search true "\d+-Speed" "Standard" = None) by reflexivity.
  unfold _extract_variant.
  destruct (_ =? -1); [exact Hstd|]. destruct (_ =? -1); [exact Hstd|].
  set (after_model := strip (slice_from _ (strip _))).
  destruct (truthy after_model); cbn [negb]; [|exact Hstd].
  set (variant := match Re.search true "\d+-Speed" after_model with
                  | Some (variant_end, _) =>
                      strip (slice_to (Z.of_nat variant_end) after_model)
                  | None => strip after_model
                  end).
  assert (Hv : Re.search true "\d+-Speed" variant = None).
  { unfold variant. rewrite !Hs.
    destruct (Re.search_from true r 0 true after_model) as [[j k]|] eqn:E.
    - rewrite ?Hs. destruct (strip_part (slice_to (Z.of_nat j) after_model)) as (a & b & Hp).
      apply (search_none_inside true r a _ b Hr). rewrite <- Hp.
      unfold slice_to, slice_index.
      replace (Z.of_nat j <? 0) with false by (symmetry; apply Z.ltb_ge; lia).
      rewrite Nat2Z.id. apply (search_none_before true r after_model j k Hr eq_refl E).
    - rewrite ?Hs. destruct (strip_part after_model) as (a & b & Hp).
      apply (search_none_inside true r a _ b Hr). now rewrite <- Hp. }
  destruct (truthy variant); cbn [negb]; [|exact Hstd].
  destruct (split variant) as [|w ws]; [exact Hv|].
  destruct (existsb _ _); [exact Hstd | exact Hv].
Qed.

End VariantShape.

(** ** The fields read off the page *)

Section PageFields.
Import BringATrailerSite.

Lemma drop_drop_one (j : nat) (s : string) (c : ascii) (s' : string) :
  drop j s = String c s' -> drop (S j) s = s'.
Proof.
  revert s. induction j as [|j IH]; intros [|d s]; cbn [drop]; try discriminate.
  - now intros [= _ ->].
  - apply IH.
Qed.

Lemma search_from_at (ic : bool) (r : Rx.rx) (s : string) :
  forall (j : nat) (p : option ascii) (f : Rx.found),
    Rx.search_from ic r j p (drop j s) = Some f ->
    exists i p', Rx.match_at ic r i p' (drop i s) = Some f.
Proof.
  remember (String.length (drop 0 s)) as n eqn:Hn. clear Hn.
  assert (H : forall (t : string) (j : nat) (p : option ascii) (f : Rx.found),
             t = drop j s -> Rx.search_from ic r j p t = Some f ->
             exists i p', Rx.match_at ic r i p' (drop i s) = Some f).
  { induction t as [|c t IH]; intros j p f Ht; cbn [Rx.search_from].
    - destruct (Rx.match_at ic r j p EmptyString) as [g|] eqn:E; [|discriminate].
      intros [= <-]. exists j, p. now rewrite <- Ht.
    - destruct (Rx.match_at ic r j p (String c t)) as [g|] eqn:E.
      + intros [= <-]. exists j, p. now rewrite <- Ht.
      + apply (IH (S j)). symmetry. now apply (drop_drop_one j s c). }
  intros j p f. now apply H.
Qed.

Lemma span_prefix (s : string) (i : nat) (w t : string) :
  drop i s = w +:+ t -> Rx.span s i (String.length w + i) = w.
Proof.
  intros H. unfold Rx.span. rewrite H. replace (String.length w + i - i)%nat
    with (String.length w) by lia.
  clear H. induction w as [|c w IH]; cbn [String.length take].
  - now destruct (EmptyString +:+ t).
  - rewrite append_cons. cbn [take]. now rewrite IH.
Qed.

Lemma digit_cases (d : ascii) :
  is_digit d = true -> exists v, (v < 10)%nat /\ d = ascii_of_nat (48 + v).
Proof.
  intros H. exists (nat_of_ascii d - 48)%nat.
  destruct d as [[] [] [] [] [] [] [] []]; try discriminate H;
    (split; [vm_compute; lia | reflexivity]).
Qed.

Lemma year_match_at (i : nat) (p : option ascii) (s : string) (f : Rx.found) :
  Rx.match_at false year_pattern i p s = Some f ->
  exists c d1 d2 s',
    s = String c (String (if Ascii.eqb c "1" then "9" else "0")%char
                    (String d1 (String d2 s')))
    /\ (c = "1"%char \/ c = "2"%char)
    /\ is_digit d1 = true /\ is_digit d2 = true
    /\ Rx.m_start f = i /\ Rx.m_end f = (4 + i)%nat.
Proof.
  unfold Rx.match_at, year_pattern. cbn [Rx.run Rx.lit].
  destruct (Rx.at_boundary _); [|discriminate].
  destruct s as [|c1 [|c2 [|d1 [|d2 s']]]]; cbn [Rx.rest Rx.pos Rx.prev Rx.grp];
    unfold Re.atom_match;
    repeat match goal with
           | |- context [Ascii.eqb ?a ?b] => destruct (Ascii.eqb_spec a b); subst
           | |- context [is_digit ?a] => destruct (is_digit a) eqn:?
           | |- context [Rx.at_boundary ?st] => destruct (Rx.at_boundary st)
           end;
    try discriminate; intros [= <-];
    solve [ exists "1"%char; eexists; eexists; eexists; cbn; repeat split; eauto
          | exists "2"%char; eexists; eexists; eexists; cbn; repeat split; eauto ].
Qed.

Lemma year_token_value (c d1 d2 : ascii) :
  (c = "1"%char \/ c = "2"%char) -> is_digit d1 = true -> is_digit d2 = true ->
  exists y, py_int (String c (String (if Ascii.eqb c "1" then "9" else "0")%char
                                (String d1 (String d2 EmptyString)))) = Ok y
            /\ 1900 <= y <= 2099.
Proof.
  intros Hc H1 H2.
  apply digit_cases in H1 as (v1 & Hv1 & ->). apply digit_cases in H2 as (v2 & Hv2 & ->).
  assert (E1 : (v1 = 0 \/ v1 = 1 \/ v1 = 2 \/ v1 = 3 \/ v1 = 4 \/ v1 = 5 \/ v1 = 6
                \/ v1 = 7 \/ v1 = 8 \/ v1 = 9)%nat) by lia.
  assert (E2 : (v2 = 0 \/ v2 = 1 \/ v2 = 2 \/ v2 = 3 \/ v2 = 4 \/ v2 = 5 \/ v2 = 6
                \/ v2 = 7 \/ v2 = 8 \/ v2 = 9)%nat) by lia.
  clear Hv1 Hv2.
  destruct E1 as [->|[->|[->|[->|[->|[->|[->|[->|[->| ->]]]]]]]]];
    destruct E2 as [->|[->|[->|[->|[->|[->|[->|[->|[->| ->]]]]]]]]];
    destruct Hc as [-> | ->]; eexists; (split; [vm_compute; reflexivity | lia]).
Qed.

(** X23. Year extraction never raises. The year it returns lies
    between 1900 and 2099 and is the value of four characters that
    stand in the title. *)
Theorem extract_year_range (title : string) :
  exists o, _extract_year title = Ok o
    /\ forall y, o = Some y ->
         1900 <= y <= 2099
         /\ exists token, occurs token title /\ String.length token = 4%nat
                          /\ py_int token = Ok y.
Proof.
  unfold _extract_year, Rx.search.
  destruct (Rx.search_from false year_pattern 0 None title) as [f|] eqn:E.
  2:{ exists None. split; [reflexivity | discriminate]. }
  change title with (drop 0 title) in E at 1.
  apply search_from_at in E as (i & p & E).
  apply year_match_at in E as (c & d1 & d2 & s' & Hs & Hc & H1 & H2 & Hst & Hen).
  destruct (year_token_value c d1 d2 Hc H1 H2) as (y & Hy & Hr).
  set (token := String c (String (if Ascii.eqb c "1" then "9" else "0")%char
                            (String d1 (String d2 EmptyString)))) in *.
  assert (Hg : Rx.group0 title f = token).
  { unfold Rx.group0. rewrite Hst, Hen.
    apply (span_prefix title i token s'). rewrite Hs. reflexivity. }
  rewrite Hg, Hy. exists (Some y). split; [reflexivity|].
  intros y' [= <-]. split; [exact Hr|]. exists token. split; [|split; auto].
  eapply occurs_trans; [|apply (occurs_drop i)]. rewrite Hs.
  exists EmptyString, s'. reflexivity.
Qed.

Lemma plus_loop_sound {A : Type} (m : ascii -> bool) (k : Rx.state -> option A)
    (g : option (nat * nat)) (s : string) :
  forall (n : nat) (x : A),
    Rx.plus_loop m k g n s = Some x ->
    exists w s' c,
      s = w +:+ s' /\ w <> "" /\ all_chars m w = true
      /\ k {| Rx.pos := String.length w + n; Rx.prev := Some c; Rx.rest := s';
              Rx.grp := g |} = Some x.
Proof.
  induction s as [|c s IH]; intros n x; cbn [Rx.plus_loop]; [discriminate|].
  destruct (m c) eqn:Hc; [|discriminate].
  destruct (Rx.plus_loop m k g (S n) s) as [y|] eqn:E.
  - intros [= <-]. destruct (IH _ _ E) as (w & s' & c' & -> & _ & Hall & Hk).
    exists (String c w), s', c'. repeat split.
    + discriminate.
    + cbn. now rewrite Hc, Hall.
    + cbn [String.length]. now replace (S (String.length w) + n)%nat
        with (String.length w + S n)%nat by lia.
  - intros Hk. exists (String c EmptyString), s, c. repeat split.
    + discriminate.
    + cbn. now rewrite Hc.
    + exact Hk.
Qed.

Lemma digit_atom (c : ascii) : Re.atom_match false Re.Digit c = is_digit c.
Proof. reflexivity. Qed.

(** Group 1 of a match of [#?(\d+)] or of [(\d+)] is a run of digits of
    the subject. *)
Lemma digits_group (r : Rx.rx) (t : string) (f : Rx.found) :
  r = lot_pattern \/ r = bids_pattern ->
  Rx.search false r t = Some f ->
  exists w, Rx.group1 t f = Some w /\ w <> "" /\ all_chars is_digit w = true.
Proof.
  intros Hr H. unfold Rx.search in H. change t with (drop 0 t) in H at 1.
  apply search_from_at in H as (i & p & H). unfold Rx.match_at in H.
  assert (Hplus : forall a q,
            Rx.plus_loop (Re.atom_match false Re.Digit)
              (fun st' => Some {| Rx.m_start := i; Rx.m_end := Rx.pos st';
                                  Rx.m_group := Some (a, Rx.pos st') |})
              q a (drop a t) = Some f ->
            exists w, Rx.group1 t f = Some w /\ w <> "" /\ all_chars is_digit w = true).
  { intros a q Hq. apply plus_loop_sound in Hq as (w & s' & c & Hw & Hne & Hall & [= <-]).
    exists w. unfold Rx.group1. cbn [Rx.m_group Rx.pos]. split; [|split; [exact Hne|]].
    - f_equal. exact (span_prefix t a w s' Hw).
    - rewrite <- Hall. apply all_chars_ext. intros d. symmetry. apply digit_atom. }
  destruct Hr as [-> | ->].
  - unfold lot_pattern in H. cbn [Rx.run Rx.rest Rx.pos Rx.prev Rx.grp] in H.
    destruct (drop i t) as [|c s] eqn:Hd.
    + rewrite <- Hd in H. exact (Hplus i _ H).
    + destruct (Re.atom_match false (Re.Lit "#") c).
      * cbn [Rx.rest Rx.pos Rx.prev Rx.grp] in H.
        destruct (Rx.plus_loop _ _ _ (S i) s) as [g|] eqn:E.
        -- injection H as <-. rewrite <- (drop_drop_one i t c s Hd) in E.
           exact (Hplus (S i) _ E).
        -- rewrite <- Hd in H. exact (Hplus i _ H).
      * rewrite <- Hd in H. exact (Hplus i _ H).
  - unfold bids_pattern in H. cbn [Rx.run Rx.rest Rx.pos Rx.prev Rx.grp] in H.
    exact (Hplus i _ H).
Qed.

Lemma digits_not_na (w : string) : all_chars is_digit w = true -> w <> "N/A".
Proof. intros H ->. discriminate H. Qed.

Lemma foldl_invariant {A B : Type} (P : A -> Prop) (f : A -> B -> A) (l : list B) (a : A) :
  P a -> (forall a x, P a -> P (f a x)) -> P (foldl f a l).
Proof.
  intros Ha Hf. revert a Ha. induction l as [|x l IH]; intros a Ha; cbn; auto.
Qed.

(** X24. The lot number read from the essentials block, when there is
    one, is a non-empty run of digits of the page, so it is never empty
    and never ["N/A"]: for a listing that carries it, the append-mode
    duplicate check is the storage lookup and nothing else. The seller
    type is absent, ["Private Party"] or ["Dealer"]. *)
Theorem extract_essentials_shape (block : option (list strong)) :
  let e := _extract_essentials block in
  (forall lot, e_lot_number e = Some lot ->
     lot <> "" /\ all_chars is_digit lot = true /\ lot <> "N/A")
  /\ (e_seller_type e = None \/ e_seller_type e = Some "Private Party"
      \/ e_seller_type e = Some "Dealer")
  /\ (forall st l lot,
        listing.lot_number l = e_lot_number e -> e_lot_number e = Some lot ->
        ScrapingPipeline.is_duplicate (Some st) l = JSONStorage.exists_ st lot).
Proof.
  cbv zeta.
  assert (H : (forall lot, e_lot_number (_extract_essentials block) = Some lot ->
                 lot <> "" /\ all_chars is_digit lot = true)
              /\ (e_seller_type (_extract_essentials block) = None
                  \/ e_seller_type (_extract_essentials block) = Some "Private Party"
                  \/ e_seller_type (_extract_essentials block) = Some "Dealer")).
  { unfold _extract_essentials. destruct block as [strongs|].
    2:{ split; [discriminate | now left]. }
    apply (foldl_invariant
             (fun e => (forall lot, e_lot_number e = Some lot ->
                          lot <> "" /\ all_chars is_digit lot = true)
                       /\ (e_seller_type e = None
                           \/ e_seller_type e = Some "Private Party"
                           \/ e_seller_type e = Some "Dealer"))).
    - split; [discriminate | now left].
    - intros a x [Hl Ht]. unfold essentials_step.
      destruct (String.eqb (label x) "Location").
      { destruct (map_link x); split; auto. }
      destruct (String.eqb (label x) "Seller").
      { destruct (member_link x); split; auto. }
      destruct (String.eqb (label x) "Private Party or Dealer").
      { destruct (after_colon (parent_text x)) as [tail|]; [|split; auto].
        destruct (String.eqb_spec (strip tail) "Private Party") as [E|_].
        - cbn. split; [auto | right; left; now rewrite E].
        - destruct (String.eqb_spec (strip tail) "Dealer") as [E|_]; cbn; [|split; auto].
          split; [auto | right; right; now rewrite E]. }
      destruct (String.eqb (label x) "Lot"); [|split; auto].
      destruct (Rx.search false lot_pattern (parent_text x)) as [f|] eqn:E; [|split; auto].
      cbn. split; [|exact Ht]. intros lot Hlot.
      destruct (digits_group lot_pattern _ f (or_introl eq_refl) E) as (w & Hw & Hne & Hd).
      rewrite Hw in Hlot. injection Hlot as <-. auto. }
  destruct H as [Hlot Htype]. split; [|split; [exact Htype|]].
  - intros lot Hl. destruct (Hlot lot Hl) as [Hne Hd].
    repeat split; [exact Hne | exact Hd | now apply digits_not_na].
  - intros st l lot Hl He. unfold ScrapingPipeline.is_duplicate. rewrite Hl, He.
    destruct (Hlot lot He) as [Hne Hd]. apply digits_not_na in Hd.
    apply String.eqb_neq in Hd. rewrite Hd.
    destruct lot; [congruence | reflexivity].
Qed.

Lemma digits_acc_digits (w : string) :
  all_chars is_digit w = true ->
  forall acc n p, 0 <= acc -> (w <> "" \/ p = true) ->
    exists v, digits_acc acc n p w = Some (v, (n + String.length w)%nat) /\ 0 <= v.
Proof.
  induction w as [|c w IH]; intros Hall acc n p Hacc Hp; cbn [digits_acc String.length].
  - destruct Hp as [Hp | ->]; [congruence|]. rewrite Nat.add_0_r. eauto.
  - cbn in Hall. apply andb_true_iff in Hall as [Hc Hall]. rewrite Hc.
    replace (n + S (String.length w))%nat with (S n + String.length w)%nat by lia.
    apply IH; [exact Hall | | now right].
    unfold digit_val. lia.
Qed.

Lemma digit_not_literal_space (c : ascii) :
  is_digit c = true -> is_literal_space c = false.
Proof. destruct c as [[] [] [] [] [] [] [] []]; intros H; try discriminate H; reflexivity. Qed.

Lemma skip_trailing_digits (w : string) :
  all_chars is_digit w = true -> skip_trailing w = w.
Proof.
  induction w as [|c w IH]; [reflexivity|]. cbn. intros H.
  apply andb_true_iff in H as [Hc Hall]. rewrite (IH Hall).
  destruct w; [now rewrite (digit_not_literal_space c Hc) | reflexivity].
Qed.

(** [int()] on a run of digits: a non-negative number, unless the run is
    longer than the conversion limit. *)
Lemma py_int_digits (w : string) :
  all_chars is_digit w = true -> w <> "" ->
  (Z.of_nat (String.length w) <= max_str_digits -> exists n, py_int w = Ok n /\ 0 <= n)
  /\ (max_str_digits < Z.of_nat (String.length w) -> py_int w = Raise ValueError).
Proof.
  intros Hall Hne. unfold py_int, literal.
  destruct w as [|c w]; [congruence|].
  assert (Hc : is_digit c = true) by (cbn in Hall; now apply andb_true_iff in Hall as [? _]).
  cbn [skip_leading]. rewrite (digit_not_literal_space c Hc).
  rewrite (skip_trailing_digits _ Hall).
  assert (Hs : sign_split (String c w) = (1, String c w)).
  { destruct c as [[] [] [] [] [] [] [] []]; try discriminate Hc; reflexivity. }
  rewrite Hs. unfold digits.
  destruct (digits_acc_digits (String c w) Hall 0 O false) as (v & -> & Hv);
    [lia | left; discriminate|].
  rewrite Nat.add_0_l. split; intros Hlen.
  - apply Z.ltb_ge in Hlen. rewrite Hlen. exists (1 * v). split; [reflexivity | lia].
  - apply Z.ltb_lt in Hlen. now rewrite Hlen.
Qed.

Lemma group1_occurs (t : string) (f : Rx.found) (w : string) :
  Rx.group1 t f = Some w -> occurs w t.
Proof.
  unfold Rx.group1, Rx.span. destruct (Rx.m_group f) as [[i j]|]; [|discriminate].
  intros [= <-]. eapply occurs_trans; [apply occurs_take | apply occurs_drop].
Qed.

(** [\d+] takes a whole run of digits when what follows accepts it. *)
Lemma plus_loop_greedy {A : Type} (m : ascii -> bool) (k : Rx.state -> option A)
    (g : option (nat * nat)) :
  (forall st, k st <> None) ->
  forall (w : string) (c : ascii) (n : nat),
    all_chars m (String c w) = true ->
    exists c', Rx.plus_loop m k g n (String c w)
               = k {| Rx.pos := S n + String.length w; Rx.prev := Some c';
                      Rx.rest := EmptyString; Rx.grp := g |}.
Proof.
  intros Hk. induction w as [|c2 w IH]; intros c n Hall.
  - cbn in Hall. rewrite andb_true_r in Hall. cbn [Rx.plus_loop String.length].
    rewrite Hall, Nat.add_0_r. now exists c.
  - cbn [all_chars] in Hall. apply andb_true_iff in Hall as [Hc Hall].
    destruct (IH c2 (S n) Hall) as [c' E].
    assert (Hstep : Rx.plus_loop m k g n (String c (String c2 w))
                    = if m c then
                        match Rx.plus_loop m k g (S n) (String c2 w) with
                        | Some x => Some x
                        | None => k {| Rx.pos := S n; Rx.prev := Some c;
                                       Rx.rest := String c2 w; Rx.grp := g |}
                        end
                      else None) by reflexivity.
    rewrite Hstep, Hc, E. cbn [String.length].
    replace (S n + S (String.length w))%nat with (S (S n) + String.length w)%nat by lia.
    exists c'.
    destruct (k _) eqn:Ek; [reflexivity | now apply Hk in Ek].
Qed.

Lemma take_all (s : string) : take (String.length s) s = s.
Proof. induction s as [|c s IH]; [reflexivity|]. cbn. now rewrite IH. Qed.

(** On a text that is a run of digits, [(\d+)] finds the whole text. *)
Lemma bids_pattern_digits (count : string) :
  all_chars is_digit count = true -> count <> "" ->
  exists f, Rx.search false bids_pattern count = Some f /\ Rx.group1 count f = Some count.
Proof.
  intros Hall Hne. destruct count as [|c w]; [congruence|].
  unfold Rx.search. cbn [Rx.search_from]. unfold Rx.match_at, bids_pattern.
  cbn [Rx.run Rx.grp Rx.pos Rx.rest].
  match goal with
  | |- context [Rx.plus_loop ?m ?k ?g ?n (String c w)] =>
      assert (Hk : forall st, k st <> None) by (intros st; discriminate);
      destruct (plus_loop_greedy m k g Hk w c n Hall) as [c' E]
  end.
  rewrite E. cbn [Rx.pos Rx.grp]. eexists. split; [reflexivity|].
  unfold Rx.group1, Rx.span. cbn [Rx.m_group drop].
  rewrite Nat.sub_0_r. change (1 + String.length w)%nat with (String.length (String c w)).
  now rewrite take_all.
Qed.

(** X25. The bid count is absent or a non-negative number. Reading it
    fails in [int] only on a count of more digits than the conversion
    limit allows, and then with [ValueError]; a first row that mentions
    bids with such a count as its value does make it fail. When the
    first row whose label mentions bids has no value element,
    [_extract_bids] raises [AttributeError]. *)
Theorem extract_bids_shape (stats : option (list stat_row)) :
  (forall e, _extract_bids stats = BidsRaise e ->
     e = ValueError
     /\ exists rows row text w,
          stats = Some rows /\ row ∈ rows /\ stat_value row = Some text
          /\ occurs w text /\ all_chars is_digit w = true
          /\ max_str_digits < Z.of_nat (String.length w))
  /\ (forall n, _extract_bids stats = Bids (Some n) -> 0 <= n)
  /\ (forall pre row rest text,
        stats = Some (pre ++ row :: rest)%list ->
        Forall (fun r => forall t, stat_label r = Some t ->
                           contains "bids" (lower t) = false) pre ->
        stat_label row = Some text -> contains "bids" (lower text) = true ->
        stat_value row = None ->
        _extract_bids stats = BidsAttributeError)
  /\ (forall label count rest,
        contains "bids" (lower label) = true ->
        all_chars is_digit count = true ->
        max_str_digits < Z.of_nat (String.length count) ->
        _extract_bids
          (Some ({| stat_label := Some label; stat_value := Some count |} :: rest))
        = BidsRaise ValueError).
Proof.
  assert (Hlong : forall label count rest,
            contains "bids" (lower label) = true ->
            all_chars is_digit count = true ->
            max_str_digits < Z.of_nat (String.length count) ->
            _extract_bids
              (Some ({| stat_label := Some label; stat_value := Some count |} :: rest))
            = BidsRaise ValueError).
  { intros label count rest Hc Hd Hlen.
    assert (Hne : count <> "").
    { intros ->. cbn in Hlen. unfold max_str_digits in Hlen. lia. }
    destruct (bids_pattern_digits count Hd Hne) as (f & Hs & Hg).
    cbn [_extract_bids bids_in_rows stat_label stat_value]. rewrite Hc, Hs, Hg.
    now rewrite (proj2 (py_int_digits count Hd Hne) Hlen). }
  assert (H : forall rows,
            (forall e, bids_in_rows rows = BidsRaise e ->
               e = ValueError
               /\ exists row text w,
                    row ∈ rows /\ stat_value row = Some text
                    /\ occurs w text /\ all_chars is_digit w = true
                    /\ max_str_digits < Z.of_nat (String.length w))
            /\ (forall n, bids_in_rows rows = Bids (Some n) -> 0 <= n)).
  { induction rows as [|row rows [IH1 IH2]]; cbn [bids_in_rows].
    - split; [discriminate | discriminate].
    - assert (Hrest : (forall e, bids_in_rows rows = BidsRaise e ->
                         e = ValueError
                         /\ exists r text w,
                              r ∈ row :: rows /\ stat_value r = Some text
                              /\ occurs w text /\ all_chars is_digit w = true
                              /\ max_str_digits < Z.of_nat (String.length w))
                      /\ (forall n, bids_in_rows rows = Bids (Some n) -> 0 <= n)).
      { split; [|exact IH2]. intros e He.
        destruct (IH1 e He) as (-> & r & text & w & Hin & Hrest).
        split; [reflexivity|]. exists r, text, w. split; [now right | exact Hrest]. }
      destruct (stat_label row) as [text|]; [|exact Hrest].
      destruct (contains "bids" (lower text)); [|exact Hrest].
      destruct (stat_value row) as [bids_text|] eqn:Ev; [|split; discriminate].
      destruct (Rx.search false bids_pattern bids_text) as [f|] eqn:E; [|exact Hrest].
      destruct (digits_group bids_pattern _ f (or_intror eq_refl) E) as (w & Hg & Hne & Hd).
      rewrite Hg. destruct (py_int_digits w Hd Hne) as [Hfew Hmany].
      destruct (Z.le_gt_cases (Z.of_nat (String.length w)) max_str_digits) as [Hle|Hgt].
      + destruct (Hfew Hle) as (n & -> & Hn).
        split; [discriminate | now intros n' [= <-]].
      + rewrite (Hmany Hgt). split; [|discriminate].
        intros e [= <-]. split; [reflexivity|].
        exists row, bids_text, w. split; [now left|]. split; [exact Ev|].
        split; [exact (group1_occurs _ _ _ Hg)|]. split; [exact Hd | exact Hgt]. }
  unfold _extract_bids. destruct stats as [rows|].
  2:{ split; [discriminate|]. split; [discriminate|]. split; [discriminate | exact Hlong]. }
  destruct (H rows) as [H1 H2]. split.
  { intros e He. destruct (H1 e He) as (-> & row & text & w & Hrest).
    split; [reflexivity|]. exists rows, row, text, w. split; [reflexivity | exact Hrest]. }
  split; [exact H2|]. split.
  - intros pre row rest text [= ->] Hpre Hl Hc Hv. clear H1 H2.
    induction Hpre as [|r pre Hr _ IH]; cbn [app bids_in_rows].
    + now rewrite Hl, Hc, Hv.
    + destruct (stat_label r) as [t|] eqn:Et; [|exact IH].
      now rewrite (Hr t eq_refl).
  - exact Hlong.
Qed.

End PageFields.

(** ** The high bidder *)

Section HighBidder.
Import scrape_config BringATrailerSite.

Lemma last_link (pre : list bid_link) (b : bid_link) :
  match (pre ++ [b])%list with
  | [] => None
  | _ :: _ => option_map (fun link => strip (bid_text link)) (last (pre ++ [b])%list)
  end = Some (strip (bid_text b)).
Proof.
  rewrite last_snoc. now destruct pre.
Qed.

Lemma bidder_loop_first_links (views : nat -> comments_view) (price : option Z)
    (k : nat) (pre : list bid_link) (b : bid_link) :
  truthy_int price = false ->
  (forall j, (j < k)%nat -> bid_links (views j) = [] /\ more_comments (views j) = true) ->
  bid_links (views k) = (pre ++ [b])%list ->
  forall n left clicks, (clicks + n = k)%nat -> (n < left)%nat ->
    bidder_loop left clicks views price = Some (strip (bid_text b)).
Proof.
  intros Hp Hbefore Hk. induction n as [|n IH]; intros left clicks Hc Hl.
  - destruct left as [|left]; [lia|]. cbn [bidder_loop].
    replace clicks with k by lia. rewrite Hk.
    pose proof (last_link pre b) as Hlast.
    destruct (pre ++ [b])%list as [|x xs]; [discriminate|].
    destruct price as [p|]; [|exact Hlast]. now rewrite Hp.
  - destruct left as [|left]; [lia|]. cbn [bidder_loop].
    destruct (Hbefore clicks ltac:(lia)) as [-> ->].
    apply IH; lia.
Qed.

Lemma bidder_loop_gives_up (views : nat -> comments_view) (price : option Z) :
  (forall j, (j < 10)%nat -> bid_links (views j) = [] /\ more_comments (views j) = true) ->
  forall left clicks, (clicks + left <= 10)%nat ->
    bidder_loop left clicks views price = None.
Proof.
  intros H. induction left as [|left IH]; intros clicks Hc; cbn [bidder_loop]; [reflexivity|].
  destruct (H clicks ltac:(lia)) as [-> ->]. apply IH. lia.
Qed.

Lemma matching_bidder_sound (links : list bid_link) (price : Z) (x : string) :
  matching_bidder links price = Some x ->
  exists link comment_text,
    link ∈ links /\ x = strip (bid_text link)
    /\ bid_comment link = Ok comment_text /\ stated_amount comment_text = Some price.
Proof.
  induction links as [|link links IH]; cbn [matching_bidder]; [discriminate|].
  assert (Hrest : matching_bidder links price = Some x ->
                  exists l c, l ∈ link :: links /\ x = strip (bid_text l)
                              /\ bid_comment l = Ok c /\ stated_amount c = Some price).
  { intros H. destruct (IH H) as (l & c & Hin & Hx). exists l, c. split; [now right | exact Hx]. }
  destruct (bid_comment link) as [comment_text|] eqn:Hc; [|exact Hrest].
  destruct (stated_amount comment_text) as [amount|] eqn:Ha; [|exact Hrest].
  destruct (Z.eqb_spec amount price) as [->|]; [|exact Hrest].
  intros [= <-]. exists link, comment_text. repeat split; [now left | exact Hc | exact Ha].
Qed.

Lemma bidder_loop_priced (views : nat -> comments_view) (p : Z) (x : string) :
  p <> 0 ->
  forall left clicks,
    bidder_loop left clicks views (Some p) = Some x ->
    exists j link comment_text,
      (clicks <= j < clicks + left)%nat /\ link ∈ bid_links (views j)
      /\ x = strip (bid_text link)
      /\ bid_comment link = Ok comment_text /\ stated_amount comment_text = Some p.
Proof.
  intros Hp. induction left as [|left IH]; intros clicks; cbn [bidder_loop]; [discriminate|].
  assert (Hgo : (if more_comments (views clicks)
                 then bidder_loop left (S clicks) views (Some p) else None) = Some x ->
                exists j link comment_text,
                  (clicks <= j < clicks + S left)%nat /\ link ∈ bid_links (views j)
                  /\ x = strip (bid_text link)
                  /\ bid_comment link = Ok comment_text
                  /\ stated_amount comment_text = Some p).
  { destruct (more_comments (views clicks)); [|discriminate].
    intros H. destruct (IH _ H) as (j & l & c & Hj & Hrest).
    exists j, l, c. split; [lia | exact Hrest]. }
  destruct (bid_links (views clicks)) as [|l0 ls] eqn:El; [exact Hgo|].
  cbn [truthy_int]. apply Z.eqb_neq in Hp as Hb. rewrite Hb. cbn [negb].
  destruct (matching_bidder (rev (l0 :: ls)) p) as [y|] eqn:Em; [|exact Hgo].
  intros [= <-]. apply matching_bidder_sound in Em as (l & c & Hin & Hrest).
  exists clicks, l, c. split; [lia|]. split; [|exact Hrest].
  rewrite El. apply list_elem_of_In. apply list_elem_of_In in Hin.
  now apply in_rev.
Qed.

(** X26. Without a sale price (none, or zero) the high bidder is the
    stripped text of the newest bid notification on the first view that
    shows any, the load-more button having been there until then; the
    comments are not read. With a sale price, a bidder that is returned
    is one whose comment states exactly that amount. After ten clicks
    on the load-more button without a notification the search gives up,
    whatever the page shows next. *)
Theorem extract_high_bidder_cases (views : nat -> comments_view) (price : option Z) :
  (forall k pre b,
     truthy_int price = false -> (k < 10)%nat ->
     (forall j, (j < k)%nat ->
        bid_links (views j) = [] /\ more_comments (views j) = true) ->
     bid_links (views k) = (pre ++ [b])%list ->
     _extract_high_bidder views price = Some (strip (bid_text b)))
  /\ (forall p x,
        price = Some p -> p <> 0 -> _extract_high_bidder views price = Some x ->
        exists j link comment_text,
          (j < 10)%nat /\ link ∈ bid_links (views j) /\ x = strip (bid_text link)
          /\ bid_comment link = Ok comment_text /\ stated_amount comment_text = Some p)
  /\ ((forall j, (j < 10)%nat ->
         bid_links (views j) = [] /\ more_comments (views j) = true) ->
      _extract_high_bidder views price = None).
Proof.
  unfold _extract_high_bidder. split; [|split].
  - intros k pre b Hp Hk Hbefore Hlinks.
    apply (bidder_loop_first_links views price k pre b Hp Hbefore Hlinks k 10%nat O); lia.
  - intros p x -> Hp H.
    destruct (bidder_loop_priced views p x Hp _ _ H) as (j & l & c & Hj & Hrest).
    exists j, l, c. split; [lia | exact Hrest].
  - intros H. apply (bidder_loop_gives_up views price H). lia.
Qed.

End HighBidder.

(** ** Colours *)

Section Colours.

Variable re_search_i : string -> string -> option string.

Lemma first_some_elem {A B : Type} (f : A -> option B) (l : list A) (b : B) :
  first_some f l = Some b -> exists a, a ∈ l /\ f a = Some b.
Proof.
  induction l as [|a l IH]; cbn [first_some]; [discriminate|].
  destruct (f a) as [b'|] eqn:E.
  - intros [= <-]. exists a. split; [now left | exact E].
  - intros H. destruct (IH H) as (a' & Hin & Ha). exists a'. split; [now right | exact Ha].
Qed.

Lemma scan_exterior_keeps_interior (cfg : ColorExtractor.exterior_config)
    (details : list string) (ext int : option string) :
  ColorExtractor.next_is_interior cfg = false ->
  snd (ColorExtractor.scan_exterior re_search_i cfg details ext int) = int.
Proof.
  intros Hn. revert ext. induction details as [|d rest IH]; intros ext;
    cbn [ColorExtractor.scan_exterior]; [reflexivity|].
  destruct (ColorExtractor.set ext); [apply IH|].
  destruct (first_some _ _); [|apply IH]. rewrite Hn. apply IH.
Qed.

Lemma scan_exterior_found (cfg : ColorExtractor.exterior_config)
    (details : list string) (ext int : option string) (x : string) :
  fst (ColorExtractor.scan_exterior re_search_i cfg details ext int) = Some x ->
  ext = Some x
  \/ exists d p g, d ∈ details /\ p ∈ ColorExtractor.patterns cfg
                   /\ re_search_i p d = Some g /\ x = strip g.
Proof.
  revert ext int. induction details as [|d rest IH]; intros ext int;
    cbn [ColorExtractor.scan_exterior]; [now left|].
  assert (Hrest : forall e i,
            fst (ColorExtractor.scan_exterior re_search_i cfg rest e i) = Some x ->
            e = Some x
            \/ exists d' p g, d' ∈ d :: rest /\ p ∈ ColorExtractor.patterns cfg
                              /\ re_search_i p d' = Some g /\ x = strip g).
  { intros e i H. destruct (IH e i H) as [He | (d' & p & g & Hin & Hr)]; [now left|].
    right. exists d', p, g. split; [now right | exact Hr]. }
  destruct (ColorExtractor.set ext); [apply Hrest|].
  destruct (first_some _ _) as [g|] eqn:E; [|apply Hrest].
  intros H. apply Hrest in H as [[= <-] | H]; [|now right].
  apply first_some_elem in E as (p & Hp & Hg).
  right. exists d, p, g. repeat split; [now left | exact Hp | exact Hg].
Qed.

Lemma scan_interior_found (cfg : ColorExtractor.interior_config) (details : list string)
    (x : string) :
  ColorExtractor.scan_interior cfg details = Some x ->
  exists d, d ∈ details /\ x = strip d /\ x <> ""
            /\ (length (split d) <= 8)%nat
            /\ ColorExtractor.mentions (ColorExtractor.skip_keywords cfg) (lower d) = false
            /\ ColorExtractor.mentions (ColorExtractor.keywords cfg) (lower d) = true.
Proof.
  induction details as [|d rest IH]; cbn [ColorExtractor.scan_interior]; [discriminate|].
  assert (Hrest : ColorExtractor.scan_interior cfg rest = Some x ->
                  exists d', d' ∈ d :: rest /\ x = strip d' /\ x <> ""
                    /\ (length (split d') <= 8)%nat
                    /\ ColorExtractor.mentions (ColorExtractor.skip_keywords cfg) (lower d')
                       = false
                    /\ ColorExtractor.mentions (ColorExtractor.keywords cfg) (lower d')
                       = true).
  { intros H. destruct (IH H) as (d' & Hin & Hr). exists d'. split; [now right | exact Hr]. }
  destruct (ColorExtractor.mentions (ColorExtractor.skip_keywords cfg) (lower d)) eqn:Hs;
    [exact Hrest|].
  destruct (truthy (strip d)) eqn:Ht; cbn [negb orb]; [|exact Hrest].
  destruct (Nat.ltb_spec 8 (length (split d))) as [|Hw]; [exact Hrest|].
  destruct (ColorExtractor.mentions (ColorExtractor.keywords cfg) (lower d)) eqn:Hk;
    [|exact Hrest].
  intros [= <-]. exists d. repeat split; auto; [now left|].
  intros E. rewrite E in Ht. discriminate.
Qed.

(** X27. An exterior colour that the colour extractor returns is the
    stripped first group of one of its patterns on one of the detail
    lines. When the next line is not taken as the interior, an interior
    colour that it returns is a stripped, non-empty detail line of at
    most eight words that mentions an interior keyword and no skip
    keyword; with no rules it returns nothing. *)
Theorem color_extract_shape (rules : list ColorExtractor.color_rules)
    (ctx : option context) (ext int : option string) :
  ColorExtractor.extract re_search_i rules ctx = (ext, int) ->
  let details := match ctx with Some c => ctx_listing_details c | None => [] end in
  (rules = [] -> ext = None /\ int = None)
  /\ (forall c rest x, rules = c :: rest -> ext = Some x ->
        exists d p g, d ∈ details /\ p ∈ ColorExtractor.patterns (ColorExtractor.exterior c)
                      /\ re_search_i p d = Some g /\ x = strip g)
  /\ (forall c rest x, rules = c :: rest ->
        ColorExtractor.next_is_interior (ColorExtractor.exterior c) = false ->
        int = Some x ->
        exists d, d ∈ details /\ x = strip d /\ x <> ""
          /\ (length (split d) <= 8)%nat
          /\ ColorExtractor.mentions
               (ColorExtractor.skip_keywords (ColorExtractor.interior c)) (lower d) = false
          /\ ColorExtractor.mentions
               (ColorExtractor.keywords (ColorExtractor.interior c)) (lower d) = true).
Proof.
  intros H. cbv zeta. unfold ColorExtractor.extract in H.
  set (details := match ctx with Some c => ctx_listing_details c | None => [] end) in *.
  destruct rules as [|c rest]; [injection H as <- <-|].
  { repeat split; intros; discriminate. }
  split; [discriminate|].
  pose proof (scan_exterior_found (ColorExtractor.exterior c) details None None) as Hext.
  pose proof (scan_exterior_keeps_interior (ColorExtractor.exterior c) details None None)
    as Hint.
  destruct (ColorExtractor.scan_exterior re_search_i (ColorExtractor.exterior c)
              details None None) as [e i] eqn:E.
  cbn [fst snd] in Hext, Hint.
  assert (He : ext = e).
  { destruct (ColorExtractor.set i); [now injection H as <- _|].
    destruct (ColorExtractor.scan_interior _ _); now injection H as <- _. }
  split.
  - intros c' rest' x [= <- <-] Hx. rewrite He in Hx.
    destruct (Hext x Hx) as [Hn | Hf]; [discriminate | exact Hf].
  - intros c' rest' x [= <- <-] Hn Hx. specialize (Hint Hn). subst i.
    cbn [ColorExtractor.set] in H.
    destruct (ColorExtractor.scan_interior (ColorExtractor.interior c) details)
      as [found|] eqn:Ef; injection H as _ <-; [|discriminate].
    injection Hx as <-. exact (scan_interior_found _ _ _ Ef).
Qed.

End Colours.

(** ** Further instances *)

Lemma deduplicate_idempotent_witness :
  NoDup (map listing.url [sold "u1" "999"; sold "u2" "555"])
  /\ ScrapingPipeline._deduplicate [sold "u1" "999"; sold "u2" "555"]
     = [sold "u1" "999"; sold "u2" "555"].
Proof.
  assert (H : NoDup (map listing.url [sold "u1" "999"; sold "u2" "555"])).
  { cbn. apply NoDup_cons. split; [|apply NoDup_singleton].
    intros Hin. apply list_elem_of_In in Hin. destruct Hin as [Hin|[]]. discriminate. }
  split; [exact H|].
  apply (proj1 (deduplicate_idempotent [sold "u1" "999"; sold "u2" "555"])). exact H.
Defined.

Lemma filter_fields_keeps_witness :
  ("vin" ∈ ["url"; "vin"])
  /\ listing.to_dict (ScrapingPipeline._filter_fields (sold "u1" "999") ["url"; "vin"])
       !! "vin"
     = listing.to_dict (sold "u1" "999") !! "vin".
Proof.
  assert (H : "vin" ∈ ["url"; "vin"]) by (right; left).
  split; [exact H|].
  apply (filter_fields_keeps (sold "u1" "999") ["url"; "vin"] "vin"). exact H.
Defined.

Lemma filter_fields_drops_witness :
  ("vin" ∉ ["url"; "title"])
  /\ listing.vin (ScrapingPipeline._filter_fields (sold "u1" "999") ["url"; "title"]) = None.
Proof.
  assert (H : "vin" ∉ ["url"; "title"]).
  { intros Hin. apply list_elem_of_In in Hin.
    destruct Hin as [Hin|[Hin|[]]]; discriminate. }
  split; [exact H|].
  apply (proj1 (proj2 (proj2 (filter_fields_drops (sold "u1" "999") ["url"; "title"])))).
  exact H.
Defined.

Lemma scrape_listings_kept_witness :
  (sold "u1" "999"
     ∈ ScrapingPipeline.listings
         (ScrapingPipeline._scrape_listings (Some prior) (config_years None None)
            [seen "u1" "999"; seen "u2" "1234"]))
  /\ exists v l,
       v ∈ [seen "u1" "999"; seen "u2" "1234"]
       /\ ScrapingPipeline.extracted v = Ok l
       /\ ScrapingPipeline.is_duplicate (Some prior) l = false
       /\ acceptable (config_years None None) l
       /\ sold "u1" "999" = as_kept (config_years None None) l.
Proof.
  assert (H : sold "u1" "999"
                ∈ ScrapingPipeline.listings
                    (ScrapingPipeline._scrape_listings (Some prior)
                       (config_years None None) [seen "u1" "999"; seen "u2" "1234"])).
  { vm_compute. left. }
  split; [exact H|].
  apply (scrape_listings_kept (Some prior) (config_years None None)
           [seen "u1" "999"; seen "u2" "1234"] (sold "u1" "999")).
  exact H.
Defined.

Lemma run_append_first_productive_witness :
  Forall (fun pg => exists ws,
            pg = Ok ws
            /\ ScrapingPipeline.listings
                 (ScrapingPipeline._scrape_listings (Some prior) (config_years None None) ws)
               = [])
    [Ok [seen "u2" "1234"]]
  /\ ScrapingPipeline.listings
       (ScrapingPipeline._scrape_listings (Some prior) (config_years None None)
          [seen "u1" "999"]) <> []
  /\ ScrapingPipeline.run (Some prior) (config_years None None)
       ([Ok [seen "u2" "1234"]] ++ Ok [seen "u1" "999"] :: [Ok [seen "u3" "555"]])
     = Ok (ScrapingPipeline._deduplicate
             (ScrapingPipeline.listings
                (ScrapingPipeline._scrape_listings (Some prior) (config_years None None)
                   [seen "u1" "999"]))).
Proof.
  assert (H1 : Forall (fun pg => exists ws,
                         pg = Ok ws
                         /\ ScrapingPipeline.listings
                              (ScrapingPipeline._scrape_listings (Some prior)
                                 (config_years None None) ws) = [])
                 [Ok [seen "u2" "1234"]]).
  { constructor; [|constructor]. exists [seen "u2" "1234"].
    split; [reflexivity | vm_compute; reflexivity]. }
  assert (H2 : ScrapingPipeline.listings
                 (ScrapingPipeline._scrape_listings (Some prior) (config_years None None)
                    [seen "u1" "999"]) <> []).
  { vm_compute. discriminate. }
  split; [exact H1|]. split; [exact H2|].
  apply (run_append_first_productive prior (config_years None None)
           [Ok [seen "u2" "1234"]] [Ok [seen "u3" "555"]] [seen "u1" "999"] H1 H2).
Defined.

Lemma run_distinct_urls_witness :
  ScrapingPipeline.run None (config_years None None)
    [Ok [seen "u1" "999"; seen "u1" "999"]; Ok [seen "u3" "555"]]
  = Ok [sold "u1" "999"; sold "u3" "555"]
  /\ NoDup (map listing.url [sold "u1" "999"; sold "u3" "555"]).
Proof.
  assert (H : ScrapingPipeline.run None (config_years None None)
                [Ok [seen "u1" "999"; seen "u1" "999"]; Ok [seen "u3" "555"]]
              = Ok [sold "u1" "999"; sold "u3" "555"]).
  { vm_compute. reflexivity. }
  split; [exact H|].
  exact (proj1 (run_distinct_urls None (config_years None None) _ _ H)).
Defined.

Lemma save_then_load_witness :
  JSONStorage.save (JSONStorage.init "data/out.json" None) [sold "u1" "999"]
  = Some (JSONStorage.written [sold "u1" "999"])
  /\ JSONStorage.load (JSONStorage.written [sold "u1" "999"])
     = Ok (reread <$> [sold "u1" "999"]).
Proof.
  assert (H : JSONStorage.save (JSONStorage.init "data/out.json" None) [sold "u1" "999"]
              = Some (JSONStorage.written [sold "u1" "999"])).
  { vm_compute. reflexivity. }
  split; [exact H|].
  exact (proj1 (proj1 (proj2 (save_then_load (JSONStorage.init "data/out.json" None)
                                (JSONStorage.init "data/out.json" None)
                                [sold "u1" "999"])) _ H)).
Defined.

Lemma saved_lots_are_known_witness :
  JSONStorage.save (JSONStorage.init "data/out.json" None) [sold "u1" "999"]
  = Some (JSONStorage.written [sold "u1" "999"])
  /\ ScrapingPipeline.is_duplicate
       (Some (JSONStorage.open "data/out.json" (JSONStorage.written [sold "u1" "999"])))
       (sold "u9" "999")
     = true.
Proof.
  assert (H : JSONStorage.save (JSONStorage.init "data/out.json" None) [sold "u1" "999"]
              = Some (JSONStorage.written [sold "u1" "999"])).
  { vm_compute. reflexivity. }
  split; [exact H|].
  assert (Hd : ScrapingPipeline.is_duplicate
                 (Some (JSONStorage.open "data/out.json"
                          (JSONStorage.written [sold "u1" "999"])))
                 (sold "u1" "999") = true).
  { apply (proj1 (saved_lots_are_known (JSONStorage.init "data/out.json" None)
                    "data/out.json" [sold "u1" "999"] _ H) (sold "u1" "999") "999").
    - left.
    - reflexivity.
    - discriminate.
    - discriminate. }
  exact Hd.
Defined.

Lemma get_listing_urls_bounds_witness :
  0 <= scrape_config.max_listings (config_years None None)
  /\ Z.of_nat (length (BringATrailerSite.get_listing_urls "https://bringatrailer.com"
                         [Some "/listing/a"; None; Some "https://x/y"]
                         (config_years None None)))
     <= scrape_config.max_listings (config_years None None).
Proof.
  assert (H : 0 <= scrape_config.max_listings (config_years None None)).
  { cbn. lia. }
  split; [exact H|].
  pose proof (get_listing_urls_bounds "https://bringatrailer.com"
                [Some "/listing/a"; None; Some "https://x/y"] (config_years None None))
    as Hb.
  cbv zeta in Hb. exact (proj2 (proj1 (proj2 Hb) H)).
Defined.

Lemma delays_positive_witness :
  0 <= DelayStrategy.action_count (DelayStrategy.init (1 # 10))
  /\ DelayStrategy.in_ranges ordinary
  /\ (2 <= 2)%Q
  /\ (1 # 2 <= fst (DelayStrategy.get_delay (DelayStrategy.init (1 # 10)) ordinary))%Q
  /\ (215 # 100
      <= fst (DelayStrategy.get_page_load_delay (DelayStrategy.init (1 # 10)) 2 ordinary))%Q.
Proof.
  assert (H1 : 0 <= DelayStrategy.action_count (DelayStrategy.init (1 # 10))).
  { cbn. lia. }
  assert (H2 : DelayStrategy.in_ranges ordinary).
  { unfold DelayStrategy.in_ranges, ordinary; cbn. repeat split; try lia; try easy. }
  assert (H3 : (2 <= 2)%Q) by apply Qle_refl.
  split; [exact H1|]. split; [exact H2|]. split; [exact H3|].
  exact (delays_positive (DelayStrategy.init (1 # 10)) 2 ordinary H1 H2 H3).
Defined.

Lemma first_delays_floored_witness :
  (length [ordinary; ordinary] <= 9)%nat
  /\ Forall DelayStrategy.in_ranges [ordinary; ordinary]
  /\ Forall (fun x => (20 <= x)%Q)
       (DelayStrategy.get_delays (DelayStrategy.init 20) [ordinary; ordinary]).
Proof.
  assert (H1 : (length [ordinary; ordinary] <= 9)%nat) by (cbn; lia).
  assert (H2 : Forall DelayStrategy.in_ranges [ordinary; ordinary]).
  { assert (H : DelayStrategy.in_ranges ordinary).
    { unfold DelayStrategy.in_ranges, ordinary; cbn. repeat split; try lia; try easy. }
    constructor; [exact H|]. constructor; [exact H|]. constructor. }
  split; [exact H1|]. split; [exact H2|].
  exact (proj2 (first_delays_floored 20 [ordinary; ordinary]) H1 H2).
Defined.

Lemma vin_extract_validated_witness :
  VINExtractor.extract Re.search_group1 [vin_rule ".essentials a"; vin_rule ".vin-tag"]
    two_tags None
  = Ok (Some "WBSBL93498CY13754")
  /\ VINExtractor._validate_vin "WBSBL93498CY13754" = true.
Proof.
  assert (H : VINExtractor.extract Re.search_group1
                [vin_rule ".essentials a"; vin_rule ".vin-tag"] two_tags None
              = Ok (Some "WBSBL93498CY13754")).
  { vm_compute. reflexivity. }
  split; [exact H|].
  exact (proj1 (proj2 (vin_extract_validated Re.search_group1 _ _ _ _ H))).
Defined.

Lemma mileage_rule_raises_witness :
  Forall (fun x => MileageExtractor.candidate Re.search_group1 (Some tmu_page) None x
                   = Ok None) [title_rule]
  /\ MileageExtractor.candidate Re.search_group1 (Some tmu_page) None letters_rule
     = Raise ValueError
  /\ MileageExtractor.extract_run Re.search_group1
       ([title_rule] ++ letters_rule :: [detail_rule]) None (Some tmu_page)
     = {| consulted := [title_rule] ++ [letters_rule]; outcome := Raise ValueError |}.
Proof.
  assert (H1 : Forall (fun x => MileageExtractor.candidate Re.search_group1
                                  (Some tmu_page) None x = Ok None) [title_rule]).
  { constructor; [vm_compute; reflexivity | constructor]. }
  assert (H2 : MileageExtractor.candidate Re.search_group1 (Some tmu_page) None
                 letters_rule = Raise ValueError).
  { vm_compute. reflexivity. }
  split; [exact H1|]. split; [exact H2|].
  exact (proj1 (mileage_rule_raises Re.search_group1 [title_rule] [detail_rule]
                  letters_rule None (Some tmu_page) ValueError) H1 H2).
Defined.

Lemma extract_year_range_witness :
  BringATrailerSite._extract_year "12k-Mile 2003 BMW M3" = Ok (Some 2003)
  /\ 1900 <= 2003 <= 2099.
Proof.
  assert (H : BringATrailerSite._extract_year "12k-Mile 2003 BMW M3" = Ok (Some 2003)).
  { vm_compute. reflexivity. }
  split; [exact H|].
  destruct (extract_year_range "12k-Mile 2003 BMW M3") as (o & Ho & Hy).
  rewrite H in Ho. injection Ho as <-.
  exact (proj1 (Hy 2003 eq_refl)).
Defined.

Lemma extract_essentials_shape_witness :
  BringATrailerSite.e_lot_number (BringATrailerSite._extract_essentials (Some [lot_line]))
  = Some "1234"
  /\ "1234" <> "" /\ all_chars is_digit "1234" = true /\ "1234" <> "N/A".
Proof.
  assert (H : BringATrailerSite.e_lot_number
                (BringATrailerSite._extract_essentials (Some [lot_line])) = Some "1234").
  { vm_compute. reflexivity. }
  split; [exact H|].
  pose proof (extract_essentials_shape (Some [lot_line])) as Hs.
  cbv zeta in Hs. exact (proj1 Hs "1234" H).
Defined.

Lemma extract_bids_shape_witness :
  contains "bids" (lower "Bids") = true
  /\ BringATrailerSite._extract_bids (Some ([] ++ bids_row :: [])%list)
     = BringATrailerSite.BidsAttributeError.
Proof.
  assert (H : contains "bids" (lower "Bids") = true) by (vm_compute; reflexivity).
  split; [exact H|].
  apply (proj1 (proj2 (proj2 (extract_bids_shape (Some ([] ++ bids_row :: [])%list))))
           [] bids_row [] "Bids").
  - reflexivity.
  - constructor.
  - reflexivity.
  - exact H.
  - reflexivity.
Defined.

Lemma extract_high_bidder_cases_witness :
  (forall j, (j < 1)%nat ->
     BringATrailerSite.bid_links (after_one_click j) = []
     /\ BringATrailerSite.more_comments (after_one_click j) = true)
  /\ BringATrailerSite._extract_high_bidder after_one_click None = Some "late".
Proof.
  assert (H : forall j, (j < 1)%nat ->
                BringATrailerSite.bid_links (after_one_click j) = []
                /\ BringATrailerSite.more_comments (after_one_click j) = true).
  { intros j Hj. assert (j = O) as -> by lia. split; reflexivity. }
  split; [exact H|].
  assert (Hs : strip " late " = "late") by (vm_compute; reflexivity).
  rewrite <- Hs.
  apply (proj1 (extract_high_bidder_cases after_one_click None) 1%nat
           [bid_by " early " "USD $20,000 bid placed by early"]
           (bid_by " late " "USD $21,500 bid placed by late")).
  - reflexivity.
  - lia.
  - exact H.
  - reflexivity.
Defined.

Lemma color_extract_shape_witness :
  ColorExtractor.extract Re.search_group1 [paint_rules] (Some paint_page)
  = (Some "Alpine", Some "Black Leather Upholstery")
  /\ exists d, d ∈ ctx_listing_details paint_page
       /\ "Black Leather Upholstery" = strip d /\ "Black Leather Upholstery" <> ""
       /\ (length (split d) <= 8)%nat
       /\ ColorExtractor.mentions
            (ColorExtractor.skip_keywords (ColorExtractor.interior paint_rules)) (lower d)
          = false
       /\ ColorExtractor.mentions
            (ColorExtractor.keywords (ColorExtractor.interior paint_rules)) (lower d)
          = true.
Proof.
  assert (H : ColorExtractor.extract Re.search_group1 [paint_rules] (Some paint_page)
              = (Some "Alpine", Some "Black Leather Upholstery")).
  { vm_compute. reflexivity. }
  split; [exact H|].
  pose proof (color_extract_shape Re.search_group1 [paint_rules] (Some paint_page) _ _ H)
    as Hc.
  cbv zeta in Hc.
  exact (proj2 (proj2 Hc) paint_rules [] "Black Leather Upholstery"
           eq_refl eq_refl eq_refl).
Defined.
